(** * Shoe-store back end: orders, inventory, cart and login lockout

    A shallow embedding of the order/inventory workflow
    (services/orders.service.js, repositories/orders.repository.js,
    models/orders.model.js, models/products.model.js), of the cart
    (services/carts.service.js, repositories/carts.repository.js,
    models/carts.model.js) and of the login lockout
    (services/users.service.js, repositories/users.repository.js).

    Conventions.
    - A JavaScript Number is an integer [Z]; prices are whole units.
    - An optional field is an [option]: [None] is the absent value
      ([undefined], or [null] where the schema defaults to it).
    - A collection is a finite map from the document id to the document.
    - A function that talks to the database is a state transformer over
      [Db] returning a [Result]; a thrown exception is [Err].
    - An id is a string. Where the source both casts the string of a
      request to an ObjectId and uses the string itself (the cart), the
      cast is written out ([castObjectId]); elsewhere the string stands for
      the ObjectId it casts to. *)

From stdpp Require Import base option list strings gmap fin_maps.
From Stdlib Require Import ZArith Lia Ascii String.

Local Open Scope string_scope.
Local Open Scope Z_scope.

(** ** JavaScript helpers *)

Inductive Result (E A : Type) : Type :=
| Ok (a : A)
| Err (e : E).
Arguments Ok {E A} a.
Arguments Err {E A} e.

Definition is_Ok {E A} (r : Result E A) : bool :=
  match r with Ok _ => true | Err _ => false end.

(** [arr.length > 0] *)
Definition nonEmpty {A} (l : list A) : bool :=
  match l with [] => false | _ :: _ => true end.

(** Truthiness of an optional string: defined and not the empty string. *)
Definition truthy (s : option string) : bool :=
  match s with
  | Some x => negb (String.eqb x "")
  | None => false
  end.

(** [Array.prototype.findIndex]; [None] stands for the result [-1]. *)
Fixpoint findIndex {A} (f : A -> bool) (l : list A) : option nat :=
  match l with
  | [] => None
  | x :: r => if f x then Some 0%nat else S <$> findIndex f r
  end.

(** [Array.prototype.find]; [None] stands for [undefined]. *)
Fixpoint find {A} (f : A -> bool) (l : list A) : option A :=
  match l with
  | [] => None
  | x :: r => if f x then Some x else find f r
  end.

(** [name === sel] for a string [name] and an optional string [sel]. *)
Definition strictEq (name : string) (sel : option string) : bool :=
  match sel with
  | Some x => String.eqb name x
  | None => false
  end.

(** [a < b] where [a] may be [undefined]: the comparison with NaN is false. *)
Definition ltUndef (a : option Z) (b : Z) : bool :=
  match a with
  | Some x => x <? b
  | None => false
  end.

(** [String.prototype.trim] on the ASCII white space characters. *)
Definition isSpace (c : ascii) : bool :=
  let n := nat_of_ascii c in
  (n =? 32)%nat || ((9 <=? n)%nat && (n <=? 13)%nat).

Fixpoint trimStart (s : string) : string :=
  match s with
  | EmptyString => EmptyString
  | String c r => if isSpace c then trimStart r else s
  end.

Fixpoint trimEnd (s : string) : string :=
  match s with
  | EmptyString => EmptyString
  | String c r =>
      match trimEnd r with
      | EmptyString => if isSpace c then EmptyString else String c EmptyString
      | r' => String c r'
      end
  end.

Definition trim (s : string) : string := trimEnd (trimStart s).

(** [mongoose.Types.ObjectId.isValid] on a string: 24 hexadecimal digits. *)
Definition isHex (c : ascii) : bool :=
  let n := nat_of_ascii c in
  ((48 <=? n)%nat && (n <=? 57)%nat)
  || ((65 <=? n)%nat && (n <=? 70)%nat)
  || ((97 <=? n)%nat && (n <=? 102)%nat).

Definition ObjectId_isValid (id : string) : bool :=
  (String.length id =? 24)%nat && forallb isHex (list_ascii_of_string id).

(** The string of the ObjectId that a valid id casts to: the hexadecimal
    digits are read without regard to case and printed in lower case. *)
Definition lowerHex (c : ascii) : ascii :=
  let n := nat_of_ascii c in
  if (65 <=? n)%nat && (n <=? 70)%nat then ascii_of_nat (n + 32) else c.

Fixpoint castObjectId (id : string) : string :=
  match id with
  | EmptyString => EmptyString
  | String c r => String (lowerHex c) (castObjectId r)
  end.

(** ** Data model *)

(** models/products.model.js; the fields the order and cart code never
    reads (description, category, brand, flags, ratings, comments) are left
    out. *)
Record SizeOption := mkSize {
  size : string;
  size_stock : Z
}.

Record ColorOption := mkColor {
  color : string;
  color_images : list string;
  color_stock : Z
}.

Record Product := mkProduct {
  p_name : string;
  p_price : Z;
  p_images : list string;
  p_stock : Z;
  p_sizes : list SizeOption;
  p_colors : list ColorOption;
  p_onSale : bool;
  p_salePrice : option Z
}.

(** models/orders.model.js *)
Record OrderItem := mkOrderItem {
  i_productId : string;
  i_name : string;
  i_price : Z;
  i_salePrice : option Z;
  i_quantity : Z;
  i_selectedSize : option string;
  i_selectedColor : option string;
  i_imageUrl : option string
}.

Record ShippingAddress := mkAddress {
  street : string;
  city : string;
  state : string;
  zipCode : string;
  country : string
}.

Record Order := mkOrder {
  o_user : string;
  o_items : list OrderItem;
  o_totalAmount : Z;
  o_shippingAddress : ShippingAddress;
  o_paymentMethod : string;
  o_paymentStatus : string;
  o_orderStatus : string
}.

(** models/carts.model.js *)
Record CartItem := mkCartItem {
  c_product : string;
  c_quantity : Z;
  c_price : Z;
  c_salePrice : option Z;
  c_selectedSize : option string;
  c_selectedColor : option string
}.

Record Cart := mkCart {
  cart_items : list CartItem;
  cart_totalPrice : Z
}.

(** The database: products and orders by [_id], carts by their unique
    [user] field. A document carries no copy of its key. *)
Record Db := mkDb {
  products : gmap string Product;
  orders : gmap string Order;
  carts : gmap string Cart
}.

Definition setProducts (ps : gmap string Product) (db : Db) : Db :=
  mkDb ps (orders db) (carts db).
Definition setOrders (os : gmap string Order) (db : Db) : Db :=
  mkDb (products db) os (carts db).
Definition setCarts (cs : gmap string Cart) (db : Db) : Db :=
  mkDb (products db) (orders db) cs.

(** Thrown errors, one constructor per message of the source. *)
Inductive Error : Type :=
| InvalidUserId
| InvalidProductId
| InvalidOrderId
| EmptyCart
| QuantityTooSmall
| TypeError
| ProductNotFound (productId : string)
| SizeNotFound (selectedSize : option string) (productName : string)
| ColorNotFound (selectedColor : option string) (productName : string)
| InsufficientStock (productName : string)
    (selectedSize selectedColor : option string) (requested available : Z)
| RepoInsufficientStockSize (productName : string) (selectedSize : option string)
| RepoInsufficientStockColor (productName : string) (selectedColor : option string)
| RepoInsufficientStock (productName : string)
| OrderNotFound
| InvalidOrderStatus (newStatus : string)
| ValidationError
| CartNotFound
| CartRetrievalFailed
| CartItemNotFound
| CartItemNotFoundWithVariations
| CartProductNotFound
| NotEnoughStock (productName : string) (available : option Z)
| ExceedsStock (productName : string) (quantity : Z)
| NotEnoughStockRequested (productName : string) (available : option Z) (requested : Z).

(** ** State and exceptions *)

Definition ST (S E A : Type) : Type := S -> Result E A * S.

Definition ret {S E A} (a : A) : ST S E A := fun s => (Ok a, s).
Definition throw {S E A} (e : E) : ST S E A := fun s => (Err e, s).
Definition bind {S E A B} (m : ST S E A) (k : A -> ST S E B) : ST S E B :=
  fun s =>
    match m s with
    | (Ok a, s') => k a s'
    | (Err e, s') => (Err e, s')
    end.
Definition get {S E} : ST S E S := fun s => (Ok s, s).
Definition put {S E} (s' : S) : ST S E unit := fun _ => (Ok tt, s').
Definition lift {S E A} (r : Result E A) : ST S E A := fun s => (r, s).

(** The order and cart code runs over the database. *)
Abbreviation M := (ST Db Error).

(** [try { body } catch (error) { throw new Error(e) }] *)
Definition rethrowAs {A} (e : Error) (body : M A) : M A :=
  fun db =>
    match body db with
    | (Ok a, db') => (Ok a, db')
    | (Err _, db') => (Err e, db')
    end.

Notation "'do' x <- m ; k" := (bind m (fun x => k))
  (at level 10, x name, m at level 100, k at level 200).
Notation "'do' ' p <- m ; k" := (bind m (fun x => match x with p => k end))
  (at level 10, p pattern, m at level 100, k at level 200).
Notation "m ;; k" := (bind m (fun _ => k))
  (at level 100, k at level 200, right associativity).

(** [for (const x of l) { await f(x) }] *)
Fixpoint forEach {A} (f : A -> M unit) (l : list A) : M unit :=
  match l with
  | [] => ret tt
  | x :: r => f x ;; forEach f r
  end.

(** [session.startTransaction() ... commitTransaction()], with
    [abortTransaction()] in the [catch]: an exception discards every write
    of the body. *)
Definition transaction {A} (body : M A) : M A :=
  fun db =>
    match body db with
    | (Ok a, db') => (Ok a, db')
    | (Err e, _) => (Err e, db)
    end.

(** ** models/products.model.js: the validators run by [product.save()] *)

Definition validateProduct (p : Product) : bool :=
  negb (String.eqb (p_name p) "")
  && (0 <=? p_price p)
  && (0 <=? p_stock p)
  && forallb (fun s => negb (String.eqb (size s) "") && (0 <=? size_stock s)) (p_sizes p)
  && forallb (fun c => negb (String.eqb (color c) "") && (0 <=? color_stock c)) (p_colors p)
  && match p_salePrice p with
     | Some sp => 0 <=? sp
     | None => negb (p_onSale p)
     end.

(** [await product.save({ session })]; the pre-save hook of the product
    schema only recomputes [averageRating], which is not modelled. *)
Definition saveProduct (productId : string) (p : Product) : M unit :=
  if validateProduct p
  then do db <- get; put (setProducts (<[productId := p]> (products db)) db)
  else throw ValidationError.

(** ** models/orders.model.js *)

Record OrderData := mkOrderData {
  d_user : string;
  d_items : list OrderItem;
  d_totalAmount : Z;
  d_shippingAddress : ShippingAddress;
  d_paymentMethod : string;
  d_orderStatus : string;
  d_paymentStatus : string
}.

Definition paymentMethods : list string :=
  ["credit_card"; "paypal"; "bank_transfer"; "cash_on_delivery"].
Definition paymentStatuses : list string :=
  ["pending"; "paid"; "failed"; "refunded"].
Definition orderStatuses : list string :=
  ["pending"; "processing"; "shipped"; "delivered"; "cancelled"; "returned"].

(** [Array.prototype.includes] on strings, also the [enum] validator. *)
Definition includes (l : list string) (s : string) : bool :=
  existsb (String.eqb s) l.

(** [new Order(orderData)]: the schema setters ([trim: true]) are applied. *)
Definition castItem (it : OrderItem) : OrderItem :=
  mkOrderItem (i_productId it) (i_name it) (i_price it) (i_salePrice it)
    (i_quantity it) (trim <$> i_selectedSize it) (trim <$> i_selectedColor it)
    (trim <$> i_imageUrl it).

Definition castAddress (a : ShippingAddress) : ShippingAddress :=
  mkAddress (trim (street a)) (trim (city a)) (trim (state a))
    (trim (zipCode a)) (trim (country a)).

Definition new_Order (data : OrderData) : Order :=
  mkOrder (d_user data) (castItem <$> d_items data) (d_totalAmount data)
    (castAddress (d_shippingAddress data)) (d_paymentMethod data)
    (d_paymentStatus data) (d_orderStatus data).

Definition validateItem (it : OrderItem) : bool :=
  ObjectId_isValid (i_productId it)
  && negb (String.eqb (i_name it) "")
  && (0 <=? i_price it)
  && match i_salePrice it with Some sp => 0 <=? sp | None => true end
  && (1 <=? i_quantity it).

Definition validateAddress (a : ShippingAddress) : bool :=
  negb (String.eqb (street a) "") && negb (String.eqb (city a) "")
  && negb (String.eqb (state a) "") && negb (String.eqb (zipCode a) "")
  && negb (String.eqb (country a) "").

Definition validateOrder (o : Order) : bool :=
  ObjectId_isValid (o_user o)
  && forallb validateItem (o_items o)
  && (0 <=? o_totalAmount o)
  && validateAddress (o_shippingAddress o)
  && includes paymentMethods (o_paymentMethod o)
  && includes paymentStatuses (o_paymentStatus o)
  && includes orderStatuses (o_orderStatus o).

Arguments ObjectId_isValid : simpl never.
Arguments includes : simpl never.
Arguments validateItem : simpl never.
Arguments validateAddress : simpl never.

(** The effective price of the pre-save hook of the order schema. *)
Definition itemEffectivePrice (it : OrderItem) : Z :=
  match i_salePrice it with
  | Some sp => if sp <? i_price it then sp else i_price it
  | None => i_price it
  end.

(** [orderSchema.pre('save')]: [total += effectivePrice * item.quantity]. *)
Definition orderTotal (items : list OrderItem) : Z :=
  fold_left (fun total it => total + itemEffectivePrice it * i_quantity it) items 0.

Definition orderPreSave (o : Order) : Order :=
  mkOrder (o_user o) (o_items o) (orderTotal (o_items o)) (o_shippingAddress o)
    (o_paymentMethod o) (o_paymentStatus o) (o_orderStatus o).

(** [await order.save({ session })]: validation runs first, then the
    pre-save hook, then the write. The saved document is returned. *)
Definition saveOrder (orderId : string) (o : Order) : M Order :=
  if validateOrder o
  then
    let o' := orderPreSave o in
    do db <- get;
    put (setOrders (<[orderId := o']> (orders db)) db) ;;
    ret o'
  else throw ValidationError.

Definition setStatus (newStatus : string) (o : Order) : Order :=
  mkOrder (o_user o) (o_items o) (o_totalAmount o) (o_shippingAddress o)
    (o_paymentMethod o) (o_paymentStatus o) newStatus.

Definition setPaymentStatus (newPaymentStatus : string) (o : Order) : Order :=
  mkOrder (o_user o) (o_items o) (o_totalAmount o) (o_shippingAddress o)
    (o_paymentMethod o) newPaymentStatus (o_orderStatus o).

(** ** repositories/orders.repository.js *)

Module OrdersRepository.

(** [product.sizes[i].stock += d] and its siblings. *)
Definition addSizeStock (d : Z) (s : SizeOption) : SizeOption :=
  mkSize (size s) (size_stock s + d).
Definition addColorStock (d : Z) (c : ColorOption) : ColorOption :=
  mkColor (color c) (color_images c) (color_stock c + d).
Definition setSizes (l : list SizeOption) (p : Product) : Product :=
  mkProduct (p_name p) (p_price p) (p_images p) (p_stock p) l (p_colors p)
    (p_onSale p) (p_salePrice p).
Definition setColors (l : list ColorOption) (p : Product) : Product :=
  mkProduct (p_name p) (p_price p) (p_images p) (p_stock p) (p_sizes p) l
    (p_onSale p) (p_salePrice p).
Definition addStock (d : Z) (p : Product) : Product :=
  mkProduct (p_name p) (p_price p) (p_images p) (p_stock p + d) (p_sizes p)
    (p_colors p) (p_onSale p) (p_salePrice p).

(** The body of the loop of [createOrder], between [findById] and [save]. *)
Definition decrementStock (item : OrderItem) (product : Product)
  : Result Error Product :=
  if nonEmpty (p_sizes product) then
    match findIndex (fun s => strictEq (size s) (i_selectedSize item)) (p_sizes product) with
    | None =>
        Err (RepoInsufficientStockSize (p_name product) (i_selectedSize item))
    | Some sizeIndex =>
        match p_sizes product !! sizeIndex with
        | None => Err TypeError
        | Some s =>
            if size_stock s <? i_quantity item
            then Err (RepoInsufficientStockSize (p_name product) (i_selectedSize item))
            else Ok (setSizes (alter (addSizeStock (- i_quantity item)) sizeIndex
                                 (p_sizes product)) product)
        end
    end
  else if nonEmpty (p_colors product) then
    match findIndex (fun c => strictEq (color c) (i_selectedColor item)) (p_colors product) with
    | None =>
        Err (RepoInsufficientStockColor (p_name product) (i_selectedColor item))
    | Some colorIndex =>
        match p_colors product !! colorIndex with
        | None => Err TypeError
        | Some c =>
            if color_stock c <? i_quantity item
            then Err (RepoInsufficientStockColor (p_name product) (i_selectedColor item))
            else Ok (setColors (alter (addColorStock (- i_quantity item)) colorIndex
                                  (p_colors product)) product)
        end
    end
  else
    if p_stock product <? i_quantity item
    then Err (RepoInsufficientStock (p_name product))
    else Ok (addStock (- i_quantity item) product).

Definition decrementItem (item : OrderItem) : M unit :=
  do db <- get;
  match products db !! i_productId item with
  | None => throw (ProductNotFound (i_productId item))
  | Some product =>
      do product' <- lift (decrementStock item product);
      saveProduct (i_productId item) product'
  end.

(** [newId] is the [_id] that [new Order] generates. *)
Definition createOrder (newId : string) (orderData : OrderData) : M Order :=
  transaction (
    do newOrder <- saveOrder newId (new_Order orderData);
    forEach decrementItem (o_items newOrder) ;;
    ret newOrder).

(** The body of the loops of [updateOrderStatus] and [deleteOrder]. *)
Definition revertStock (item : OrderItem) (product : Product) : Product :=
  if nonEmpty (p_sizes product) && truthy (i_selectedSize item) then
    match findIndex (fun s => strictEq (size s) (i_selectedSize item)) (p_sizes product) with
    | Some sizeIndex =>
        setSizes (alter (addSizeStock (i_quantity item)) sizeIndex (p_sizes product)) product
    | None => product
    end
  else if nonEmpty (p_colors product) && truthy (i_selectedColor item) then
    match findIndex (fun c => strictEq (color c) (i_selectedColor item)) (p_colors product) with
    | Some colorIndex =>
        setColors (alter (addColorStock (i_quantity item)) colorIndex (p_colors product)) product
    | None => product
    end
  else addStock (i_quantity item) product.

Definition revertItem (item : OrderItem) : M unit :=
  do db <- get;
  match products db !! i_productId item with
  | None => ret tt
  | Some product => saveProduct (i_productId item) (revertStock item product)
  end.

Definition getOrderById (orderId : string) : M (option Order) :=
  do db <- get; ret (orders db !! orderId).

Definition updateOrderStatus (orderId newStatus : string) : M Order :=
  transaction (
    do db <- get;
    match orders db !! orderId with
    | None => throw OrderNotFound
    | Some order =>
        let originalStatus := o_orderStatus order in
        do order' <- saveOrder orderId (setStatus newStatus order);
        (if String.eqb newStatus "cancelled" && negb (String.eqb originalStatus "cancelled")
         then forEach revertItem (o_items order')
         else ret tt) ;;
        ret order'
    end).

Definition deleteOrder (orderId : string) : M Order :=
  transaction (
    do db <- get;
    match orders db !! orderId with
    | None => throw OrderNotFound
    | Some orderToDelete =>
        forEach revertItem (o_items orderToDelete) ;;
        do db' <- get;
        put (setOrders (delete orderId (orders db')) db') ;;
        ret orderToDelete
    end).

(** [Order.findByIdAndUpdate(orderId, { $set: { paymentStatus } },
    { new: true, runValidators: true })]: the update validators check the
    path that is set against its [enum]; no document middleware runs, so the
    pre-save hook does not recompute the total. [None] is the [null] of an
    update that matched no document. As for [getOrderById], the id is one
    that casts to an ObjectId: the service checks it before it calls. *)
Definition updatePaymentStatus (orderId newPaymentStatus : string) : M (option Order) :=
  if negb (includes paymentStatuses newPaymentStatus) then throw ValidationError
  else
    do db <- get;
    match orders db !! orderId with
    | None => ret None
    | Some order =>
        let order' := setPaymentStatus newPaymentStatus order in
        put (setOrders (<[orderId := order']> (orders db)) db) ;;
        ret (Some order')
    end.

End OrdersRepository.

(** ** services/products.service.js *)

Module ProductsService.

Definition getProductById (id : string) : M (option Product) :=
  if negb (ObjectId_isValid id) then throw InvalidProductId
  else do db <- get; ret (products db !! id).

End ProductsService.

(** ** models/carts.model.js *)

Definition validateCartItem (it : CartItem) : bool :=
  ObjectId_isValid (c_product it) && (1 <=? c_quantity it).

Definition validateCart (userId : string) (c : Cart) : bool :=
  ObjectId_isValid userId && forallb validateCartItem (cart_items c).

(** The effective price of the pre-save hook of the cart schema. *)
Definition cartItemEffectivePrice (it : CartItem) : Z :=
  match c_salePrice it with
  | Some sp => if sp <? c_price it then sp else c_price it
  | None => c_price it
  end.

(** [cartSchema.pre('save')] *)
Definition cartTotal (items : list CartItem) : Z :=
  fold_left (fun total it => total + cartItemEffectivePrice it * c_quantity it) items 0.

(** [await cart.save()] *)
Definition saveCart (userId : string) (c : Cart) : M Cart :=
  if validateCart userId c
  then
    let c' := mkCart (cart_items c) (cartTotal (cart_items c)) in
    do db <- get;
    put (setCarts (<[userId := c']> (carts db)) db) ;;
    ret c'
  else throw ValidationError.

(** ** repositories/carts.repository.js *)

Module CartsRepository.

(** [product.stockQuantity]: the product schema declares [stock] and no
    path of this name, so the read yields [undefined]. *)
Definition stockQuantity (p : Product) : option Z := None.

(** [a === b] on optional strings. *)
Definition selEq (a b : option string) : bool :=
  match a, b with
  | Some x, Some y => String.eqb x y
  | None, None => true
  | _, _ => false
  end.

Definition sameLine (productId : string) (selectedSize selectedColor : option string)
  (item : CartItem) : bool :=
  String.eqb (c_product item) productId
  && selEq (c_selectedSize item) selectedSize
  && selEq (c_selectedColor item) selectedColor.

Definition setQuantity (q : Z) (it : CartItem) : CartItem :=
  mkCartItem (c_product it) q (c_price it) (c_salePrice it)
    (c_selectedSize it) (c_selectedColor it).

Definition getCartByUserId (userId : string) : M (option Cart) :=
  do db <- get; ret (carts db !! userId).

Definition createCart (userId : string) : M Cart :=
  saveCart userId (mkCart [] 0).

(** [productId] is the string of the request. [Product.findById] and the
    [push] cast it to an ObjectId, while the search for the line compares
    the stored id, printed, with the string as it was given. *)
Definition addItemToCart (userId productId : string) (quantity price : Z)
  (salePrice : option Z) (selectedSize selectedColor : option string) : M Cart :=
  do found <- getCartByUserId userId;
  do cart <- match found with
             | Some c => ret c
             | None => createCart userId
             end;
  do db <- get;
  match products db !! castObjectId productId with
  | None => throw CartProductNotFound
  | Some product =>
      if ltUndef (stockQuantity product) quantity
      then throw (NotEnoughStock (p_name product) (stockQuantity product))
      else
        match findIndex (sameLine productId selectedSize selectedColor) (cart_items cart) with
        | Some existingItemIndex =>
            match cart_items cart !! existingItemIndex with
            | None => throw TypeError
            | Some it =>
                let it' := setQuantity (c_quantity it + quantity) it in
                if ltUndef (stockQuantity product) (c_quantity it')
                then throw (ExceedsStock (p_name product) quantity)
                else saveCart userId
                       (mkCart (<[existingItemIndex := it']> (cart_items cart))
                          (cart_totalPrice cart))
            end
        | None =>
            saveCart userId
              (mkCart (cart_items cart
                         ++ [mkCartItem (castObjectId productId) quantity price salePrice
                               selectedSize selectedColor])
                 (cart_totalPrice cart))
        end
  end.

(** The predicate of the [filter] of [removeItemFromCart]: an
    [undefined] selector matches every value. *)
Definition removeMatches (productId : string) (selectedSize selectedColor : option string)
  (item : CartItem) : bool :=
  let isMatchingProduct := String.eqb (c_product item) productId in
  let isMatchingSize :=
    match selectedSize with
    | None => true
    | Some _ => selEq (c_selectedSize item) selectedSize
    end in
  let isMatchingColor :=
    match selectedColor with
    | None => true
    | Some _ => selEq (c_selectedColor item) selectedColor
    end in
  isMatchingProduct && isMatchingSize && isMatchingColor.

Definition removeItemFromCart (userId productId : string)
  (selectedSize selectedColor : option string) : M Cart :=
  do found <- getCartByUserId userId;
  match found with
  | None => throw CartNotFound
  | Some cart =>
      let items' :=
        List.filter (fun item => negb (removeMatches productId selectedSize selectedColor item))
          (cart_items cart) in
      if (List.length items' =? List.length (cart_items cart))%nat
      then throw CartItemNotFoundWithVariations
      else saveCart userId (mkCart items' (cart_totalPrice cart))
  end.

Definition updateItemQuantity (userId productId : string) (newQuantity : Z)
  (selectedSize selectedColor : option string) : M Cart :=
  do found <- getCartByUserId userId;
  match found with
  | None => throw CartNotFound
  | Some cart =>
      match findIndex (sameLine productId selectedSize selectedColor) (cart_items cart) with
      | None => throw CartItemNotFound
      | Some itemIndex =>
          if newQuantity <=? 0
          then saveCart userId
                 (mkCart (take itemIndex (cart_items cart)
                            ++ drop (S itemIndex) (cart_items cart))
                    (cart_totalPrice cart))
          else
            do db <- get;
            match products db !! castObjectId productId with
            | None => throw CartProductNotFound
            | Some product =>
                if ltUndef (stockQuantity product) newQuantity
                then throw (NotEnoughStockRequested (p_name product)
                              (stockQuantity product) newQuantity)
                else saveCart userId
                       (mkCart (alter (setQuantity newQuantity) itemIndex (cart_items cart))
                          (cart_totalPrice cart))
            end
      end
  end.

Definition clearCart (userId : string) : M Cart :=
  do found <- getCartByUserId userId;
  match found with
  | None => throw CartNotFound
  | Some cart => saveCart userId (mkCart [] (cart_totalPrice cart))
  end.

End CartsRepository.

(** ** services/carts.service.js *)

Module CartsService.

Definition getOrCreateUserCart (userId : string) : M Cart :=
  rethrowAs CartRetrievalFailed (
    do found <- CartsRepository.getCartByUserId userId;
    match found with
    | Some cart => ret cart
    | None => CartsRepository.createCart userId
    end).

(** [productService.getProductById] finds the product by the ObjectId the
    string of the request casts to; the repository receives the string. *)
Definition addItemToCart (userId productId : string) (quantity : Z)
  (selectedSize selectedColor : option string) : M Cart :=
  do found <- ProductsService.getProductById (castObjectId productId);
  match found with
  | None => throw CartProductNotFound
  | Some product =>
      CartsRepository.addItemToCart userId productId quantity
        (p_price product) (p_salePrice product) selectedSize selectedColor
  end.

Definition removeItemFromCart := CartsRepository.removeItemFromCart.
Definition updateItemQuantity := CartsRepository.updateItemQuantity.
Definition clearUserCart := CartsRepository.clearCart.

End CartsService.

(** ** services/orders.service.js *)

Module OrdersService.

(** "Determine available stock based on sizes/colors or simple stock":
    the same statements in [createOrderFromCart] and [createDirectOrder]. *)
Definition resolveAvailableStock (selectedSize selectedColor : option string)
  (product : Product) : Result Error Z :=
  if truthy selectedSize && nonEmpty (p_sizes product) then
    match find (fun s => strictEq (size s) selectedSize) (p_sizes product) with
    | None => Err (SizeNotFound selectedSize (p_name product))
    | Some sizeOption => Ok (size_stock sizeOption)
    end
  else if truthy selectedColor && nonEmpty (p_colors product) then
    match find (fun c => strictEq (color c) selectedColor) (p_colors product) with
    | None => Err (ColorNotFound selectedColor (p_name product))
    | Some colorOption => Ok (color_stock colorOption)
    end
  else Ok (p_stock product).

(** [product.onSale && product.salePrice !== undefined
     && product.salePrice < product.price ? product.salePrice : product.price] *)
Definition effectivePrice (product : Product) : Z :=
  if p_onSale product then
    match p_salePrice product with
    | Some sp => if sp <? p_price product then sp else p_price product
    | None => p_price product
    end
  else p_price product.

(** From the stock check to the snapshot of one line, again the same
    statements in both functions; the result is the order item and the
    amount added to [calculatedTotalAmount]. *)
Definition snapshotLine (productId : string) (product : Product) (quantity : Z)
  (selectedSize selectedColor : option string) : Result Error (OrderItem * Z) :=
  match resolveAvailableStock selectedSize selectedColor product with
  | Err e => Err e
  | Ok availableStock =>
      if availableStock <? quantity
      then Err (InsufficientStock (p_name product) selectedSize selectedColor
                  quantity availableStock)
      else Ok (mkOrderItem productId (p_name product) (p_price product)
                 (p_salePrice product) quantity selectedSize selectedColor
                 (head (p_images product)),
               effectivePrice product * quantity)
  end.

(** One iteration of the loop over [cart.items]. The cart is populated: a
    line whose product is gone holds [null], and reading its [_id] throws. *)
Definition checkCartItem (ps : gmap string Product) (cartItem : CartItem)
  : Result Error (OrderItem * Z) :=
  match ps !! c_product cartItem with
  | None => Err TypeError
  | Some product =>
      snapshotLine (c_product cartItem) product (c_quantity cartItem)
        (c_selectedSize cartItem) (c_selectedColor cartItem)
  end.

Fixpoint buildOrderItems (ps : gmap string Product) (cartItems : list CartItem)
  (orderItems : list OrderItem) (calculatedTotalAmount : Z)
  : Result Error (list OrderItem * Z) :=
  match cartItems with
  | [] => Ok (orderItems, calculatedTotalAmount)
  | cartItem :: rest =>
      match checkCartItem ps cartItem with
      | Err e => Err e
      | Ok (item, amount) =>
          buildOrderItems ps rest (orderItems ++ [item]) (calculatedTotalAmount + amount)
      end
  end.

Definition createOrderFromCart (newId userId : string)
  (shippingAddress : ShippingAddress) (paymentMethod : string) : M Order :=
  if negb (ObjectId_isValid userId) then throw InvalidUserId
  else
    do cart <- CartsService.getOrCreateUserCart userId;
    if negb (nonEmpty (cart_items cart)) then throw EmptyCart
    else
      do db <- get;
      do ' (orderItems, calculatedTotalAmount) <-
         lift (buildOrderItems (products db) (cart_items cart) [] 0);
      let orderData :=
        mkOrderData userId orderItems calculatedTotalAmount shippingAddress
          paymentMethod "pending" "pending" in
      do newOrder <- OrdersRepository.createOrder newId orderData;
      CartsService.clearUserCart userId ;;
      ret newOrder.

Definition createDirectOrder (newId userId productId : string) (quantity : Z)
  (shippingAddress : ShippingAddress) (paymentMethod : string)
  (selectedSize selectedColor : option string) : M Order :=
  if negb (ObjectId_isValid userId) then throw InvalidUserId
  else if negb (ObjectId_isValid productId) then throw InvalidProductId
  else if quantity <? 1 then throw QuantityTooSmall
  else
    do found <- ProductsService.getProductById productId;
    match found with
    | None => throw (ProductNotFound productId)
    | Some product =>
        do ' (item, calculatedTotalAmount) <-
           lift (snapshotLine productId product quantity selectedSize selectedColor);
        let orderData :=
          mkOrderData userId [item] calculatedTotalAmount shippingAddress
            paymentMethod "pending" "pending" in
        OrdersRepository.createOrder newId orderData
    end.

Definition updateOrderStatus (orderId newStatus : string) : M Order :=
  if negb (ObjectId_isValid orderId) then throw InvalidOrderId
  else
    do order <- OrdersRepository.getOrderById orderId;
    match order with
    | None => throw OrderNotFound
    | Some _ =>
        if negb (includes orderStatuses newStatus)
        then throw (InvalidOrderStatus newStatus)
        else OrdersRepository.updateOrderStatus orderId newStatus
    end.

Definition deleteOrder (orderId : string) : M Order :=
  if negb (ObjectId_isValid orderId) then throw InvalidOrderId
  else OrdersRepository.deleteOrder orderId.

Definition getOrderById (orderId : string) : M Order :=
  if negb (ObjectId_isValid orderId) then throw InvalidOrderId
  else
    do order <- OrdersRepository.getOrderById orderId;
    match order with
    | None => throw OrderNotFound
    | Some o => ret o
    end.

(** The errors of [updatePaymentStatus]: its own message, or one of the
    messages shared with the other order functions. *)
Inductive PaymentError : Type :=
| InvalidPaymentStatus (newPaymentStatus : string)
| OrderError (e : Error).

Definition orderError {A} (m : M A) : ST Db PaymentError A :=
  fun db =>
    match m db with
    | (Ok a, db') => (Ok a, db')
    | (Err e, db') => (Err (OrderError e), db')
    end.

Definition updatePaymentStatus (orderId newPaymentStatus : string)
  : ST Db PaymentError (option Order) :=
  if negb (ObjectId_isValid orderId) then throw (OrderError InvalidOrderId)
  else
    do order <- orderError (OrdersRepository.getOrderById orderId);
    match order with
    | None => throw (OrderError OrderNotFound)
    | Some _ =>
        if negb (includes paymentStatuses newPaymentStatus)
        then throw (InvalidPaymentStatus newPaymentStatus)
        else orderError (OrdersRepository.updatePaymentStatus orderId newPaymentStatus)
    end.

End OrdersService.


(** ** models/users.model.js

    The lockout fields of a user; dates are milliseconds since the epoch.
    The collection is indexed by the unique [email]: [getUserByEmail] and the
    updates by [user._id] that follow it address the same document. *)

Record User := mkUser {
  u_password : string;
  u_isAdmin : bool;
  u_failedLoginAttempts : Z;
  u_lockUntil : option Z;
  u_isPermanentlyLocked : bool;
  u_lastFailedAttemptAt : option Z
}.

Inductive LoginError : Type :=
| InvalidCredentials
| LockedPermanently
| LockedTemporarily (remainingMinutes : Z)
| TooManyFailuresPermanent
| TooManyFailuresTemporary (minutes : Z)
| NullUser.

Abbreviation U := (ST (gmap string User) LoginError).

(** ** repositories/users.repository.js *)

Module UsersRepository.

Definition getUserByEmail (email : string) : U (option User) :=
  do users <- get; ret (users !! email).

(** [User.findByIdAndUpdate(userId, update, { new: true })] *)
Definition findByIdAndUpdate (userId : string) (update : User -> User) : U (option User) :=
  do users <- get;
  match users !! userId with
  | None => ret None
  | Some u => put (<[userId := update u]> users) ;; ret (Some (update u))
  end.

Definition resetFailedLoginAttempts (userId : string) : U (option User) :=
  findByIdAndUpdate userId
    (fun u => mkUser (u_password u) (u_isAdmin u) 0 None false None).

(** [now] is the value of [new Date()]. *)
Definition incrementFailedLoginAttempts (now : Z) (userId : string)
  (lockUntilTime : option Z) : U (option User) :=
  findByIdAndUpdate userId
    (fun u => mkUser (u_password u) (u_isAdmin u) (u_failedLoginAttempts u + 1)
                (match lockUntilTime with
                 | Some t => Some t
                 | None => u_lockUntil u
                 end)
                (u_isPermanentlyLocked u) (Some now)).

Definition permanentlyLockUser (userId : string) : U (option User) :=
  findByIdAndUpdate userId
    (fun u => mkUser (u_password u) (u_isAdmin u) 0 None true None).

End UsersRepository.

(** ** services/users.service.js *)

Module UsersService.

Definition MAX_LOGIN_ATTEMPTS : Z := 5.
Definition TEMPORARY_LOCK_TIME : Z := 1 * 60 * 1000.
Definition FAILED_ATTEMPT_RESET_PERIOD : Z := 30 * 60 * 1000.

(** [Math.ceil(a / b)] for a positive [b]. *)
Definition ceilDiv (a b : Z) : Z := - ((- a) / b).

(** Reading a field of the document an update returned; [null] throws. *)
Definition notNull (u : option User) : U User :=
  match u with
  | Some x => ret x
  | None => throw NullUser
  end.

Section Login.

(** [bcrypt.compare(password, hash)] *)
Variable bcrypt_compare : string -> string -> bool.

(** [now] is the clock of the request: every [new Date()] and [Date.now()]
    of one call reads it. The result stands for [{ token, user }]. *)
Definition loginUser (now : Z) (email password : string) : U User :=
  do found <- UsersRepository.getUserByEmail email;
  match found with
  | None => throw InvalidCredentials
  | Some user =>
      if u_isPermanentlyLocked user then throw LockedPermanently
      else
        match u_lockUntil user with
        | Some lockUntil =>
            if now <? lockUntil
            then throw (LockedTemporarily (ceilDiv (lockUntil - now) (1000 * 60)))
            else ret tt
        | None => ret tt
        end ;;
        do user <-
          (if (0 <? u_failedLoginAttempts user)
              && match u_lastFailedAttemptAt user with
                 | Some t => FAILED_ATTEMPT_RESET_PERIOD <? now - t
                 | None => false
                 end
           then do r <- UsersRepository.resetFailedLoginAttempts email; notNull r
           else ret user);
        let isPasswordValid := bcrypt_compare password (u_password user) in
        if negb isPasswordValid then
          do r <- UsersRepository.incrementFailedLoginAttempts now email None;
          do user <- notNull r;
          if MAX_LOGIN_ATTEMPTS <? u_failedLoginAttempts user then
            UsersRepository.permanentlyLockUser email ;;
            throw TooManyFailuresPermanent
          else if u_failedLoginAttempts user =? MAX_LOGIN_ATTEMPTS then
            let lockUntilTime := now + TEMPORARY_LOCK_TIME in
            UsersRepository.incrementFailedLoginAttempts now email (Some lockUntilTime) ;;
            throw (TooManyFailuresTemporary (TEMPORARY_LOCK_TIME / (1000 * 60)))
          else throw InvalidCredentials
        else
          do user <-
            (if (0 <? u_failedLoginAttempts user)
                || bool_decide (is_Some (u_lockUntil user))
                || u_isPermanentlyLocked user
             then do r <- UsersRepository.resetFailedLoginAttempts email; notNull r
             else ret user);
          ret user
  end.

End Login.

End UsersService.

(** ** Unlocking an account (services/users.service.js,
       repositories/users.repository.js, models/auditLog.model.js)

    The unlock addresses the user by [_id]: [acc_ids] is the [_id] index of
    the collection, from the id to the key of the document in [acc_users].
    Audit entries are kept in the order of their creation. *)

Record AuditLog := mkAuditLog {
  a_userId : string;
  a_action : string;
  a_timestamp : Z;
  a_adminUserId : option string;
  a_description : string
}.

Record Accounts := mkAccounts {
  acc_users : gmap string User;
  acc_ids : gmap string string;
  acc_auditLogs : list AuditLog
}.

Inductive AdminError : Type :=
| UserToUnlockNotFound
| CastError
| AuditValidationError
| LoginLayer (e : LoginError).

Abbreviation Adm := (ST Accounts AdminError).

Definition auditActions : list string :=
  ["USERNAME_CHANGE"; "ADMIN_USER_UPDATE"; "USER_UPDATE"; "USER_DELETE";
   "USER_CREATE"; "USER_LOGIN"; "USER_LOGOUT"; "ACCOUNT_UNLOCK"].

(** The validators run by [auditLog.save()]. *)
Definition validateAuditLog (l : AuditLog) : bool :=
  ObjectId_isValid (a_userId l)
  && includes auditActions (a_action l)
  && match a_adminUserId l with
     | Some a => ObjectId_isValid a
     | None => true
     end.

(** A function of the user repository run on the user collection. *)
Definition onUsers {A} (m : U A) : Adm A :=
  fun s =>
    match m (acc_users s) with
    | (Ok a, users') => (Ok a, mkAccounts users' (acc_ids s) (acc_auditLogs s))
    | (Err e, users') => (Err (LoginLayer e), mkAccounts users' (acc_ids s) (acc_auditLogs s))
    end.

Module UsersAdmin.

(** [User.findById(id)]: an id that is no ObjectId fails the cast. *)
Definition getUserById (id : string) : Adm (option User) :=
  if negb (ObjectId_isValid id) then throw CastError
  else do s <- get; ret (key ← acc_ids s !! id; acc_users s !! key).

(** [userRepository.resetFailedLoginAttempts(userId)] through the [_id]
    index. *)
Definition resetFailedLoginAttempts (userId : string) : Adm (option User) :=
  if negb (ObjectId_isValid userId) then throw CastError
  else
    do s <- get;
    match acc_ids s !! userId with
    | None => ret None
    | Some key => onUsers (UsersRepository.resetFailedLoginAttempts key)
    end.

(** [now] is the value of [new Date()]. *)
Definition logAccountUnlock (now : Z) (userId : string)
  (adminUserId reason : option string) : Adm unit :=
  let auditLog :=
    mkAuditLog userId "ACCOUNT_UNLOCK" now adminUserId
      ("Account unlocked by admin. Reason: "
       ++ match reason with
          | Some r => if truthy reason then r else "No reason provided."
          | None => "No reason provided."
          end) in
  if validateAuditLog auditLog
  then do s <- get;
       put (mkAccounts (acc_users s) (acc_ids s) (acc_auditLogs s ++ [auditLog])%list)
  else throw AuditValidationError.

Definition unlockUserAccount (now : Z) (userIdToUnlock : string)
  (adminUserId reason : option string) : Adm (option User) :=
  do userToUnlock <- getUserById userIdToUnlock;
  match userToUnlock with
  | None => throw UserToUnlockNotFound
  | Some _ =>
      do updatedUser <- resetFailedLoginAttempts userIdToUnlock;
      logAccountUnlock now userIdToUnlock adminUserId reason ;;
      ret updatedUser
  end.

End UsersAdmin.

(** ** Vocabulary of the statements *)

(** The stock field a line acts on: the top-level stock, a size, a color,
    or none. *)
Inductive Target : Type :=
| TTop
| TSize (i : nat)
| TColor (i : nat)
| TNone.

Definition applyDelta (t : Target) (d : Z) (p : Product) : Product :=
  match t with
  | TTop => OrdersRepository.addStock d p
  | TSize i =>
      OrdersRepository.setSizes (alter (OrdersRepository.addSizeStock d) i (p_sizes p)) p
  | TColor i =>
      OrdersRepository.setColors (alter (OrdersRepository.addColorStock d) i (p_colors p)) p
  | TNone => p
  end.

(** The field [revertStock] increments. *)
Definition revertTarget (item : OrderItem) (p : Product) : Target :=
  if nonEmpty (p_sizes p) && truthy (i_selectedSize item) then
    match findIndex (fun s => strictEq (size s) (i_selectedSize item)) (p_sizes p) with
    | Some i => TSize i
    | None => TNone
    end
  else if nonEmpty (p_colors p) && truthy (i_selectedColor item) then
    match findIndex (fun c => strictEq (color c) (i_selectedColor item)) (p_colors p) with
    | Some i => TColor i
    | None => TNone
    end
  else TTop.

(** The reversal loop without the validators of [save]. *)
Definition revertLine (item : OrderItem) (ps : gmap string Product) : gmap string Product :=
  match ps !! i_productId item with
  | None => ps
  | Some p => <[i_productId item := OrdersRepository.revertStock item p]> ps
  end.

Definition revertAll (items : list OrderItem) (ps : gmap string Product)
  : gmap string Product :=
  fold_left (fun ps item => revertLine item ps) items ps.

(** Every product a line of [items] refers to passes the validators. *)
Definition validOn (items : list OrderItem) (ps : gmap string Product) : Prop :=
  ∀ it p, it ∈ items → ps !! i_productId it = Some p → validateProduct p = true.

(** ** Sample data

    The product of the worked example of the specification:
    [sizes = [{size: "9", stock: 5}]]; an order of 3 units of size 9. *)

Definition idProduct : string := "aaaaaaaaaaaaaaaaaaaaaaa1".
Definition idUser : string := "bbbbbbbbbbbbbbbbbbbbbbb1".
Definition idOrder : string := "ccccccccccccccccccccccc1".

Definition anAddress : ShippingAddress :=
  mkAddress "1 Main St" "Hanoi" "HN" "10000" "VN".

Definition shoe : Product :=
  mkProduct "Runner" 100 [] 0 [mkSize "9" 5] [] false None.

Definition db0 : Db := mkDb {[ idProduct := shoe ]} ∅ ∅.

Definition stockOfSize (db : Db) (productId sz : string) : option Z :=
  p ← products db !! productId;
  s ← find (fun s => String.eqb (size s) sz) (p_sizes p);
  Some (size_stock s).

Definition placed : Result Error Order * Db :=
  OrdersService.createDirectOrder idOrder idUser idProduct 3 anAddress "paypal"
    (Some "9") None db0.

Definition placedOrder : Order :=
  mkOrder idUser
    [mkOrderItem idProduct "Runner" 100 None 3 (Some "9") None None]
    300 anAddress "paypal" "pending" "pending".

(** A cart line asks for more than the stock the service resolves for it. *)
Definition overStock (ps : gmap string Product) (ci : CartItem) : Prop :=
  ∃ p available,
    ps !! c_product ci = Some p
    ∧ OrdersService.resolveAvailableStock (c_selectedSize ci) (c_selectedColor ci) p
      = Ok available
    ∧ available < c_quantity ci.

(** A cart line passes the checks of the loop of [createOrderFromCart]. *)
Definition linePasses (ps : gmap string Product) (ci : CartItem) : Prop :=
  is_Ok (OrdersService.checkCartItem ps ci) = true.

(** A cart whose first line selects a size the product does not have and
    whose second line asks for more than the stock. *)
Definition plainShoe : Product :=
  mkProduct "Plain" 50 [] 5 [] [] false None.
Definition idPlain : string := "aaaaaaaaaaaaaaaaaaaaaaa2".

Definition cartMissingSize : Cart :=
  mkCart [mkCartItem idProduct 1 100 None (Some "11") None;
          mkCartItem idPlain 10 50 None None None] 600.

Definition dbMissingSize : Db :=
  mkDb {[ idProduct := shoe; idPlain := plainShoe ]} ∅ {[ idUser := cartMissingSize ]}.

(** A cart whose first line is within the stock and whose second line asks
    for 10 of a product with 5 in stock. *)
Definition cartOverStock : Cart :=
  mkCart [mkCartItem idProduct 1 100 None (Some "9") None;
          mkCartItem idPlain 10 50 None None None] 600.

Definition dbOverStock : Db :=
  mkDb {[ idProduct := shoe; idPlain := plainShoe ]} ∅ {[ idUser := cartOverStock ]}.

(** A product sold by color only. *)
Definition colorShoe : Product :=
  mkProduct "Loafer" 70 [] 0 [] [mkColor "red" [] 3; mkColor "tan" [] 4] false None.

(** A cart with two lines on the same size of the same product, each within
    the stock, together beyond it. *)
Definition cartSameSize : Cart :=
  mkCart [mkCartItem idProduct 3 100 None (Some "9") (Some "red");
          mkCartItem idProduct 3 100 None (Some "9") (Some "blue")] 600.

Definition dbSameSize : Db :=
  mkDb {[ idProduct := shoe ]} ∅ {[ idUser := cartSameSize ]}.

(** A product with one size and a top-level stock of its own. *)
Definition variantShoe : Product :=
  mkProduct "Runner" 100 [] 10 [mkSize "9" 5] [] false None.

Definition dbVariant : Db := mkDb {[ idProduct := variantShoe ]} ∅ ∅.

(** A line whose variant the reversal looks for and does not find: the
    size, when the product has sizes and the line records one; otherwise
    the color, when the product has colors and the line records one. *)
Definition unmatchedVariant (item : OrderItem) (p : Product) : Prop :=
  (nonEmpty (p_sizes p) = true ∧ truthy (i_selectedSize item) = true
   ∧ findIndex (fun s => strictEq (size s) (i_selectedSize item)) (p_sizes p) = None)
  ∨ (nonEmpty (p_sizes p) && truthy (i_selectedSize item) = false
     ∧ nonEmpty (p_colors p) = true ∧ truthy (i_selectedColor item) = true
     ∧ findIndex (fun c => strictEq (color c) (i_selectedColor item)) (p_colors p) = None).

(** A product with a size and a color, and a line of size "9" in a color
    the product does not have. *)
Definition twoWayShoe : Product :=
  mkProduct "Runner" 100 [] 0 [mkSize "9" 5] [mkColor "red" [] 3] false None.

Definition lineBlue : OrderItem :=
  mkOrderItem idProduct "Runner" 100 None 2 (Some "9") (Some "blue") None.

(** The same line with a size the product no longer has. *)
Definition lineGone : OrderItem :=
  mkOrderItem idProduct "Runner" 100 None 2 (Some "11") None None.

Definition orderGone : Order :=
  mkOrder idUser [lineGone] 200 anAddress "paypal" "pending" "pending".

Definition dbGone : Db :=
  mkDb {[ idProduct := twoWayShoe ]} {[ idOrder := orderGone ]} ∅.

(** A product that is not on sale and still carries a sale price. *)
Definition offSaleShoe : Product :=
  mkProduct "Classic" 100 [] 10 [] [] false (Some 80).

Definition dbOffSale : Db := mkDb {[ idProduct := offSaleShoe ]} ∅ ∅.

(** The sale price of a product is below its price only while the product
    is on sale. *)
Definition saleFlagConsistent (p : Product) : bool :=
  p_onSale p
  || match p_salePrice p with
     | Some sp => p_price p <=? sp
     | None => true
     end.

(** The line [addItemToCart] leaves for a key: the existing line with the
    quantity increased, or a new line at the end, under the cast id. *)
Definition addedItems (items : list CartItem) (productId : string) (quantity price : Z)
  (salePrice : option Z) (selectedSize selectedColor : option string) : list CartItem :=
  match findIndex (CartsRepository.sameLine productId selectedSize selectedColor) items with
  | Some i =>
      alter (fun it => CartsRepository.setQuantity (c_quantity it + quantity) it) i items
  | None =>
      items ++ [mkCartItem (castObjectId productId) quantity price salePrice
                  selectedSize selectedColor]
  end.

Definition dbPlain : Db := mkDb {[ idPlain := plainShoe ]} ∅ ∅.

(** A cart with two sizes of one product, no color chosen. *)
Definition cartTwoSizes : Cart :=
  mkCart [mkCartItem idProduct 1 100 None (Some "9") None;
          mkCartItem idProduct 2 100 None (Some "10") None] 300.

Definition dbTwoSizes : Db :=
  mkDb {[ idProduct := shoe ]} ∅ {[ idUser := cartTwoSizes ]}.

(** The product of the cart example of the specification: price 100, sale
    price 80, on sale. *)
Definition onSaleShoe : Product :=
  mkProduct "Classic" 100 [] 10 [] [] true (Some 80).

Definition dbOnSale : Db := mkDb {[ idProduct := onSaleShoe ]} ∅ ∅.

(** ** Vocabulary of the login statements *)

(** The condition of the stale-counter reset of [loginUser]. *)
Definition stale (u : User) (now : Z) : bool :=
  (0 <? u_failedLoginAttempts u)
  && match u_lastFailedAttemptAt u with
     | Some t => UsersService.FAILED_ATTEMPT_RESET_PERIOD <? now - t
     | None => false
     end.

(** No temporary lock is running at [now]. *)
Definition lockInactive (u : User) (now : Z) : Prop :=
  match u_lockUntil u with
  | Some lockUntil => lockUntil <= now
  | None => True
  end.

(** Each attempt of [times] comes within the reset period of the one
    before; [prev] is the time of the attempt before the first. *)
Fixpoint inWindow (prev : Z) (times : list Z) : Prop :=
  match times with
  | [] => True
  | t :: r => t - prev <= UsersService.FAILED_ATTEMPT_RESET_PERIOD ∧ inWindow t r
  end.

(** The time of the last attempt of [times], [prev] if there is none. *)
Fixpoint lastOf (prev : Z) (times : list Z) : Z :=
  match times with
  | [] => prev
  | t :: r => lastOf t r
  end.

Section LoginRuns.

Variable bcrypt_compare : string -> string -> bool.

(** The user collection after one login attempt at each of [times]. *)
Definition attempts (times : list Z) (email password : string)
  (users : gmap string User) : gmap string User :=
  fold_left (fun us t => snd (UsersService.loginUser bcrypt_compare t email password us))
    times users.

End LoginRuns.

(** A comparison for the examples: the stored hash is the password. *)
Definition plainCompare (password hash : string) : bool := String.eqb password hash.

Definition alice : User := mkUser "secret" false 0 None false None.
Definition aliceMail : string := "alice@example.org".
Definition users0 : gmap string User := {[ aliceMail := alice ]}.

(** ** Vocabulary of the further statements *)

(** Every product of the collection passes the validators of the schema;
    in particular no stock count is negative. *)
Definition storeValid (db : Db) : Prop :=
  ∀ k p, products db !! k = Some p → validateProduct p = true.

(** The sum of the lines at their full price. *)
Definition fullPriceTotal (items : list OrderItem) : Z :=
  fold_left (fun total it => total + i_price it * i_quantity it) items 0.

Definition cartFullPriceTotal (items : list CartItem) : Z :=
  fold_left (fun total it => total + c_price it * c_quantity it) items 0.

(** The key of a cart line, and carts without two lines of one key. *)
Definition lineKey (it : CartItem) : string * option string * option string :=
  (c_product it, c_selectedSize it, c_selectedColor it).

Definition uniqueLines (items : list CartItem) : Prop :=
  NoDup (lineKey <$> items).

(** The order line the service snapshots for a cart line, as stored. *)
Definition storedLine (ps : gmap string Product) (ci : CartItem) : option OrderItem :=
  p ← ps !! c_product ci;
  Some (castItem (mkOrderItem (c_product ci) (p_name p) (p_price p) (p_salePrice p)
                    (c_quantity ci) (c_selectedSize ci) (c_selectedColor ci)
                    (head (p_images p)))).

(** The bounds the failed-attempt counter stays in. *)
Definition counterInRange (u : User) : Prop :=
  0 <= u_failedLoginAttempts u <= UsersService.MAX_LOGIN_ATTEMPTS + 1.

(** A locked account with its [_id], and an administrator. *)
Definition idAlice : string := "ddddddddddddddddddddddd1".
Definition idAdmin : string := "ddddddddddddddddddddddd2".
Definition lockedAlice : User := mkUser "secret" false 0 None true None.
Definition accounts0 : Accounts :=
  mkAccounts {[ aliceMail := lockedAlice ]} {[ idAlice := aliceMail ]} [].

(** The stock count of a target. *)
Definition stockAt (t : Target) (p : Product) : option Z :=
  match t with
  | TTop => Some (p_stock p)
  | TSize i => size_stock <$> p_sizes p !! i
  | TColor i => color_stock <$> p_colors p !! i
  | TNone => None
  end.

Definition Target_eqb (a b : Target) : bool :=
  match a, b with
  | TTop, TTop => true
  | TSize i, TSize j => Nat.eqb i j
  | TColor i, TColor j => Nat.eqb i j
  | TNone, TNone => true
  | _, _ => false
  end.

(** The units the reversal loop over [items] adds to the stock count [t]
    of the product stored under [k] as [p]: the quantities of the lines of
    that product whose target is [t]. *)
Fixpoint restoredUnits (items : list OrderItem) (k : string) (p : Product) (t : Target)
  : Z :=
  match items with
  | [] => 0
  | it :: r =>
      (if String.eqb (i_productId it) k && Target_eqb (revertTarget it p) t
       then i_quantity it else 0)
      + restoredUnits r k p t
  end.

(** The upper-case spelling of the id of the sample product. *)
Definition idProductUpper : string := "AAAAAAAAAAAAAAAAAAAAAAA1".

(** A line of the order model with the selectors of a request. *)
Definition lineOf (sz cl : option string) : OrderItem :=
  mkOrderItem "" "" 0 None 0 sz cl None.

(** Only the cart of [userId] may differ between [db] and [db']. *)
Definition touchesOnlyCart (userId : string) (db db' : Db) : Prop :=
  products db' = products db ∧ orders db' = orders db
  ∧ ∀ u, u ≠ userId → carts db' !! u = carts db !! u.

(** A cart the service can turn into an order. *)
Definition cartInStock : Cart :=
  mkCart [mkCartItem idProduct 2 100 None (Some "9") None;
          mkCartItem idPlain 1 50 None None None] 250.

Definition dbInStock : Db :=
  mkDb {[ idProduct := shoe; idPlain := plainShoe ]} ∅ {[ idUser := cartInStock ]}.

Definition orderInStock : Order :=
  mkOrder idUser
    [mkOrderItem idProduct "Runner" 100 None 2 (Some "9") None None;
     mkOrderItem idPlain "Plain" 50 None 1 None None None]
    250 anAddress "paypal" "pending" "pending".

(** The document a reset of the lockout fields leaves. *)
Definition cleared (u : User) : User :=
  mkUser (u_password u) (u_isAdmin u) 0 None false None.

(** The audit entry of an unlock. *)
Definition unlockEntry (now : Z) (userId : string) (adminUserId reason : option string)
  : AuditLog :=
  mkAuditLog userId "ACCOUNT_UNLOCK" now adminUserId
    ("Account unlocked by admin. Reason: "
     ++ match reason with
        | Some r => if truthy reason then r else "No reason provided."
        | None => "No reason provided."
        end).

(** An id that casts to an ObjectId, or no id at all. *)
Definition castable (id : option string) : bool :=
  match id with
  | Some a => ObjectId_isValid a
  | None => true
  end.

(** * Properties *)

Ltac run :=
  unfold bind, ret, throw, get, put, lift in *; simpl in *.

(** ** Ids *)

Lemma isHex_lowerHex (c : ascii) : isHex (lowerHex c) = isHex c.
Proof. destruct c as [[] [] [] [] [] [] [] []]; vm_compute; reflexivity. Qed.

Lemma castObjectId_valid (id : string) :
  ObjectId_isValid (castObjectId id) = ObjectId_isValid id.
Proof.
  unfold ObjectId_isValid. f_equal.
  - f_equal. induction id as [|c r IH]; simpl; [done|]. by rewrite IH.
  - induction id as [|c r IH]; simpl; [done|]. by rewrite isHex_lowerHex, IH.
Qed.

(** ** Arrays *)

Lemma findIndex_lookup {A} (f : A -> bool) (l : list A) (i : nat) :
  findIndex f l = Some i → ∃ x, l !! i = Some x ∧ f x = true.
Proof.
  revert i. induction l as [|a l IH]; intros i; simpl; [done|].
  destruct (f a) eqn:Hf.
  - intros [= <-]. eauto.
  - destruct (findIndex f l) as [j|]; simpl; [|done].
    intros [= <-]. destruct (IH j eq_refl) as (x & ? & ?). eauto.
Qed.

Lemma findIndex_alter {A} (f : A -> bool) (g : A -> A) (i : nat) (l : list A) :
  (∀ x, f (g x) = f x) → findIndex f (alter g i l) = findIndex f l.
Proof.
  intros Hfg. revert i. induction l as [|a l IH]; intros [|i]; try done.
  - simpl. by rewrite Hfg.
  - cbn [findIndex]. change (alter g (S i) (a :: l)) with (a :: alter g i l).
    cbn [findIndex]. by rewrite IH.
Qed.

Lemma find_findIndex {A} (f : A -> bool) (l : list A) :
  find f l = i ← findIndex f l; l !! i.
Proof.
  induction l as [|a l IH]; simpl; [done|].
  destruct (f a); [done|]. rewrite IH. by destruct (findIndex f l).
Qed.

Lemma nonEmpty_alter {A} (g : A -> A) (i : nat) (l : list A) :
  nonEmpty (alter g i l) = nonEmpty l.
Proof. by destruct l, i. Qed.

Lemma alter_comm {A} (f g : A -> A) (i j : nat) (l : list A) :
  (∀ x, f (g x) = g (f x)) →
  alter f i (alter g j l) = alter g j (alter f i l).
Proof.
  intros Hfg. destruct (decide (i = j)) as [->|Hne].
  - rewrite !list_alter_alter_eq. apply list_alter_ext; [|done].
    intros x _. apply Hfg.
  - by apply list_alter_alter_ne.
Qed.

Lemma forallb_lookup {A} (f : A -> bool) (l : list A) (i : nat) (x : A) :
  forallb f l = true → l !! i = Some x → f x = true.
Proof.
  intros Hall Hx. apply list_elem_of_lookup_2, list_elem_of_In in Hx.
  rewrite forallb_forall in Hall. auto.
Qed.

Lemma strictEq_Some (name : string) (sel : option string) :
  strictEq name sel = true → sel = Some name.
Proof.
  destruct sel as [x|]; simpl; [|done].
  intros ->%String.eqb_eq. done.
Qed.

(** ** Stock fields *)

Lemma revertStock_target (it : OrderItem) (p : Product) :
  OrdersRepository.revertStock it p = applyDelta (revertTarget it p) (i_quantity it) p.
Proof.
  unfold OrdersRepository.revertStock, revertTarget.
  destruct (nonEmpty (p_sizes p) && truthy (i_selectedSize it)).
  { by destruct (findIndex _ (p_sizes p)). }
  destruct (nonEmpty (p_colors p) && truthy (i_selectedColor it)); [|done].
  by destruct (findIndex _ (p_colors p)).
Qed.

Lemma revertTarget_applyDelta (it : OrderItem) (t : Target) (d : Z) (p : Product) :
  revertTarget it (applyDelta t d p) = revertTarget it p.
Proof.
  destruct t; try done; unfold revertTarget; simpl.
  - by rewrite nonEmpty_alter, findIndex_alter.
  - by rewrite nonEmpty_alter, findIndex_alter.
Qed.

Lemma applyDelta_comm (t1 t2 : Target) (d1 d2 : Z) (p : Product) :
  applyDelta t1 d1 (applyDelta t2 d2 p) = applyDelta t2 d2 (applyDelta t1 d1 p).
Proof.
  destruct p, t1, t2; try done; unfold applyDelta, OrdersRepository.setSizes,
    OrdersRepository.setColors, OrdersRepository.addStock; simpl; f_equal.
  - lia.
  - apply alter_comm. intros [n s]; unfold OrdersRepository.addSizeStock; simpl.
    f_equal; lia.
  - apply alter_comm. intros [n im s]; unfold OrdersRepository.addColorStock; simpl.
    f_equal; lia.
Qed.

Lemma revertStock_comm (a b : OrderItem) (p : Product) :
  OrdersRepository.revertStock a (OrdersRepository.revertStock b p)
  = OrdersRepository.revertStock b (OrdersRepository.revertStock a p).
Proof.
  rewrite !revertStock_target, !revertTarget_applyDelta. apply applyDelta_comm.
Qed.

Lemma revertLine_comm (a b : OrderItem) (ps : gmap string Product) :
  revertLine a (revertLine b ps) = revertLine b (revertLine a ps).
Proof.
  unfold revertLine.
  destruct (decide (i_productId a = i_productId b)) as [Heq|Hne].
  - rewrite Heq. destruct (ps !! i_productId b) as [p|] eqn:Hp; [|by rewrite Hp].
    rewrite !lookup_insert_eq, !insert_insert_eq. by rewrite revertStock_comm.
  - destruct (ps !! i_productId b) as [pb|] eqn:Hb;
      destruct (ps !! i_productId a) as [pa|] eqn:Ha;
      rewrite ?lookup_insert_ne, ?Ha, ?Hb by done; try done.
    by apply insert_insert_ne.
Qed.

Lemma revertAll_revertLine (items : list OrderItem) (it : OrderItem)
  (ps : gmap string Product) :
  revertAll items (revertLine it ps) = revertLine it (revertAll items ps).
Proof.
  revert ps. induction items as [|x items IH]; intros ps; simpl; [done|].
  unfold revertAll in *. simpl. rewrite <- IH. by rewrite revertLine_comm.
Qed.

Lemma size_name_truthy (p : Product) (i : nat) (s : SizeOption) (sel : option string) :
  validateProduct p = true → p_sizes p !! i = Some s →
  strictEq (size s) sel = true → truthy sel = true.
Proof.
  intros Hv Hs ->%strictEq_Some. unfold validateProduct in Hv.
  repeat (apply andb_prop in Hv as [Hv ?]).
  match goal with H : forallb _ (p_sizes p) = true |- _ =>
    apply (forallb_lookup _ _ _ _ H) in Hs end.
  apply andb_prop in Hs as [Hs _]. done.
Qed.

Lemma color_name_truthy (p : Product) (i : nat) (c : ColorOption) (sel : option string) :
  validateProduct p = true → p_colors p !! i = Some c →
  strictEq (color c) sel = true → truthy sel = true.
Proof.
  intros Hv Hs ->%strictEq_Some. unfold validateProduct in Hv.
  repeat (apply andb_prop in Hv as [Hv ?]).
  match goal with H : forallb _ (p_colors p) = true |- _ =>
    apply (forallb_lookup _ _ _ _ H) in Hs end.
  apply andb_prop in Hs as [Hs _]. done.
Qed.

Lemma decrementStock_names (it : OrderItem) (p p' : Product) :
  OrdersRepository.decrementStock it p = Ok p' →
  ∃ t, p' = applyDelta t (- i_quantity it) p
       ∧ (∀ q, validateProduct (applyDelta t q p) = true → revertTarget it p = t).
Proof.
  unfold OrdersRepository.decrementStock.
  destruct (nonEmpty (p_sizes p)) eqn:Hsz.
  { destruct (findIndex _ (p_sizes p)) as [i|] eqn:Hi; [|done].
    destruct (findIndex_lookup _ _ _ Hi) as (s & Hs & Hm). rewrite Hs.
    destruct (size_stock s <? i_quantity it); [done|]. intros [= <-].
    exists (TSize i). split; [done|]. intros q Hv.
    unfold revertTarget. rewrite Hsz, Hi.
    rewrite (size_name_truthy _ i (OrdersRepository.addSizeStock q s) _ Hv);
      [done| |exact Hm].
    simpl. by rewrite list_lookup_alter_eq, Hs. }
  destruct (nonEmpty (p_colors p)) eqn:Hcl.
  { destruct (findIndex _ (p_colors p)) as [i|] eqn:Hi; [|done].
    destruct (findIndex_lookup _ _ _ Hi) as (c & Hc & Hm). rewrite Hc.
    destruct (color_stock c <? i_quantity it); [done|]. intros [= <-].
    exists (TColor i). split; [done|]. intros q Hv.
    unfold revertTarget. rewrite Hsz, Hcl, Hi. simpl.
    rewrite (color_name_truthy _ i (OrdersRepository.addColorStock q c) _ Hv);
      [done| |exact Hm].
    simpl. by rewrite list_lookup_alter_eq, Hc. }
  destruct (p_stock p <? i_quantity it); [done|]. intros [= <-].
  exists TTop. split; [done|]. intros q _.
  unfold revertTarget. by rewrite Hsz, Hcl.
Qed.

Lemma applyDelta_inverse (t : Target) (d : Z) (p : Product) :
  applyDelta t d (applyDelta t (- d) p) = p.
Proof.
  destruct p, t; unfold applyDelta, OrdersRepository.setSizes,
    OrdersRepository.setColors, OrdersRepository.addStock; simpl; f_equal.
  - lia.
  - rewrite list_alter_alter_eq. apply list_alter_id.
    intros [n s]; unfold OrdersRepository.addSizeStock; simpl. f_equal; lia.
  - rewrite list_alter_alter_eq. apply list_alter_id.
    intros [n im s]; unfold OrdersRepository.addColorStock; simpl. f_equal; lia.
Qed.

(** Reverting a line on the product its decrement produced gives the
    product back. *)
Lemma revert_after_decrement (it : OrderItem) (p p' : Product) :
  OrdersRepository.decrementStock it p = Ok p' →
  validateProduct p' = true →
  OrdersRepository.revertStock it p' = p.
Proof.
  intros Hdec Hv. destruct (decrementStock_names _ _ _ Hdec) as (t & -> & Ht).
  rewrite revertStock_target, revertTarget_applyDelta, (Ht _ Hv).
  apply applyDelta_inverse.
Qed.

Lemma forallb_alter {A} (f : A -> bool) (g : A -> A) (i : nat) (l : list A) :
  (∀ x, f x = true → f (g x) = true) →
  forallb f l = true → forallb f (alter g i l) = true.
Proof.
  intros Hg. revert i. induction l as [|a l IH]; intros [|i]; simpl; try done.
  - intros [? ?]%andb_prop. apply andb_true_intro. auto.
  - intros [? ?]%andb_prop. apply andb_true_intro. split; [done|].
    by apply (IH i).
Qed.

Lemma applyDelta_valid (t : Target) (d : Z) (p : Product) :
  0 <= d → validateProduct p = true → validateProduct (applyDelta t d p) = true.
Proof.
  intros Hd. destruct t; simpl; try done; unfold validateProduct; simpl;
    intros Hv; repeat (apply andb_prop in Hv as [Hv ?]);
    repeat (apply andb_true_intro; split); try done.
  - apply Z.leb_le. assert (0 <= p_stock p) by by apply Z.leb_le. lia.
  - apply forallb_alter; [|done]. intros [n s]; simpl.
    intros [? ?%Z.leb_le]%andb_prop. apply andb_true_intro. split; [done|].
    apply Z.leb_le. lia.
  - apply forallb_alter; [|done]. intros [n im s]; simpl.
    intros [? ?%Z.leb_le]%andb_prop. apply andb_true_intro. split; [done|].
    apply Z.leb_le. lia.
Qed.

Lemma revertStock_valid (it : OrderItem) (p : Product) :
  0 <= i_quantity it → validateProduct p = true →
  validateProduct (OrdersRepository.revertStock it p) = true.
Proof. rewrite revertStock_target. apply applyDelta_valid. Qed.

(** ** Running the repository loops *)

Lemma setProducts_id (db : Db) : setProducts (products db) db = db.
Proof. by destruct db. Qed.

Lemma saveProduct_run (productId : string) (p : Product) (db : Db) :
  saveProduct productId p db =
    if validateProduct p
    then (Ok tt, setProducts (<[productId := p]> (products db)) db)
    else (Err ValidationError, db).
Proof. unfold saveProduct. by destruct (validateProduct p). Qed.

Lemma decrementItem_Ok (it : OrderItem) (db db' : Db) :
  OrdersRepository.decrementItem it db = (Ok tt, db') →
  ∃ p p', products db !! i_productId it = Some p
          ∧ OrdersRepository.decrementStock it p = Ok p'
          ∧ validateProduct p' = true
          ∧ db' = setProducts (<[i_productId it := p']> (products db)) db.
Proof.
  unfold OrdersRepository.decrementItem. run.
  destruct (products db !! i_productId it) as [p|] eqn:Hp; [|done].
  destruct (OrdersRepository.decrementStock it p) as [p'|e] eqn:Hdec; [|done].
  rewrite saveProduct_run. destruct (validateProduct p') eqn:Hv; [|done].
  intros [= <-]. eauto 10.
Qed.

Lemma forEach_decrement_frame (items : list OrderItem) (db db' : Db) :
  forEach OrdersRepository.decrementItem items db = (Ok tt, db') →
  orders db' = orders db ∧ carts db' = carts db
  ∧ ∀ k p, products db !! k = Some p → validateProduct p = true →
           ∃ p', products db' !! k = Some p' ∧ validateProduct p' = true.
Proof.
  revert db. induction items as [|it items IH]; intros db; simpl.
  { run. intros [= <-]. eauto. }
  run. destruct (OrdersRepository.decrementItem it db) as [[[]|e] db1] eqn:Hit; [|done].
  intros Hrest. apply decrementItem_Ok in Hit as (p & p1 & Hp & Hdec & Hv & ->).
  destruct (IH _ Hrest) as (Ho & Hc & Hk). simpl in *.
  split_and!; [done..|]. intros k q Hq Hvq. apply (Hk k (if decide (k = i_productId it) then p1 else q)).
  - destruct (decide _) as [->|?]; [by rewrite lookup_insert_eq|].
    by rewrite lookup_insert_ne.
  - by destruct (decide _).
Qed.

Lemma forEach_decrement_revert (items : list OrderItem) (db db' : Db) :
  forEach OrdersRepository.decrementItem items db = (Ok tt, db') →
  revertAll items (products db') = products db ∧ validOn items (products db').
Proof.
  revert db. induction items as [|it items IH]; intros db; simpl.
  { run. intros [= <-]. split; [done|]. intros it p Hin. by apply elem_of_nil in Hin. }
  run. destruct (OrdersRepository.decrementItem it db) as [[[]|e] db1] eqn:Hit; [|done].
  intros Hrest. apply decrementItem_Ok in Hit as (p & p1 & Hp & Hdec & Hv & ->).
  destruct (IH _ Hrest) as (Hrev & Hvalid).
  destruct (forEach_decrement_frame _ _ _ Hrest) as (_ & _ & Hk). simpl in *.
  split.
  - change (revertAll (it :: items) (products db'))
      with (revertAll items (revertLine it (products db'))).
    rewrite revertAll_revertLine, Hrev. unfold revertLine.
    rewrite lookup_insert_eq, insert_insert_eq.
    rewrite (revert_after_decrement _ _ _ Hdec Hv). by apply insert_id.
  - intros it' q [->|Hin]%elem_of_cons Hq; [|by eapply Hvalid].
    destruct (Hk (i_productId it) p1) as (q' & Hq' & Hvq'); [by rewrite lookup_insert_eq|done|].
    congruence.
Qed.

Lemma forEach_revert_run (items : list OrderItem) (db : Db) :
  validOn items (products db) →
  (∀ it, it ∈ items → 0 <= i_quantity it) →
  forEach OrdersRepository.revertItem items db
  = (Ok tt, setProducts (revertAll items (products db)) db).
Proof.
  revert db. induction items as [|it items IH]; intros db Hvalid Hq; simpl.
  { run. by rewrite setProducts_id. }
  unfold bind at 1. unfold OrdersRepository.revertItem at 1. run.
  change (revertAll (it :: items) (products db))
    with (revertAll items (revertLine it (products db))).
  unfold revertLine.
  destruct (products db !! i_productId it) as [p|] eqn:Hp.
  - rewrite saveProduct_run, revertStock_valid;
      [|apply Hq; by left|eapply Hvalid; [by left|done]].
    rewrite IH; simpl; [done| |].
    + intros it' q Hin Hlook.
      destruct (decide (i_productId it' = i_productId it)) as [Heq|Hne].
      * rewrite Heq, lookup_insert_eq in Hlook. injection Hlook as <-.
        apply revertStock_valid; [apply Hq; by left|].
        eapply Hvalid; [by left|done].
      * rewrite lookup_insert_ne in Hlook by done.
        eapply Hvalid; [by right|done].
    + intros it' Hin. apply Hq. by right.
  - apply IH.
    + intros it' q Hin. apply Hvalid. by right.
    + intros it' Hin. apply Hq. by right.
Qed.

Lemma saveOrder_run (orderId : string) (o : Order) (db : Db) :
  saveOrder orderId o db =
    if validateOrder o
    then (Ok (orderPreSave o), setOrders (<[orderId := orderPreSave o]> (orders db)) db)
    else (Err ValidationError, db).
Proof. unfold saveOrder. by destruct (validateOrder o). Qed.

Lemma createOrder_Ok (newId : string) (orderData : OrderData) (db db1 : Db) (o : Order) :
  OrdersRepository.createOrder newId orderData db = (Ok o, db1) →
  validateOrder (new_Order orderData) = true
  ∧ o = orderPreSave (new_Order orderData)
  ∧ forEach OrdersRepository.decrementItem (o_items o)
      (setOrders (<[newId := o]> (orders db)) db) = (Ok tt, db1).
Proof.
  unfold OrdersRepository.createOrder, transaction. unfold bind at 1.
  rewrite saveOrder_run. destruct (validateOrder (new_Order orderData)); [|done].
  unfold bind, ret.
  destruct (forEach _ _ _) as [[[]|e] db'] eqn:Hloop; [|done].
  intros [= <- <-]. done.
Qed.

(** Whatever goes wrong in [createOrder], the transaction leaves the
    database as it was. *)
Lemma createOrder_Err (newId : string) (orderData : OrderData) (db db1 : Db) (e : Error) :
  OrdersRepository.createOrder newId orderData db = (Err e, db1) → db1 = db.
Proof.
  unfold OrdersRepository.createOrder, transaction.
  destruct (bind _ _ db) as [[o|e'] db']; [done|]. by intros [= _ <-].
Qed.

Lemma itemEffectivePrice_nonneg (it : OrderItem) :
  validateItem it = true → 0 <= itemEffectivePrice it * i_quantity it.
Proof.
  unfold validateItem, itemEffectivePrice. rewrite !andb_true_iff.
  intros ((((_ & _) & ?%Z.leb_le) & Hsp) & ?%Z.leb_le).
  destruct (i_salePrice it) as [sp|]; [|nia].
  apply Z.leb_le in Hsp. destruct (sp <? i_price it); nia.
Qed.

Lemma fold_total_nonneg (items : list OrderItem) (acc : Z) :
  forallb validateItem items = true → 0 <= acc →
  0 <= fold_left (fun total it => total + itemEffectivePrice it * i_quantity it) items acc.
Proof.
  revert acc. induction items as [|it items IH]; intros acc; simpl; [done|].
  intros [Hit Hrest]%andb_prop Hacc. apply IH; [done|].
  pose proof (itemEffectivePrice_nonneg _ Hit). lia.
Qed.

Lemma validateOrder_setStatus (o : Order) (status : string) :
  validateOrder o = true → includes orderStatuses status = true →
  validateOrder (setStatus status o) = true.
Proof.
  unfold validateOrder. simpl. rewrite !andb_true_iff.
  intros (((((( ? & ?) & ?) & ?) & ?) & ?) & ?) Hs. split_and!; done.
Qed.


Lemma validateOrder_quantities (o : Order) (it : OrderItem) :
  validateOrder o = true → it ∈ o_items o → 0 <= i_quantity it.
Proof.
  unfold validateOrder. rewrite !andb_true_iff.
  intros (((((( ? & Hall) & ?) & ?) & ?) & ?) & ?) Hin.
  rewrite forallb_forall in Hall. apply list_elem_of_In, Hall in Hin.
  unfold validateItem in Hin. rewrite !andb_true_iff in Hin.
  destruct Hin as (_ & ?%Z.leb_le). lia.
Qed.

(** The order [createOrder] stores passes the validators again: the total
    the hook computed is not negative. *)
Lemma created_order_valid (o : Order) :
  validateOrder o = true → validateOrder (orderPreSave o) = true.
Proof.
  unfold validateOrder. simpl. rewrite !andb_true_iff.
  intros (((((( ? & ?) & ?) & ?) & ?) & ?) & ?). split_and!; try done.
  apply Z.leb_le. by apply fold_total_nonneg.
Qed.

(** ** Creation followed by cancellation or deletion, at the repository *)

Lemma createOrder_facts (newId : string) (orderData : OrderData) (db db1 : Db) (o : Order) :
  OrdersRepository.createOrder newId orderData db = (Ok o, db1) →
  validateOrder (new_Order orderData) = true
  ∧ o = orderPreSave (new_Order orderData)
  ∧ orders db1 = <[newId := o]> (orders db)
  ∧ carts db1 = carts db
  ∧ revertAll (o_items o) (products db1) = products db
  ∧ validOn (o_items o) (products db1).
Proof.
  intros (Hval & Ho & Hloop)%createOrder_Ok.
  destruct (forEach_decrement_frame _ _ _ Hloop) as (Hord & Hcarts & _).
  destruct (forEach_decrement_revert _ _ _ Hloop) as (Hrev & Hvalid).
  simpl in *. done.
Qed.



(** ** What the services add around the repository *)

Lemma saveCart_run (userId : string) (c : Cart) (db : Db) :
  saveCart userId c db =
    if validateCart userId c
    then (Ok (mkCart (cart_items c) (cartTotal (cart_items c))),
          setCarts (<[userId := mkCart (cart_items c) (cartTotal (cart_items c))]> (carts db)) db)
    else (Err ValidationError, db).
Proof. unfold saveCart. by destruct (validateCart userId c). Qed.

Lemma getOrCreateUserCart_run (userId : string) (db : Db) :
  ∃ r dbA,
    CartsService.getOrCreateUserCart userId db = (r, dbA)
    ∧ products dbA = products db ∧ orders dbA = orders db
    ∧ ∀ cart, r = Ok cart → carts dbA !! userId = Some cart.
Proof.
  unfold CartsService.getOrCreateUserCart, rethrowAs,
    CartsRepository.getCartByUserId, CartsRepository.createCart. run.
  destruct (carts db !! userId) as [c|] eqn:Hc.
  { eexists _, _. split; [reflexivity|]. split_and!; try done. by intros ? [= <-]. }
  rewrite saveCart_run. destruct (validateCart userId _).
  - eexists _, _. split; [reflexivity|]. simpl. split_and!; try done.
    intros ? [= <-]. by rewrite lookup_insert_eq.
  - eexists _, _. split; [reflexivity|]. split_and!; done.
Qed.



(** ** Stock restoration *)

Example example_order_decrements :
  fst placed = Ok placedOrder ∧ stockOfSize (snd placed) idProduct "9" = Some 2.
Proof. vm_compute. done. Qed.

Example example_cancel_restores :
  stockOfSize (snd (OrdersService.updateOrderStatus idOrder "cancelled" (snd placed)))
    idProduct "9" = Some 5.
Proof. vm_compute. reflexivity. Qed.



(** The order is shipped first and cancelled afterwards. *)
Example example_cancel_after_shipping :
  stockOfSize
    (snd (OrdersService.updateOrderStatus idOrder "cancelled"
            (snd (OrdersService.updateOrderStatus idOrder "shipped" (snd placed)))))
    idProduct "9" = Some 5.
Proof. vm_compute. reflexivity. Qed.

(** ** Orders beyond the stock *)

Lemma buildOrderItems_first_failure (ps : gmap string Product)
  (pre post : list CartItem) (ci : CartItem) (e : Error)
  (orderItems : list OrderItem) (total : Z) :
  Forall (linePasses ps) pre →
  OrdersService.checkCartItem ps ci = Err e →
  OrdersService.buildOrderItems ps (pre ++ ci :: post) orderItems total = Err e.
Proof.
  intros Hpre Hci. revert orderItems total.
  induction Hpre as [|c pre Hc Hpre IH]; intros orderItems total; simpl.
  - by rewrite Hci.
  - unfold linePasses in Hc.
    destruct (OrdersService.checkCartItem ps c) as [[item amount]|]; [|done].
    apply IH.
Qed.

Lemma snapshotLine_overstock (productId : string) (p : Product) (quantity available : Z)
  (sz cl : option string) :
  OrdersService.resolveAvailableStock sz cl p = Ok available →
  available < quantity →
  OrdersService.snapshotLine productId p quantity sz cl
  = Err (InsufficientStock (p_name p) sz cl quantity available).
Proof.
  intros Hres Hlt. unfold OrdersService.snapshotLine. rewrite Hres.
  by apply Z.ltb_lt in Hlt as ->.
Qed.

Lemma createOrderFromCart_Err (newId userId : string) (addr : ShippingAddress)
  (pm : string) (db db' : Db) (e : Error) :
  OrdersService.createOrderFromCart newId userId addr pm db = (Err e, db') →
  orders db' = orders db ∧ products db' = products db.
Proof.
  unfold OrdersService.createOrderFromCart.
  destruct (ObjectId_isValid userId) eqn:Huser; simpl; [|by intros [= _ <-]].
  destruct (getOrCreateUserCart_run userId db) as (r & dbA & Hrun & Hps & Hos & Hcart).
  unfold bind at 1. rewrite Hrun. destruct r as [cart|e1]; [|by intros [= _ <-]].
  specialize (Hcart cart eq_refl).
  destruct (nonEmpty (cart_items cart)); simpl; [|by intros [= _ <-]]. run.
  destruct (OrdersService.buildOrderItems _ _ _ _) as [[items total]|e1];
    [|by intros [= _ <-]].
  destruct (OrdersRepository.createOrder _ _ dbA) as [[o|e1] dbB] eqn:Hcreate.
  - destruct (createOrder_facts _ _ _ _ _ Hcreate) as (_ & _ & _ & Hcarts & _).
    unfold CartsService.clearUserCart, CartsRepository.clearCart,
      CartsRepository.getCartByUserId. run.
    rewrite Hcarts, Hcart, saveCart_run. unfold validateCart. simpl.
    by rewrite Huser.
  - apply createOrder_Err in Hcreate as ->. by intros [= _ <-].
Qed.

Lemma createDirectOrder_Err (newId userId productId : string) (quantity : Z)
  (addr : ShippingAddress) (pm : string) (sz cl : option string)
  (db db' : Db) (e : Error) :
  OrdersService.createDirectOrder newId userId productId quantity addr pm sz cl db
  = (Err e, db') → db' = db.
Proof.
  unfold OrdersService.createDirectOrder, ProductsService.getProductById.
  destruct (ObjectId_isValid userId); simpl; [|by intros [= _ <-]].
  destruct (ObjectId_isValid productId); simpl; [|by intros [= _ <-]].
  destruct (quantity <? 1); [by intros [= _ <-]|]. run.
  destruct (products db !! productId) as [p|]; [|by intros [= _ <-]].
  destruct (OrdersService.snapshotLine _ _ _ _ _) as [[item amount]|e1];
    [|by intros [= _ <-]].
  by intros ->%createOrder_Err.
Qed.

Lemma overStock_fails (ps : gmap string Product) (ci : CartItem) :
  overStock ps ci → ∃ e, OrdersService.checkCartItem ps ci = Err e.
Proof.
  intros (p & available & Hp & Hres & Hlt). unfold OrdersService.checkCartItem.
  rewrite Hp, (snapshotLine_overstock _ _ _ available) by done. by eexists.
Qed.

Lemma buildOrderItems_some_failure (ps : gmap string Product) (cartItems : list CartItem) :
  Exists (overStock ps) cartItems →
  ∀ orderItems total,
    ∃ e, OrdersService.buildOrderItems ps cartItems orderItems total = Err e.
Proof.
  induction 1 as [ci rest Hci|ci rest _ IH]; intros orderItems total; simpl.
  - apply overStock_fails in Hci as (e & ->). by eexists.
  - destruct (OrdersService.checkCartItem ps ci) as [[item amount]|e]; [|by eexists].
    apply IH.
Qed.

(** C1, as amended. (i) In [createOrderFromCart], when the first line that
    fails the checks of the loop is a line that asks for more than the stock
    resolved for it, and (ii) in [createDirectOrder] with valid ids and a
    quantity of at least 1, when the line asks for more than the stock
    resolved for it, the operation fails with the insufficient-stock error
    that names the product, the requested and the available quantity, and
    the database is untouched. (iii, iv) Whenever either operation fails,
    for whatever reason, no order record is created and no product, hence
    no stock field, is changed. (v, vi) Whenever some line asks for more
    than the stock resolved for it - any line of the stored cart, or the
    line of the direct order, whatever the ids and the quantity - the
    operation does fail, with some error, and leaves the database as it
    was: no order is created and no stock is changed. *)
Theorem C1_overstock_fails_without_effect :
  (∀ newId userId addr pm db cart (pre post : list CartItem) ci p available,
      ObjectId_isValid userId = true →
      carts db !! userId = Some cart →
      cart_items cart = (pre ++ ci :: post)%list →
      Forall (linePasses (products db)) pre →
      products db !! c_product ci = Some p →
      OrdersService.resolveAvailableStock (c_selectedSize ci) (c_selectedColor ci) p
        = Ok available →
      available < c_quantity ci →
      OrdersService.createOrderFromCart newId userId addr pm db
      = (Err (InsufficientStock (p_name p) (c_selectedSize ci) (c_selectedColor ci)
                (c_quantity ci) available), db))
  ∧ (∀ newId userId productId quantity addr pm sz cl db p available,
      ObjectId_isValid userId = true →
      ObjectId_isValid productId = true →
      1 <= quantity →
      products db !! productId = Some p →
      OrdersService.resolveAvailableStock sz cl p = Ok available →
      available < quantity →
      OrdersService.createDirectOrder newId userId productId quantity addr pm sz cl db
      = (Err (InsufficientStock (p_name p) sz cl quantity available), db))
  ∧ (∀ newId userId addr pm db db' e,
      OrdersService.createOrderFromCart newId userId addr pm db = (Err e, db') →
      orders db' = orders db ∧ products db' = products db)
  ∧ (∀ newId userId productId quantity addr pm sz cl db db' e,
      OrdersService.createDirectOrder newId userId productId quantity addr pm sz cl db
      = (Err e, db') →
      orders db' = orders db ∧ products db' = products db)
  ∧ (∀ newId userId addr pm db cart,
      carts db !! userId = Some cart →
      Exists (overStock (products db)) (cart_items cart) →
      ∃ e, OrdersService.createOrderFromCart newId userId addr pm db = (Err e, db))
  ∧ (∀ newId userId productId quantity addr pm sz cl db p available,
      products db !! productId = Some p →
      OrdersService.resolveAvailableStock sz cl p = Ok available →
      available < quantity →
      ∃ e, OrdersService.createDirectOrder newId userId productId quantity addr pm
             sz cl db = (Err e, db)).
Proof.
  split_and!.
  - intros newId userId addr pm db cart pre post ci p available
      Huser Hcart Hitems Hpre Hp Hres Hlt.
    unfold OrdersService.createOrderFromCart, CartsService.getOrCreateUserCart,
      rethrowAs, CartsRepository.getCartByUserId.
    rewrite Huser. run. rewrite Hcart, Hitems.
    replace (nonEmpty (pre ++ ci :: post)) with true by by destruct pre.
    simpl. rewrite (buildOrderItems_first_failure _ _ _ _
      (InsufficientStock (p_name p) (c_selectedSize ci) (c_selectedColor ci)
         (c_quantity ci) available)); [done..|].
    unfold OrdersService.checkCartItem. rewrite Hp.
    by apply snapshotLine_overstock.
  - intros newId userId productId quantity addr pm sz cl db p available
      Huser Hprod Hq Hp Hres Hlt.
    unfold OrdersService.createDirectOrder, ProductsService.getProductById.
    rewrite Huser, Hprod. simpl.
    replace (quantity <? 1) with false by (symmetry; apply Z.ltb_ge; lia).
    run. rewrite Hp. by rewrite (snapshotLine_overstock _ _ _ available).
  - intros. by eapply createOrderFromCart_Err.
  - intros newId userId productId quantity addr pm sz cl db db' e H.
    by apply createDirectOrder_Err in H as ->.
  - intros newId userId addr pm db cart Hcart Hex.
    unfold OrdersService.createOrderFromCart, CartsService.getOrCreateUserCart,
      rethrowAs, CartsRepository.getCartByUserId.
    destruct (ObjectId_isValid userId); simpl; [|by eexists]. run. rewrite Hcart.
    replace (nonEmpty (cart_items cart)) with true by (by destruct Hex).
    simpl.
    destruct (buildOrderItems_some_failure _ _ Hex [] 0) as (e & ->). by eexists.
  - intros newId userId productId quantity addr pm sz cl db p available Hp Hres Hlt.
    unfold OrdersService.createDirectOrder, ProductsService.getProductById.
    destruct (ObjectId_isValid userId); simpl; [|by eexists].
    destruct (ObjectId_isValid productId); simpl; [|by eexists].
    destruct (quantity <? 1); [by eexists|]. run.
    rewrite Hp, (snapshotLine_overstock _ _ _ available) by done. by eexists.
Qed.

Lemma C1_witness :
  OrdersService.createOrderFromCart idOrder idUser anAddress "paypal" dbOverStock
  = (Err (InsufficientStock "Plain" None None 10 5), dbOverStock)
  ∧ OrdersService.createDirectOrder idOrder idUser idProduct 6 anAddress "paypal"
      (Some "9") None db0
    = (Err (InsufficientStock "Runner" (Some "9") None 6 5), db0)
  ∧ (∃ e, OrdersService.createOrderFromCart idOrder idUser anAddress "paypal"
            dbMissingSize = (Err e, dbMissingSize))
  ∧ (∃ e, OrdersService.createDirectOrder idOrder "guest" idProduct 6 anAddress "paypal"
            (Some "9") None db0 = (Err e, db0)).
Proof.
  split; [|split; [|split]].
  - apply (proj1 C1_overstock_fails_without_effect idOrder idUser anAddress "paypal"
             dbOverStock cartOverStock
             [mkCartItem idProduct 1 100 None (Some "9") None] []
             (mkCartItem idPlain 10 50 None None None) plainShoe 5).
    + vm_compute. reflexivity.
    + vm_compute. reflexivity.
    + reflexivity.
    + constructor; [vm_compute; reflexivity|constructor].
    + vm_compute. reflexivity.
    + vm_compute. reflexivity.
    + simpl. lia.
  - apply (proj1 (proj2 C1_overstock_fails_without_effect)
             idOrder idUser idProduct 6 anAddress "paypal" (Some "9") None db0 shoe 5).
    + vm_compute. reflexivity.
    + vm_compute. reflexivity.
    + lia.
    + vm_compute. reflexivity.
    + vm_compute. reflexivity.
    + lia.
  - apply (proj1 (proj2 (proj2 (proj2 (proj2 C1_overstock_fails_without_effect))))
             idOrder idUser anAddress "paypal" dbMissingSize cartMissingSize).
    + vm_compute. reflexivity.
    + right. left. exists plainShoe, 5.
      split; [vm_compute; reflexivity|]. split; [vm_compute; reflexivity|simpl; lia].
  - apply (proj2 (proj2 (proj2 (proj2 (proj2 C1_overstock_fails_without_effect))))
             idOrder "guest" idProduct 6 anAddress "paypal" (Some "9") None db0 shoe 5).
    + vm_compute. reflexivity.
    + vm_compute. reflexivity.
    + lia.
Defined.

(** C1, as stated, fails: the second line of the cart asks for 10 of a
    product with 5 in stock, yet the operation fails on the first line, with
    a size-not-found error that names no quantity. *)
Lemma C1_counterexample :
  (∃ ci, ci ∈ cart_items cartMissingSize ∧ overStock (products dbMissingSize) ci)
  ∧ fst (OrdersService.createOrderFromCart idOrder idUser anAddress "paypal"
           dbMissingSize)
    = Err (SizeNotFound (Some "11") "Runner")
  ∧ ∀ name sz cl requested available,
      fst (OrdersService.createOrderFromCart idOrder idUser anAddress "paypal"
             dbMissingSize)
      ≠ Err (InsufficientStock name sz cl requested available).
Proof.
  split_and!.
  - exists (mkCartItem idPlain 10 50 None None None). split.
    + right. left.
    + exists plainShoe, 5. split_and!; [by vm_compute|by vm_compute|simpl; lia].
  - vm_compute. reflexivity.
  - intros. vm_compute. discriminate.
Qed.

(** The stock check of the repository: two lines of 3 on a size with 5 in
    stock pass the service one by one; the transaction then fails on the
    second decrement with an error that names the product and the size, and
    nothing is written. *)
Example example_repository_shortfall :
  OrdersService.createOrderFromCart idOrder idUser anAddress "paypal" dbSameSize
  = (Err (RepoInsufficientStockSize "Runner" (Some "9")), dbSameSize).
Proof. vm_compute. reflexivity. Qed.

(** ** Which stock field a line uses *)

Lemma nonEmpty_lookup {A} (l : list A) (i : nat) (x : A) :
  l !! i = Some x → nonEmpty l = true.
Proof. by destruct l. Qed.

Lemma snapshotLine_Ok (productId : string) (p : Product) (q : Z) (sz cl : option string)
  (item : OrderItem) (amount : Z) :
  OrdersService.snapshotLine productId p q sz cl = Ok (item, amount) →
  ∃ available,
    OrdersService.resolveAvailableStock sz cl p = Ok available
    ∧ (available <? q) = false
    ∧ item = mkOrderItem productId (p_name p) (p_price p) (p_salePrice p) q sz cl
               (head (p_images p))
    ∧ amount = OrdersService.effectivePrice p * q.
Proof.
  unfold OrdersService.snapshotLine.
  destruct (OrdersService.resolveAvailableStock sz cl p) as [available|]; [|done].
  destruct (available <? q) eqn:Hlt; [done|]. intros [= <- <-]. eauto.
Qed.

Lemma resolve_size (p : Product) (sz cl : option string) (i : nat) (s : SizeOption) :
  truthy sz = true →
  findIndex (fun s => strictEq (size s) sz) (p_sizes p) = Some i →
  p_sizes p !! i = Some s →
  OrdersService.resolveAvailableStock sz cl p = Ok (size_stock s).
Proof.
  intros Hsz Hi Hs. unfold OrdersService.resolveAvailableStock.
  rewrite Hsz, (nonEmpty_lookup _ _ _ Hs). simpl.
  by rewrite find_findIndex, Hi; simpl; rewrite Hs.
Qed.

Lemma resolve_color (p : Product) (sz cl : option string) (j : nat) (c : ColorOption) :
  truthy sz = false ∨ p_sizes p = [] →
  truthy cl = true →
  findIndex (fun c => strictEq (color c) cl) (p_colors p) = Some j →
  p_colors p !! j = Some c →
  OrdersService.resolveAvailableStock sz cl p = Ok (color_stock c).
Proof.
  intros Hsz Hcl Hj Hc. unfold OrdersService.resolveAvailableStock.
  replace (truthy sz && nonEmpty (p_sizes p)) with false
    by (destruct Hsz as [->| ->]; [done|by rewrite andb_false_r]).
  rewrite Hcl, (nonEmpty_lookup _ _ _ Hc). simpl.
  by rewrite find_findIndex, Hj; simpl; rewrite Hc.
Qed.

Lemma resolve_top (p : Product) (sz cl : option string) :
  truthy sz = false ∨ p_sizes p = [] →
  truthy cl = false ∨ p_colors p = [] →
  OrdersService.resolveAvailableStock sz cl p = Ok (p_stock p).
Proof.
  intros Hsz Hcl. unfold OrdersService.resolveAvailableStock.
  replace (truthy sz && nonEmpty (p_sizes p)) with false
    by (destruct Hsz as [->| ->]; [done|by rewrite andb_false_r]).
  by replace (truthy cl && nonEmpty (p_colors p)) with false
    by (destruct Hcl as [->| ->]; [done|by rewrite andb_false_r]).
Qed.

Lemma find_None_findIndex {A} (f : A -> bool) (l : list A) :
  findIndex f l = None → find f l = None.
Proof. intros H. by rewrite find_findIndex, H. Qed.

(** C4, as amended. For a line with selectors [sz] and [cl] on a product [p]:
    (1) a selected size that [p] has: the check reads the stock of that
        size, and the decrement of the order item acts on that size;
    (2) no size in play (none selected, or [p] has no sizes) and a selected
        color that [p] has: the check reads the stock of that color, and on
        a product without sizes the decrement acts on that color;
    (3) a selected size (color) missing from the non-empty sizes (colors)
        of [p]: the check fails with a size (color) not-found error;
    (4) neither a size nor a color in play: the check reads the top-level
        stock, and on a product with neither sizes nor colors the
        decrement acts on the top-level stock.
    Variant names of [p] are stored trimmed, as the product schema writes
    them. *)
Theorem C4_check_and_decrement_field :
  (∀ p sz cl i s,
      truthy sz = true →
      findIndex (fun s => strictEq (size s) sz) (p_sizes p) = Some i →
      p_sizes p !! i = Some s →
      trim (size s) = size s →
      OrdersService.resolveAvailableStock sz cl p = Ok (size_stock s)
      ∧ ∀ productId q item amount,
          OrdersService.snapshotLine productId p q sz cl = Ok (item, amount) →
          OrdersRepository.decrementStock (castItem item) p
          = Ok (applyDelta (TSize i) (- q) p))
  ∧ (∀ p sz cl j c,
      truthy sz = false ∨ p_sizes p = [] →
      truthy cl = true →
      findIndex (fun c => strictEq (color c) cl) (p_colors p) = Some j →
      p_colors p !! j = Some c →
      trim (color c) = color c →
      OrdersService.resolveAvailableStock sz cl p = Ok (color_stock c)
      ∧ (p_sizes p = [] →
         ∀ productId q item amount,
           OrdersService.snapshotLine productId p q sz cl = Ok (item, amount) →
           OrdersRepository.decrementStock (castItem item) p
           = Ok (applyDelta (TColor j) (- q) p)))
  ∧ (∀ p sz cl,
      (truthy sz = true → p_sizes p ≠ [] →
       findIndex (fun s => strictEq (size s) sz) (p_sizes p) = None →
       OrdersService.resolveAvailableStock sz cl p = Err (SizeNotFound sz (p_name p)))
      ∧ (truthy sz = false ∨ p_sizes p = [] →
         truthy cl = true → p_colors p ≠ [] →
         findIndex (fun c => strictEq (color c) cl) (p_colors p) = None →
         OrdersService.resolveAvailableStock sz cl p = Err (ColorNotFound cl (p_name p))))
  ∧ (∀ p sz cl,
      truthy sz = false ∨ p_sizes p = [] →
      truthy cl = false ∨ p_colors p = [] →
      OrdersService.resolveAvailableStock sz cl p = Ok (p_stock p)
      ∧ (p_sizes p = [] → p_colors p = [] →
         ∀ productId q item amount,
           OrdersService.snapshotLine productId p q sz cl = Ok (item, amount) →
           OrdersRepository.decrementStock (castItem item) p
           = Ok (applyDelta TTop (- q) p))).
Proof.
  split_and!.
  - intros p sz cl i s Hsz Hi Hs Htrim.
    pose proof (resolve_size p sz cl i s Hsz Hi Hs) as Hres. split; [done|].
    intros productId q item amount (a & Ha & Hlt & -> & _)%snapshotLine_Ok.
    rewrite Hres in Ha. injection Ha as <-.
    destruct (findIndex_lookup _ _ _ Hi) as (s' & Hs' & Hm).
    rewrite Hs in Hs'. injection Hs' as <-. apply strictEq_Some in Hm as Heq.
    unfold OrdersRepository.decrementStock, castItem. simpl.
    rewrite (nonEmpty_lookup _ _ _ Hs).
    replace (trim <$> sz) with sz by (rewrite Heq; simpl; by rewrite Htrim).
    by rewrite Hi, Hs, Hlt.
  - intros p sz cl j c Hsz Hcl Hj Hc Htrim.
    pose proof (resolve_color p sz cl j c Hsz Hcl Hj Hc) as Hres. split; [done|].
    intros Hnosz productId q item amount (a & Ha & Hlt & -> & _)%snapshotLine_Ok.
    rewrite Hres in Ha. injection Ha as <-.
    destruct (findIndex_lookup _ _ _ Hj) as (c' & Hc' & Hm).
    rewrite Hc in Hc'. injection Hc' as <-. apply strictEq_Some in Hm as Heq.
    unfold OrdersRepository.decrementStock, castItem. simpl.
    rewrite Hnosz, (nonEmpty_lookup _ _ _ Hc). simpl.
    replace (trim <$> cl) with cl by (rewrite Heq; simpl; by rewrite Htrim).
    by rewrite Hj, Hc, Hlt.
  - intros p sz cl. split.
    + intros Hsz Hne Hnone. unfold OrdersService.resolveAvailableStock.
      rewrite Hsz. replace (nonEmpty (p_sizes p)) with true by by destruct (p_sizes p).
      simpl. by rewrite find_None_findIndex.
    + intros Hsz Hcl Hne Hnone. unfold OrdersService.resolveAvailableStock.
      replace (truthy sz && nonEmpty (p_sizes p)) with false
        by (destruct Hsz as [->| ->]; [done|by rewrite andb_false_r]).
      rewrite Hcl. replace (nonEmpty (p_colors p)) with true by by destruct (p_colors p).
      simpl. by rewrite find_None_findIndex.
  - intros p sz cl Hsz Hcl.
    pose proof (resolve_top p sz cl Hsz Hcl) as Hres. split; [done|].
    intros Hnosz Hnocl productId q item amount (a & Ha & Hlt & -> & _)%snapshotLine_Ok.
    rewrite Hres in Ha. injection Ha as <-.
    unfold OrdersRepository.decrementStock, castItem. simpl.
    by rewrite Hnosz, Hnocl, Hlt.
Qed.

Lemma C4_witness :
  (OrdersService.resolveAvailableStock (Some "9") None variantShoe = Ok 5
   ∧ ∀ productId q item amount,
       OrdersService.snapshotLine productId variantShoe q (Some "9") None
         = Ok (item, amount) →
       OrdersRepository.decrementStock (castItem item) variantShoe
       = Ok (applyDelta (TSize 0) (- q) variantShoe))
  ∧ (OrdersService.resolveAvailableStock None (Some "tan") colorShoe = Ok 4
     ∧ (p_sizes colorShoe = [] →
        ∀ productId q item amount,
          OrdersService.snapshotLine productId colorShoe q None (Some "tan")
            = Ok (item, amount) →
          OrdersRepository.decrementStock (castItem item) colorShoe
          = Ok (applyDelta (TColor 1) (- q) colorShoe)))
  ∧ (OrdersService.resolveAvailableStock None None plainShoe = Ok 5
     ∧ (p_sizes plainShoe = [] → p_colors plainShoe = [] →
        ∀ productId q item amount,
          OrdersService.snapshotLine productId plainShoe q None None
            = Ok (item, amount) →
          OrdersRepository.decrementStock (castItem item) plainShoe
          = Ok (applyDelta TTop (- q) plainShoe))).
Proof.
  split; [|split].
  - apply (proj1 C4_check_and_decrement_field variantShoe (Some "9") None 0%nat
             (mkSize "9" 5)); reflexivity.
  - apply (proj1 (proj2 C4_check_and_decrement_field) colorShoe None (Some "tan")
             1%nat (mkColor "tan" [] 4)); [by left|reflexivity..].
  - apply (proj2 (proj2 (proj2 C4_check_and_decrement_field)) plainShoe None None);
      by left.
Defined.

(** C4, as stated, fails: size "11" is selected, the product has no such
    size, and the top-level stock of 10 would cover the line; the check does
    not fall back to the top-level stock, it rejects the line. *)
Lemma C4_counterexample :
  find (fun s => strictEq (size s) (Some "11")) (p_sizes variantShoe) = None
  ∧ 1 <= p_stock variantShoe
  ∧ OrdersService.resolveAvailableStock (Some "11") None variantShoe
    = Err (SizeNotFound (Some "11") "Runner")
  ∧ fst (OrdersService.createDirectOrder idOrder idUser idProduct 1 anAddress
           "paypal" (Some "11") None dbVariant)
    = Err (SizeNotFound (Some "11") "Runner").
Proof. split_and!; [done|by vm_compute|done|]. vm_compute. reflexivity. Qed.

(** A line without a selector on a product that has sizes: the check of the
    service reads the top-level stock and passes, the decrement of the
    repository looks for a size and fails. *)
Example example_unselected_line_on_sized_product :
  OrdersService.resolveAvailableStock None None variantShoe = Ok 10
  ∧ OrdersService.createDirectOrder idOrder idUser idProduct 1 anAddress "paypal"
      None None dbVariant
    = (Err (RepoInsufficientStockSize "Runner" None), dbVariant).
Proof. split; [done|]. vm_compute. reflexivity. Qed.

(** ** Status transitions *)

Lemma forEach_revert_Ok (items : list OrderItem) (db db' : Db) :
  forEach OrdersRepository.revertItem items db = (Ok tt, db') →
  db' = setProducts (revertAll items (products db)) db.
Proof.
  revert db. induction items as [|it items IH]; intros db; simpl.
  { run. intros [= <-]. by rewrite setProducts_id. }
  unfold bind at 1. unfold OrdersRepository.revertItem at 1. run.
  change (revertAll (it :: items) (products db))
    with (revertAll items (revertLine it (products db))).
  unfold revertLine. destruct (products db !! i_productId it) as [p|].
  - rewrite saveProduct_run. destruct (validateProduct _); [|done].
    intros ->%IH. done.
  - apply IH.
Qed.


Lemma updateOrderStatus_total (orderId newStatus : string) (db : Db) (o : Order) :
  ObjectId_isValid orderId = true →
  orders db !! orderId = Some o →
  validateOrder o = true →
  includes orderStatuses newStatus = true →
  (String.eqb newStatus "cancelled"
   && negb (String.eqb (o_orderStatus o) "cancelled") = true →
   validOn (o_items o) (products db)) →
  ∃ o' db', OrdersService.updateOrderStatus orderId newStatus db = (Ok o', db').
Proof.
  intros Hid Ho Hv Hs Hvalid.
  unfold OrdersService.updateOrderStatus, OrdersRepository.getOrderById.
  rewrite Hid. run. rewrite Ho, Hs. simpl.
  unfold OrdersRepository.updateOrderStatus, transaction. run.
  rewrite Ho, saveOrder_run, (validateOrder_setStatus _ _ Hv Hs).
  destruct (String.eqb newStatus "cancelled"
            && negb (String.eqb (o_orderStatus o) "cancelled")); [|by eexists _, _].
  rewrite forEach_revert_run; simpl; [by eexists _, _|by apply Hvalid|].
  intros it Hin. by apply (validateOrder_quantities _ _ Hv).
Qed.

Lemma deleteOrder_total (orderId : string) (db : Db) (o : Order) :
  ObjectId_isValid orderId = true →
  orders db !! orderId = Some o →
  validateOrder o = true →
  validOn (o_items o) (products db) →
  ∃ db', OrdersService.deleteOrder orderId db = (Ok o, db')
         ∧ products db' = revertAll (o_items o) (products db)
         ∧ orders db' = delete orderId (orders db).
Proof.
  intros Hid Ho Hv Hvalid.
  unfold OrdersService.deleteOrder. rewrite Hid. simpl.
  unfold OrdersRepository.deleteOrder, transaction. run. rewrite Ho.
  rewrite forEach_revert_run; simpl; [by eexists|done|].
  intros it Hin. by apply (validateOrder_quantities _ _ Hv).
Qed.







(** The cancellation of the worked example gives the three units back to
    size "9", from 2 to 5, and nothing to any other count. *)
Example example_cancel_units :
  let p := mkProduct "Runner" 100 [] 0 [mkSize "9" 2] [] false None in
  products (snd placed) !! idProduct = Some p
  ∧ restoredUnits (o_items placedOrder) idProduct p (TSize 0) = 3
  ∧ restoredUnits (o_items placedOrder) idProduct p TTop = 0
  ∧ (p' ← products (snd (OrdersService.updateOrderStatus idOrder "cancelled"
                            (snd placed))) !! idProduct;
     stockAt (TSize 0) p') = Some 5.
Proof. vm_compute. done. Qed.

Example example_shipping_leaves_stock :
  stockOfSize (snd (OrdersService.updateOrderStatus idOrder "shipped" (snd placed)))
    idProduct "9" = Some 2.
Proof. vm_compute. reflexivity. Qed.

Example example_unknown_status_rejected :
  OrdersService.updateOrderStatus idOrder "lost" (snd placed)
  = (Err (InvalidOrderStatus "lost"), snd placed).
Proof. vm_compute. reflexivity. Qed.

(** ** Lines whose variant is gone *)

(** C10, as amended. When the reversal looks for the variant of a line (the
    size, if the product has sizes and the line records one; otherwise the
    color, if the product has colors and the line records one) and finds no
    entry of that name, it increments no stock field of the product, not
    even the top-level stock; the step raises no error, and the
    cancellation and the deletion of an order with such a line complete. *)
Theorem C10_unmatched_variant_is_skipped (item : OrderItem) (p : Product) (db : Db) :
  products db !! i_productId item = Some p →
  validateProduct p = true →
  unmatchedVariant item p →
  OrdersRepository.revertStock item p = p
  ∧ OrdersRepository.revertItem item db = (Ok tt, db)
  ∧ ∀ orderId o,
      ObjectId_isValid orderId = true →
      orders db !! orderId = Some o →
      item ∈ o_items o →
      validateOrder o = true →
      validOn (o_items o) (products db) →
      (∃ o' db', OrdersService.updateOrderStatus orderId "cancelled" db = (Ok o', db'))
      ∧ (∃ db', OrdersService.deleteOrder orderId db = (Ok o, db')).
Proof.
  intros Hp Hv Hun.
  assert (OrdersRepository.revertStock item p = p) as Hrev.
  { unfold OrdersRepository.revertStock.
    destruct Hun as [(Hne & Hsel & Hnone)|(Hsz & Hne & Hsel & Hnone)].
    - by rewrite Hne, Hsel, Hnone.
    - by rewrite Hsz, Hne, Hsel, Hnone. }
  split_and!; [done| |].
  - unfold OrdersRepository.revertItem. run.
    rewrite Hp, Hrev, saveProduct_run, Hv, insert_id by done.
    by rewrite setProducts_id.
  - intros orderId o Hid Ho _ Hvo Hvalid. split.
    + by apply (updateOrderStatus_total orderId "cancelled" db o).
    + destruct (deleteOrder_total orderId db o) as (db' & ? & _); [done..|].
      by exists db'.
Qed.

Lemma C10_witness :
  OrdersRepository.revertStock lineGone twoWayShoe = twoWayShoe
  ∧ OrdersRepository.revertItem lineGone dbGone = (Ok tt, dbGone)
  ∧ ∀ orderId o,
      ObjectId_isValid orderId = true →
      orders dbGone !! orderId = Some o →
      lineGone ∈ o_items o →
      validateOrder o = true →
      validOn (o_items o) (products dbGone) →
      (∃ o' db', OrdersService.updateOrderStatus orderId "cancelled" dbGone = (Ok o', db'))
      ∧ (∃ db', OrdersService.deleteOrder orderId dbGone = (Ok o, db')).
Proof.
  apply (C10_unmatched_variant_is_skipped lineGone twoWayShoe dbGone).
  - vm_compute. reflexivity.
  - vm_compute. reflexivity.
  - left. vm_compute. done.
Defined.

Example example_cancel_with_missing_size :
  ∃ o', OrdersService.updateOrderStatus idOrder "cancelled" dbGone
        = (Ok o', mkDb (products dbGone) {[ idOrder := o' ]} ∅)
        ∧ o_orderStatus o' = "cancelled".
Proof. eexists. split; [vm_compute; reflexivity|done]. Qed.

(** C10, as stated, fails for the color: the product has colors, none of
    them is the recorded "blue", and the reversal still increments a stock
    field, that of the recorded size "9". *)
Lemma C10_counterexample :
  nonEmpty (p_colors twoWayShoe) = true
  ∧ findIndex (fun c => strictEq (color c) (i_selectedColor lineBlue))
      (p_colors twoWayShoe) = None
  ∧ OrdersRepository.revertStock lineBlue twoWayShoe
    = mkProduct "Runner" 100 [] 0 [mkSize "9" 7] [mkColor "red" [] 3] false None
  ∧ OrdersRepository.revertStock lineBlue twoWayShoe ≠ twoWayShoe.
Proof. split_and!; [done..|]. vm_compute. discriminate. Qed.

(** And for the size: the product has sizes, the line records none, and
    the reversal increments the top-level stock. *)
Example example_revert_without_recorded_size :
  OrdersRepository.revertStock
    (mkOrderItem idProduct "Runner" 100 None 2 None None None) variantShoe
  = mkProduct "Runner" 100 [] 12 [mkSize "9" 5] [] false None.
Proof. reflexivity. Qed.

(** ** The two totals of an order *)

Lemma orderTotal_snoc (items : list OrderItem) (it : OrderItem) :
  orderTotal (items ++ [it])
  = orderTotal items + itemEffectivePrice it * i_quantity it.
Proof. unfold orderTotal. by rewrite fold_left_app. Qed.

Lemma effectivePrice_consistent (productId : string) (p : Product) (q : Z)
  (sz cl : option string) (item : OrderItem) (amount : Z) :
  saleFlagConsistent p = true →
  OrdersService.snapshotLine productId p q sz cl = Ok (item, amount) →
  amount = itemEffectivePrice (castItem item) * i_quantity (castItem item).
Proof.
  intros Hc (a & _ & _ & -> & ->)%snapshotLine_Ok.
  unfold OrdersService.effectivePrice, itemEffectivePrice, saleFlagConsistent in *.
  simpl. destruct (p_onSale p); [done|]. simpl in Hc.
  destruct (p_salePrice p) as [sp|]; [|done].
  apply Z.leb_le in Hc. by replace (sp <? p_price p) with false
    by (symmetry; apply Z.ltb_ge; lia).
Qed.

(** Where the two computations do agree: on carts whose products carry a
    sale price below the price only while on sale. *)
Lemma totals_agree_when_consistent (ps : gmap string Product)
  (cartItems : list CartItem) (items0 items : list OrderItem) (total0 total : Z) :
  (∀ ci p, ci ∈ cartItems → ps !! c_product ci = Some p → saleFlagConsistent p = true) →
  OrdersService.buildOrderItems ps cartItems items0 total0 = Ok (items, total) →
  total0 = orderTotal (castItem <$> items0) →
  total = orderTotal (castItem <$> items).
Proof.
  revert items0 total0. induction cartItems as [|ci rest IH];
    intros items0 total0 Hcons; simpl.
  { by intros [= <- <-]. }
  unfold OrdersService.checkCartItem.
  destruct (ps !! c_product ci) as [p|] eqn:Hp; [|done].
  destruct (OrdersService.snapshotLine _ _ _ _ _) as [[item amount]|] eqn:Hsnap; [|done].
  intros Hbuild Htotal0. eapply IH; [|exact Hbuild|].
  - intros ci' p' Hin. apply Hcons. by right.
  - rewrite fmap_app. change (castItem <$> [item]) with [castItem item].
    rewrite orderTotal_snoc, <- Htotal0. f_equal.
    eapply effectivePrice_consistent; [|exact Hsnap].
    eapply Hcons; [by left|done].
Qed.

(** C3 fails on the code: for a product with price 100 and sale price 80
    that is not on sale, the service computes a total of 100 for one unit
    and the pre-save hook stores 80. *)
Theorem C3_totals_disagree_off_sale :
  (∃ item, OrdersService.snapshotLine idProduct offSaleShoe 1 None None
           = Ok (item, 100))
  ∧ ∃ o db',
      OrdersService.createDirectOrder idOrder idUser idProduct 1 anAddress "paypal"
        None None dbOffSale = (Ok o, db')
      ∧ orders db' !! idOrder = Some o
      ∧ o_totalAmount o = 80.
Proof.
  split; [by eexists|]. eexists _, _. split_and!.
  - vm_compute. reflexivity.
  - vm_compute. reflexivity.
  - reflexivity.
Qed.

(** ** The cart *)

Lemma list_insert_alter {A} (l : list A) (i : nat) (x : A) (f : A -> A) :
  l !! i = Some x → <[i := f x]> l = alter f i l.
Proof.
  revert i. induction l as [|a l IH]; intros [|i]; simpl; try done.
  - by intros [= ->].
  - intros H. f_equal. by apply IH.
Qed.

(** [addItemToCart] of the repository on an existing cart and product: the
    two stock guards compare [undefined] with a number and never fire; the
    cart is saved with [addedItems]. *)
Lemma repo_addItemToCart_run (userId productId : string) (quantity price : Z)
  (salePrice : option Z) (sz cl : option string) (db : Db) (cart : Cart) (product : Product) :
  carts db !! userId = Some cart →
  products db !! castObjectId productId = Some product →
  CartsRepository.addItemToCart userId productId quantity price salePrice sz cl db
  = saveCart userId
      (mkCart (addedItems (cart_items cart) productId quantity price salePrice sz cl)
         (cart_totalPrice cart)) db.
Proof.
  intros Hcart Hp. unfold CartsRepository.addItemToCart,
    CartsRepository.getCartByUserId, addedItems. run.
  rewrite Hcart. simpl. rewrite Hp.
  destruct (findIndex _ (cart_items cart)) as [i|] eqn:Hi; [|done].
  destruct (findIndex_lookup _ _ _ Hi) as (it & Hit & _). rewrite Hit.
  by rewrite (list_insert_alter _ _ it
    (fun it => CartsRepository.setQuantity (c_quantity it + quantity) it)).
Qed.

(** The stock guards of the cart never fire, whatever the stock. *)
Lemma addItemToCart_no_stock_error (userId productId : string) (quantity price : Z)
  (salePrice : option Z) (sz cl : option string) (db : Db) :
  (∀ name available,
      fst (CartsRepository.addItemToCart userId productId quantity price salePrice sz cl db)
      ≠ Err (NotEnoughStock name available))
  ∧ (∀ name q,
      fst (CartsRepository.addItemToCart userId productId quantity price salePrice sz cl db)
      ≠ Err (ExceedsStock name q)).
Proof.
  unfold CartsRepository.addItemToCart, CartsRepository.getCartByUserId,
    CartsRepository.createCart. run.
  destruct (carts db !! userId) as [cart|]; simpl.
  - destruct (products db !! castObjectId productId) as [product|]; [|done].
    destruct (findIndex _ (cart_items cart)) as [i|].
    + destruct (cart_items cart !! i) as [it|]; [|done].
      rewrite saveCart_run. by destruct (validateCart userId _).
    + rewrite saveCart_run. by destruct (validateCart userId _).
  - rewrite saveCart_run. destruct (validateCart userId _); simpl; [|done].
    destruct (products db !! castObjectId productId) as [product|]; [|done].
    rewrite saveCart_run. by destruct (validateCart userId _).
Qed.

(** C7 fails on the code: the product has 5 in stock, 10 are added to the
    cart, and the operation succeeds with a line of 10. *)
Theorem C7_add_beyond_stock_succeeds :
  p_stock plainShoe = 5
  ∧ ∃ cart db',
      CartsService.addItemToCart idUser idPlain 10 None None dbPlain = (Ok cart, db')
      ∧ cart_items cart = [mkCartItem idPlain 10 50 None None None]
      ∧ carts db' !! idUser = Some cart.
Proof.
  split; [done|]. eexists _, _. split_and!.
  - vm_compute. reflexivity.
  - reflexivity.
  - vm_compute. reflexivity.
Qed.

Ltac saved :=
  rewrite saveCart_run;
  match goal with
  | |- context [validateCart ?u ?c] => destruct (validateCart u c)
  end;
  [intros [= <- <-]; simpl; split; [done|by rewrite lookup_insert_eq] | done].

(** After each cart mutation that succeeds, the stored total is the sum the
    pre-save hook computes over the lines that remain. *)
Lemma cart_total_after_mutation (userId productId : string) (quantity price : Z)
  (salePrice : option Z) (sz cl : option string) (db db' : Db) (cart : Cart) :
  CartsRepository.addItemToCart userId productId quantity price salePrice sz cl db
    = (Ok cart, db')
  ∨ CartsRepository.removeItemFromCart userId productId sz cl db = (Ok cart, db')
  ∨ CartsRepository.updateItemQuantity userId productId quantity sz cl db = (Ok cart, db')
  ∨ CartsRepository.clearCart userId db = (Ok cart, db') →
  cart_totalPrice cart = cartTotal (cart_items cart)
  ∧ carts db' !! userId = Some cart.
Proof.
  intros [H|[H|[H|H]]]; revert H.
  - unfold CartsRepository.addItemToCart, CartsRepository.getCartByUserId,
      CartsRepository.createCart. run.
    destruct (carts db !! userId) as [c|]; simpl.
    + destruct (products db !! castObjectId productId) as [product|]; [|done].
      destruct (findIndex _ (cart_items c)) as [i|]; [|saved].
      destruct (cart_items c !! i) as [it|]; [saved|done].
    + rewrite saveCart_run. destruct (validateCart userId _); simpl; [|done].
      destruct (products db !! castObjectId productId) as [product|]; [|done]. saved.
  - unfold CartsRepository.removeItemFromCart, CartsRepository.getCartByUserId. run.
    destruct (carts db !! userId) as [c|]; [|done].
    destruct (_ =? _)%nat; [done|]. saved.
  - unfold CartsRepository.updateItemQuantity, CartsRepository.getCartByUserId. run.
    destruct (carts db !! userId) as [c|]; [|done].
    destruct (findIndex _ (cart_items c)) as [i|]; [|done].
    destruct (quantity <=? 0); [saved|]. run.
    destruct (products db !! castObjectId productId) as [product|]; [saved|done].
  - unfold CartsRepository.clearCart, CartsRepository.getCartByUserId. run.
    destruct (carts db !! userId) as [c|]; [saved|done].
Qed.

(** The cart example of the specification: price 100, sale price 80, on
    sale, quantity 2: the total is 160. *)
Example example_cart_total_on_sale :
  ∃ cart db',
    CartsService.addItemToCart idUser idProduct 2 None None dbOnSale = (Ok cart, db')
    ∧ cart_totalPrice cart = 160.
Proof. eexists _, _. split; [vm_compute; reflexivity|done]. Qed.

(** C8 fails on the code: the product with price 100 and sale price 80 is
    not on sale, so its effective price is 100 and two units amount to 200;
    the total the cart stores is 160. *)
Theorem C8_cart_total_off_sale :
  OrdersService.effectivePrice offSaleShoe * 2 = 200
  ∧ ∃ cart db',
      CartsService.addItemToCart idUser idProduct 2 None None dbOffSale = (Ok cart, db')
      ∧ carts db' !! idUser = Some cart
      ∧ cart_items cart = [mkCartItem idProduct 2 100 (Some 80) None None]
      ∧ cart_totalPrice cart = 160.
Proof.
  split; [done|]. eexists _, _. split_and!.
  - vm_compute. reflexivity.
  - vm_compute. reflexivity.
  - reflexivity.
  - reflexivity.
Qed.

(** ** Identity of a cart line *)

Lemma selEq_eq (a b : option string) : CartsRepository.selEq a b = true ↔ a = b.
Proof.
  destruct a as [x|], b as [y|]; simpl; try (split; done).
  rewrite String.eqb_eq. split; [by intros ->|by intros [= ->]].
Qed.

Lemma sameLine_spec (productId : string) (sz cl : option string) (it : CartItem) :
  CartsRepository.sameLine productId sz cl it = true
  ↔ c_product it = productId ∧ c_selectedSize it = sz ∧ c_selectedColor it = cl.
Proof.
  unfold CartsRepository.sameLine.
  rewrite !andb_true_iff, String.eqb_eq, !selEq_eq. tauto.
Qed.

Lemma removeMatches_spec (productId : string) (sz cl : option string) (it : CartItem) :
  CartsRepository.removeMatches productId sz cl it = true
  ↔ c_product it = productId
    ∧ (sz = None ∨ c_selectedSize it = sz)
    ∧ (cl = None ∨ c_selectedColor it = cl).
Proof.
  unfold CartsRepository.removeMatches.
  rewrite !andb_true_iff, String.eqb_eq.
  destruct sz as [a|], cl as [b|]; rewrite ?selEq_eq; intuition congruence.
Qed.

Lemma forallb_filter {A} (f g : A -> bool) (l : list A) :
  forallb f l = true → forallb f (List.filter g l) = true.
Proof.
  induction l as [|a l IH]; simpl; [done|].
  intros [? ?]%andb_prop. destruct (g a); simpl; [|auto].
  apply andb_true_intro. auto.
Qed.

Lemma forallb_take_drop {A} (f : A -> bool) (l : list A) (i : nat) :
  forallb f l = true → forallb f (take i l ++ drop (S i) l) = true.
Proof.
  revert i. induction l as [|a l IH]; intros [|i]; simpl; try done.
  - by intros [? ?]%andb_prop.
  - intros [? ?]%andb_prop. apply andb_true_intro. split; [done|]. by apply IH.
Qed.

Lemma addedItems_valid (items : list CartItem) (productId : string) (quantity price : Z)
  (salePrice : option Z) (sz cl : option string) :
  forallb validateCartItem items = true →
  ObjectId_isValid productId = true → 1 <= quantity →
  forallb validateCartItem (addedItems items productId quantity price salePrice sz cl) = true.
Proof.
  intros Hv Hid Hq. unfold addedItems.
  destruct (findIndex _ items) as [i|].
  - apply forallb_alter; [|done]. intros it. unfold validateCartItem. simpl.
    rewrite !andb_true_iff, !Z.leb_le. intros [? ?]. split; [done|lia].
  - rewrite forallb_app, Hv. simpl. unfold validateCartItem. simpl.
    rewrite castObjectId_valid, Hid. simpl. rewrite andb_true_r. apply Z.leb_le. lia.
Qed.

Lemma filter_length_Exists {A} (f : A -> bool) (l : list A) :
  Exists (fun x => f x = false) l →
  (List.length (List.filter f l) =? List.length l)%nat = false.
Proof.
  intros Hex. apply Nat.eqb_neq.
  assert (∀ k : list A, (List.length (List.filter f k) <= List.length k)%nat) as Hle.
  { induction k as [|a k IH]; simpl; [done|]. destruct (f a); simpl; lia. }
  induction Hex as [a l Ha|a l Hex IH]; simpl.
  - rewrite Ha. specialize (Hle l). lia.
  - destruct (f a); simpl; [lia|]. specialize (Hle l). lia.
Qed.

Lemma validateCart_items (userId : string) (items : list CartItem) (t t' : Z)
  (items' : list CartItem) :
  validateCart userId (mkCart items t) = true →
  (forallb validateCartItem items = true → forallb validateCartItem items' = true) →
  validateCart userId (mkCart items' t') = true.
Proof.
  unfold validateCart. simpl. rewrite !andb_true_iff. intros [? ?] Himp. auto.
Qed.

(** C6, as amended. Add and update-quantity identify a line by exact
    equality of the triple (product, selectedSize, selectedColor), an absent
    selector being a value like any other, and the product id being given
    in the spelling in which ids are stored (the lower-case string of the
    ObjectId): adding a key that is present increases the quantity of its
    line and leaves the number of lines and every other line as they were,
    adding a key that is absent appends one line, and update-quantity acts
    on the first line of that key. Remove takes an absent selector argument
    as a wildcard for that component: it removes every line of the product
    whose size and color agree with the selectors that are given. *)
Theorem C6_cart_line_identity :
  (∀ productId sz cl it,
      CartsRepository.sameLine productId sz cl it = true
      ↔ c_product it = productId ∧ c_selectedSize it = sz ∧ c_selectedColor it = cl)
  ∧ (∀ userId productId quantity price salePrice sz cl db cart product,
      castObjectId productId = productId →
      carts db !! userId = Some cart →
      products db !! productId = Some product →
      validateCart userId cart = true →
      ObjectId_isValid productId = true →
      1 <= quantity →
      ∃ cart' db',
        CartsRepository.addItemToCart userId productId quantity price salePrice sz cl db
          = (Ok cart', db')
        ∧ carts db' !! userId = Some cart'
        ∧ match findIndex (CartsRepository.sameLine productId sz cl) (cart_items cart) with
          | Some i =>
              List.length (cart_items cart') = List.length (cart_items cart)
              ∧ (∃ it, cart_items cart !! i = Some it
                       ∧ cart_items cart' !! i
                         = Some (CartsRepository.setQuantity (c_quantity it + quantity) it))
              ∧ ∀ j, j ≠ i → cart_items cart' !! j = cart_items cart !! j
          | None =>
              cart_items cart'
              = (cart_items cart
                   ++ [mkCartItem productId quantity price salePrice sz cl])%list
          end)
  ∧ (∀ userId productId newQuantity sz cl db cart product i,
      carts db !! userId = Some cart →
      products db !! castObjectId productId = Some product →
      validateCart userId cart = true →
      findIndex (CartsRepository.sameLine productId sz cl) (cart_items cart) = Some i →
      ∃ cart' db',
        CartsRepository.updateItemQuantity userId productId newQuantity sz cl db
          = (Ok cart', db')
        ∧ cart_items cart' =
            if newQuantity <=? 0
            then (take i (cart_items cart) ++ drop (S i) (cart_items cart))%list
            else alter (CartsRepository.setQuantity newQuantity) i (cart_items cart))
  ∧ (∀ userId productId sz cl db cart,
      carts db !! userId = Some cart →
      validateCart userId cart = true →
      Exists (fun it => CartsRepository.removeMatches productId sz cl it = true)
        (cart_items cart) →
      ∃ cart' db',
        CartsRepository.removeItemFromCart userId productId sz cl db = (Ok cart', db')
        ∧ cart_items cart' =
            List.filter (fun it => negb (CartsRepository.removeMatches productId sz cl it))
              (cart_items cart))
  ∧ (∀ productId sz cl it,
      CartsRepository.removeMatches productId sz cl it = true
      ↔ c_product it = productId
        ∧ (sz = None ∨ c_selectedSize it = sz)
        ∧ (cl = None ∨ c_selectedColor it = cl)).
Proof.
  split_and!.
  - apply sameLine_spec.
  - intros userId productId quantity price salePrice sz cl db [items total] product
      Hcanon Hcart Hp Hv Hid Hq.
    rewrite <- Hcanon in Hp.
    rewrite (repo_addItemToCart_run _ _ _ _ _ _ _ _ _ _ Hcart Hp), saveCart_run.
    simpl in *.
    rewrite (validateCart_items _ _ _ total _ Hv)
      by (intros; by apply addedItems_valid).
    eexists _, _. split; [reflexivity|]. simpl. rewrite lookup_insert_eq.
    split; [done|]. unfold addedItems.
    destruct (findIndex _ items) as [i|] eqn:Hi; [|by rewrite Hcanon].
    destruct (findIndex_lookup _ _ _ Hi) as (it & Hit & _).
    split_and!.
    + by rewrite length_alter.
    + exists it. by rewrite list_lookup_alter_eq, Hit.
    + intros j Hj. by rewrite list_lookup_alter_ne.
  - intros userId productId newQuantity sz cl db [items total] product i
      Hcart Hp Hv Hi.
    unfold CartsRepository.updateItemQuantity, CartsRepository.getCartByUserId. run.
    rewrite Hcart. simpl. rewrite Hi. destruct (newQuantity <=? 0) eqn:Hq.
    + rewrite saveCart_run, (validateCart_items _ _ _ total _ Hv)
        by apply forallb_take_drop.
      by eexists _, _.
    + run. rewrite Hp, saveCart_run, (validateCart_items _ _ _ total _ Hv).
      { by eexists _, _. }
      apply forallb_alter. intros it. unfold validateCartItem. simpl.
      rewrite !andb_true_iff, !Z.leb_le. apply Z.leb_gt in Hq. intros [? ?].
      split; [done|lia].
  - intros userId productId sz cl db [items total] Hcart Hv Hex.
    unfold CartsRepository.removeItemFromCart, CartsRepository.getCartByUserId. run.
    rewrite Hcart. simpl. rewrite filter_length_Exists.
    + rewrite saveCart_run, (validateCart_items _ _ _ total _ Hv)
        by apply forallb_filter.
      by eexists _, _.
    + eapply Exists_impl; [exact Hex|]. simpl. by intros it ->.
  - apply removeMatches_spec.
Qed.

Lemma C6_witness :
  (∃ cart' db',
      CartsRepository.addItemToCart idUser idProduct 3 100 None (Some "9") None dbTwoSizes
        = (Ok cart', db')
      ∧ carts db' !! idUser = Some cart'
      ∧ match findIndex (CartsRepository.sameLine idProduct (Some "9") None)
                (cart_items cartTwoSizes) with
        | Some i =>
            List.length (cart_items cart') = List.length (cart_items cartTwoSizes)
            ∧ (∃ it, cart_items cartTwoSizes !! i = Some it
                     ∧ cart_items cart' !! i
                       = Some (CartsRepository.setQuantity (c_quantity it + 3) it))
            ∧ ∀ j, j ≠ i → cart_items cart' !! j = cart_items cartTwoSizes !! j
        | None =>
            cart_items cart'
            = (cart_items cartTwoSizes
                 ++ [mkCartItem idProduct 3 100 None (Some "9") None])%list
        end)
  ∧ (∃ cart' db',
      CartsRepository.updateItemQuantity idUser idProduct 5 (Some "10") None dbTwoSizes
        = (Ok cart', db')
      ∧ cart_items cart' =
          if 5 <=? 0
          then (take 1%nat (cart_items cartTwoSizes)
                  ++ drop 2%nat (cart_items cartTwoSizes))%list
          else alter (CartsRepository.setQuantity 5) 1%nat (cart_items cartTwoSizes))
  ∧ (∃ cart' db',
      CartsRepository.removeItemFromCart idUser idProduct (Some "10") None dbTwoSizes
        = (Ok cart', db')
      ∧ cart_items cart' =
          List.filter
            (fun it => negb (CartsRepository.removeMatches idProduct (Some "10") None it))
            (cart_items cartTwoSizes)).
Proof.
  split; [|split].
  - apply (proj1 (proj2 C6_cart_line_identity) idUser idProduct 3 100 None (Some "9")
             None dbTwoSizes cartTwoSizes shoe).
    + vm_compute. reflexivity.
    + vm_compute. reflexivity.
    + vm_compute. reflexivity.
    + vm_compute. reflexivity.
    + vm_compute. reflexivity.
    + lia.
  - apply (proj1 (proj2 (proj2 C6_cart_line_identity)) idUser idProduct 5 (Some "10")
             None dbTwoSizes cartTwoSizes shoe 1%nat).
    + vm_compute. reflexivity.
    + vm_compute. reflexivity.
    + vm_compute. reflexivity.
    + vm_compute. reflexivity.
  - apply (proj1 (proj2 (proj2 (proj2 C6_cart_line_identity))) idUser idProduct
             (Some "10") None dbTwoSizes cartTwoSizes).
    + vm_compute. reflexivity.
    + vm_compute. reflexivity.
    + right. left. vm_compute. reflexivity.
Defined.

Example example_add_same_key_twice :
  ∃ cart' db',
    CartsRepository.addItemToCart idUser idProduct 3 100 None (Some "9") None dbTwoSizes
      = (Ok cart', db')
    ∧ cart_items cart' = [mkCartItem idProduct 4 100 None (Some "9") None;
                          mkCartItem idProduct 2 100 None (Some "10") None].
Proof. eexists _, _. split; [vm_compute; reflexivity|done]. Qed.

(** Left out of the amended claim: the same product and size added under
    the upper-case spelling of the product id. The product is found by the
    cast id, no line matches the string as given, and a second line of the
    same product and size is stored. *)
Example example_add_under_upper_case_id :
  castObjectId idProductUpper = idProduct
  ∧ ∃ cart' db',
      CartsService.addItemToCart idUser idProductUpper 3 (Some "9") None dbTwoSizes
        = (Ok cart', db')
      ∧ cart_items cart' = [mkCartItem idProduct 1 100 None (Some "9") None;
                            mkCartItem idProduct 2 100 None (Some "10") None;
                            mkCartItem idProduct 3 100 None (Some "9") None].
Proof. split; [vm_compute; reflexivity|]. eexists _, _. split; [vm_compute; reflexivity|done]. Qed.

(** C6, as stated, fails for remove: the key (product, no size, no color)
    is the triple of no line of the cart, and removing it removes both
    lines, of sizes "9" and "10". *)
Lemma C6_counterexample :
  Forall (fun it => CartsRepository.sameLine idProduct None None it = false)
    (cart_items cartTwoSizes)
  ∧ List.length (cart_items cartTwoSizes) = 2%nat
  ∧ ∃ cart' db',
      CartsRepository.removeItemFromCart idUser idProduct None None dbTwoSizes
        = (Ok cart', db')
      ∧ cart_items cart' = [].
Proof.
  split_and!.
  - repeat constructor.
  - done.
  - eexists _, _. split; [vm_compute; reflexivity|done].
Qed.

(** ** Login lockout *)

Section LoginProperties.

Variable bcrypt_compare : string -> string -> bool.

Ltac login :=
  unfold UsersService.loginUser, UsersRepository.getUserByEmail,
    UsersRepository.resetFailedLoginAttempts,
    UsersRepository.incrementFailedLoginAttempts,
    UsersRepository.permanentlyLockUser, UsersRepository.findByIdAndUpdate,
    UsersService.notNull;
  unfold bind, ret, throw, get, put, lift.

Lemma login_unknown (now : Z) (email password : string) (users : gmap string User) :
  users !! email = None →
  UsersService.loginUser bcrypt_compare now email password users
  = (Err InvalidCredentials, users).
Proof. intros Hu. login. by rewrite Hu. Qed.

Lemma login_permanently_locked (now : Z) (email password : string)
  (users : gmap string User) (u : User) :
  users !! email = Some u → u_isPermanentlyLocked u = true →
  UsersService.loginUser bcrypt_compare now email password users
  = (Err LockedPermanently, users).
Proof. intros Hu Hperm. login. by rewrite Hu, Hperm. Qed.

Lemma login_temporarily_locked (now : Z) (email password : string)
  (users : gmap string User) (u : User) (lockUntil : Z) :
  users !! email = Some u → u_isPermanentlyLocked u = false →
  u_lockUntil u = Some lockUntil → now < lockUntil →
  UsersService.loginUser bcrypt_compare now email password users
  = (Err (LockedTemporarily (UsersService.ceilDiv (lockUntil - now) (1000 * 60))), users).
Proof.
  intros Hu Hperm Hlock Hlt. login. rewrite Hu, Hperm, Hlock.
  by apply Z.ltb_lt in Hlt as ->.
Qed.

(** Past the lock checks: no temporary lock is running. *)
Ltac pass_lock now H Hl :=
  unfold lockInactive in H;
  let l := fresh "l" in
  destruct (u_lockUntil _) as [l|] eqn:Hl;
    [replace (now <? l) with false by (symmetry; apply Z.ltb_ge; lia)|].

Lemma login_wrong_below (now : Z) (email password : string)
  (users : gmap string User) (u : User) :
  users !! email = Some u → u_isPermanentlyLocked u = false →
  lockInactive u now → stale u now = false →
  bcrypt_compare password (u_password u) = false →
  u_failedLoginAttempts u + 1 < UsersService.MAX_LOGIN_ATTEMPTS →
  UsersService.loginUser bcrypt_compare now email password users
  = (Err InvalidCredentials,
     <[email := mkUser (u_password u) (u_isAdmin u) (u_failedLoginAttempts u + 1)
                  (u_lockUntil u) false (Some now)]> users).
Proof.
  intros Hu Hperm Hlock Hstale Hpw Hk. login. rewrite Hu, Hperm.
  unfold stale in Hstale. pass_lock now Hlock Hl.
  all: rewrite Hstale, Hpw; simpl; rewrite Hu; simpl.
  all: replace (UsersService.MAX_LOGIN_ATTEMPTS <? u_failedLoginAttempts u + 1)
         with false by (symmetry; apply Z.ltb_ge; lia).
  all: replace (u_failedLoginAttempts u + 1 =? UsersService.MAX_LOGIN_ATTEMPTS)
         with false by (symmetry; apply Z.eqb_neq; lia).
  all: by rewrite Hperm, Hl.
Qed.

Lemma login_wrong_at_threshold (now : Z) (email password : string)
  (users : gmap string User) (u : User) :
  users !! email = Some u → u_isPermanentlyLocked u = false →
  lockInactive u now → stale u now = false →
  bcrypt_compare password (u_password u) = false →
  u_failedLoginAttempts u + 1 = UsersService.MAX_LOGIN_ATTEMPTS →
  UsersService.loginUser bcrypt_compare now email password users
  = (Err (TooManyFailuresTemporary 1),
     <[email := mkUser (u_password u) (u_isAdmin u) (u_failedLoginAttempts u + 2)
                  (Some (now + UsersService.TEMPORARY_LOCK_TIME)) false (Some now)]> users).
Proof.
  intros Hu Hperm Hlock Hstale Hpw Hk. login. rewrite Hu, Hperm.
  unfold stale in Hstale. pass_lock now Hlock Hl.
  all: rewrite Hstale, Hpw; simpl; rewrite Hu; simpl.
  all: rewrite Hk; simpl; rewrite lookup_insert_eq, insert_insert_eq; simpl.
  all: rewrite Hperm.
  all: replace (u_failedLoginAttempts u + 2)
         with (UsersService.MAX_LOGIN_ATTEMPTS + 1) by lia.
  all: reflexivity.
Qed.

Lemma login_wrong_beyond (now : Z) (email password : string)
  (users : gmap string User) (u : User) :
  users !! email = Some u → u_isPermanentlyLocked u = false →
  lockInactive u now → stale u now = false →
  bcrypt_compare password (u_password u) = false →
  UsersService.MAX_LOGIN_ATTEMPTS < u_failedLoginAttempts u + 1 →
  UsersService.loginUser bcrypt_compare now email password users
  = (Err TooManyFailuresPermanent,
     <[email := mkUser (u_password u) (u_isAdmin u) 0 None true None]> users).
Proof.
  intros Hu Hperm Hlock Hstale Hpw Hk. login. rewrite Hu, Hperm.
  unfold stale in Hstale. pass_lock now Hlock Hl.
  all: rewrite Hstale, Hpw; simpl; rewrite Hu; simpl.
  all: replace (UsersService.MAX_LOGIN_ATTEMPTS <? u_failedLoginAttempts u + 1)
         with true by (symmetry; apply Z.ltb_lt; lia).
  all: by rewrite lookup_insert_eq, insert_insert_eq.
Qed.

(** The stale counter is reset before the password is compared: a wrong
    password then counts as the first failure. *)
Lemma login_wrong_stale (now : Z) (email password : string)
  (users : gmap string User) (u : User) :
  users !! email = Some u → u_isPermanentlyLocked u = false →
  lockInactive u now → stale u now = true →
  bcrypt_compare password (u_password u) = false →
  UsersService.loginUser bcrypt_compare now email password users
  = (Err InvalidCredentials,
     <[email := mkUser (u_password u) (u_isAdmin u) 1 None false (Some now)]> users).
Proof.
  intros Hu Hperm Hlock Hstale Hpw. login. rewrite Hu, Hperm.
  unfold stale in Hstale. pass_lock now Hlock Hl.
  all: rewrite Hstale, Hu; simpl; rewrite Hpw; simpl.
  all: by rewrite lookup_insert_eq, insert_insert_eq.
Qed.

Lemma login_correct (now : Z) (email password : string)
  (users : gmap string User) (u : User) :
  users !! email = Some u → u_isPermanentlyLocked u = false →
  lockInactive u now → 0 <= u_failedLoginAttempts u →
  bcrypt_compare password (u_password u) = true →
  ∃ u' users',
    UsersService.loginUser bcrypt_compare now email password users = (Ok u', users')
    ∧ users' !! email = Some u'
    ∧ u_failedLoginAttempts u' = 0
    ∧ u_lockUntil u' = None
    ∧ u_isPermanentlyLocked u' = false.
Proof.
  intros Hu Hperm Hlock Hpos Hpw. login. rewrite Hu, Hperm.
  pass_lock now Hlock Hl.
  all: destruct (_ && _);
    [rewrite Hu; simpl; rewrite Hpw; simpl;
     eexists _, _; split; [reflexivity|]; by rewrite lookup_insert_eq|].
  all: rewrite Hpw; simpl; rewrite Hperm, orb_false_r.
  - rewrite bool_decide_true by eauto. rewrite orb_true_r, Hu.
    eexists _, _. split; [reflexivity|]. by rewrite lookup_insert_eq.
  - rewrite bool_decide_false by (rewrite Hl; by intros [? ?]). rewrite orb_false_r.
    destruct (0 <? u_failedLoginAttempts u) eqn:Hf.
    + rewrite Hu. eexists _, _. split; [reflexivity|]. by rewrite lookup_insert_eq.
    + apply Z.ltb_ge in Hf. eexists _, _. split; [reflexivity|].
      split_and!; try done. lia.
Qed.

Lemma inWindow_app (prev : Z) (times : list Z) (t : Z) :
  inWindow prev (times ++ [t])
  ↔ inWindow prev times
    ∧ t - lastOf prev times <= UsersService.FAILED_ATTEMPT_RESET_PERIOD.
Proof.
  revert prev. induction times as [|a times IH]; intros prev; simpl.
  - tauto.
  - rewrite IH. tauto.
Qed.

Lemma inWindow_not_stale (u : User) (prev t : Z) :
  u_lastFailedAttemptAt u = Some prev →
  t - prev <= UsersService.FAILED_ATTEMPT_RESET_PERIOD →
  stale u t = false.
Proof.
  intros Hlast Hle. unfold stale. rewrite Hlast.
  replace (UsersService.FAILED_ATTEMPT_RESET_PERIOD <? t - prev) with false
    by (symmetry; apply Z.ltb_ge; lia).
  apply andb_false_r.
Qed.

Ltac arith :=
  unfold UsersService.MAX_LOGIN_ATTEMPTS in *; simpl List.length in *; lia.

Ltac same := repeat (first [reflexivity | arith | progress f_equal]).

(** Failures below the threshold only count. *)
Lemma attempts_below (email password : string) (times : list Z) :
  ∀ (t : Z) (users : gmap string User) (u : User),
    users !! email = Some u →
    u_isPermanentlyLocked u = false → u_lockUntil u = None →
    stale u t = false → 0 <= u_failedLoginAttempts u →
    bcrypt_compare password (u_password u) = false →
    inWindow t times →
    u_failedLoginAttempts u + 1 + Z.of_nat (List.length times)
      < UsersService.MAX_LOGIN_ATTEMPTS →
    attempts bcrypt_compare (t :: times) email password users
    = <[email := mkUser (u_password u) (u_isAdmin u)
                   (u_failedLoginAttempts u + 1 + Z.of_nat (List.length times))
                   None false (Some (lastOf t times))]> users.
Proof.
  induction times as [|t' r IH]; intros t users u Hu Hperm Hlock Hstale Hpos Hpw Hwin Hk.
  - unfold attempts. cbn [fold_left].
    rewrite (login_wrong_below t email password users u); try done;
      [|by unfold lockInactive; rewrite Hlock|arith].
    simpl. rewrite Hlock. same.
  - change (attempts bcrypt_compare (t :: t' :: r) email password users)
      with (attempts bcrypt_compare (t' :: r) email password
              (snd (UsersService.loginUser bcrypt_compare t email password users))).
    rewrite (login_wrong_below t email password users u); try done;
      [|by unfold lockInactive; rewrite Hlock|arith].
    simpl snd. destruct Hwin as [Hgap Hwin].
    rewrite (IH t' _ (mkUser (u_password u) (u_isAdmin u) (u_failedLoginAttempts u + 1)
                        (u_lockUntil u) false (Some t))); simpl; try done.
    + rewrite insert_insert_eq. same.
    + by rewrite lookup_insert_eq.
    + by apply (inWindow_not_stale _ t).
    + lia.
    + arith.
Qed.

(** C9. Starting from an account with no failure on record and a password
    that does not match:
    (1) after N - 1 failed attempts, each within the reset period of the one
        before, the N-th one fails with the temporary-lock error and leaves
        the account locked until the time of that attempt plus
        [TEMPORARY_LOCK_TIME]; while that lock runs every attempt, with any
        password, is turned away and changes nothing; the next failed
        password attempt, once the lock has run out and within the reset
        period, locks the account permanently;
    (2) a correct password after fewer than N failures succeeds and leaves
        the counter at 0 and no temporary lock;
    (3) so does a correct password on any account that is not permanently
        locked and on which no temporary lock is running;
    (4) the checks come in this order: a permanent lock is reported
        whatever the rest of the record and the password; then a running
        temporary lock, whatever the password; then a stale counter is
        reset, so that a wrong password counts as the first failure. *)
Theorem C9_login_lockout :
  (∀ email password users u t1 mid tN,
      users !! email = Some u →
      u_failedLoginAttempts u = 0 → u_lockUntil u = None →
      u_isPermanentlyLocked u = false →
      bcrypt_compare password (u_password u) = false →
      Z.of_nat (List.length mid) + 2 = UsersService.MAX_LOGIN_ATTEMPTS →
      inWindow t1 (mid ++ [tN]) →
      let locked :=
        mkUser (u_password u) (u_isAdmin u) (UsersService.MAX_LOGIN_ATTEMPTS + 1)
          (Some (tN + UsersService.TEMPORARY_LOCK_TIME)) false (Some tN) in
      UsersService.loginUser bcrypt_compare tN email password
        (attempts bcrypt_compare (t1 :: mid) email password users)
      = (Err (TooManyFailuresTemporary 1), <[email := locked]> users)
      ∧ (∀ t password',
          t < tN + UsersService.TEMPORARY_LOCK_TIME →
          UsersService.loginUser bcrypt_compare t email password'
            (<[email := locked]> users)
          = (Err (LockedTemporarily
                    (UsersService.ceilDiv
                       (tN + UsersService.TEMPORARY_LOCK_TIME - t) (1000 * 60))),
             <[email := locked]> users))
      ∧ (∀ t,
          tN + UsersService.TEMPORARY_LOCK_TIME <= t →
          t - tN <= UsersService.FAILED_ATTEMPT_RESET_PERIOD →
          UsersService.loginUser bcrypt_compare t email password
            (<[email := locked]> users)
          = (Err TooManyFailuresPermanent,
             <[email := mkUser (u_password u) (u_isAdmin u) 0 None true None]> users)))
  ∧ (∀ email password good users u t1 mid t,
      users !! email = Some u →
      u_failedLoginAttempts u = 0 → u_lockUntil u = None →
      u_isPermanentlyLocked u = false →
      bcrypt_compare password (u_password u) = false →
      bcrypt_compare good (u_password u) = true →
      Z.of_nat (List.length mid) + 1 < UsersService.MAX_LOGIN_ATTEMPTS →
      inWindow t1 mid →
      ∃ u' users',
        UsersService.loginUser bcrypt_compare t email good
          (attempts bcrypt_compare (t1 :: mid) email password users)
        = (Ok u', users')
        ∧ users' !! email = Some u'
        ∧ u_failedLoginAttempts u' = 0 ∧ u_lockUntil u' = None
        ∧ u_isPermanentlyLocked u' = false)
  ∧ (∀ email good users u t,
      users !! email = Some u →
      u_isPermanentlyLocked u = false → lockInactive u t →
      0 <= u_failedLoginAttempts u →
      bcrypt_compare good (u_password u) = true →
      ∃ u' users',
        UsersService.loginUser bcrypt_compare t email good users = (Ok u', users')
        ∧ users' !! email = Some u'
        ∧ u_failedLoginAttempts u' = 0 ∧ u_lockUntil u' = None
        ∧ u_isPermanentlyLocked u' = false)
  ∧ (∀ email password users u t,
      users !! email = Some u →
      (u_isPermanentlyLocked u = true →
       UsersService.loginUser bcrypt_compare t email password users
       = (Err LockedPermanently, users))
      ∧ (∀ lockUntil,
          u_isPermanentlyLocked u = false →
          u_lockUntil u = Some lockUntil → t < lockUntil →
          UsersService.loginUser bcrypt_compare t email password users
          = (Err (LockedTemporarily (UsersService.ceilDiv (lockUntil - t) (1000 * 60))),
             users))
      ∧ (u_isPermanentlyLocked u = false → lockInactive u t → stale u t = true →
         bcrypt_compare password (u_password u) = false →
         UsersService.loginUser bcrypt_compare t email password users
         = (Err InvalidCredentials,
            <[email := mkUser (u_password u) (u_isAdmin u) 1 None false (Some t)]> users))).
Proof.
  split_and!.
  - intros email password users u t1 mid tN Hu Hzero Hlock Hperm Hpw Hlen
      [Hwin Hgap]%inWindow_app locked.
    assert (stale u t1 = false) as Hfresh by (unfold stale; by rewrite Hzero).
    rewrite (attempts_below email password mid t1 users u); try done; [|lia..].
    split_and!.
    + rewrite (login_wrong_at_threshold _ _ _ _
        (mkUser (u_password u) (u_isAdmin u)
           (u_failedLoginAttempts u + 1 + Z.of_nat (List.length mid))
           None false (Some (lastOf t1 mid)))).
      all: first [ done
                 | by rewrite lookup_insert_eq
                 | by apply (inWindow_not_stale _ (lastOf t1 mid))
                 | simpl; arith
                 | simpl; rewrite insert_insert_eq; unfold locked; same ].
    + intros t password' Hlt.
      by apply (login_temporarily_locked _ _ _ _ locked); [rewrite lookup_insert_eq|..].
    + intros t Hexp Hin.
      rewrite (login_wrong_beyond _ _ _ _ locked).
      all: first [ done
                 | by rewrite lookup_insert_eq
                 | by apply (inWindow_not_stale _ tN)
                 | simpl; arith
                 | simpl; by rewrite insert_insert_eq ].
  - intros email password good users u t1 mid t Hu Hzero Hlock Hperm Hpw Hgood Hlen Hwin.
    assert (stale u t1 = false) as Hfresh by (unfold stale; by rewrite Hzero).
    rewrite (attempts_below email password mid t1 users u); try done; [|lia..].
    apply (login_correct _ _ _ _
      (mkUser (u_password u) (u_isAdmin u)
         (u_failedLoginAttempts u + 1 + Z.of_nat (List.length mid))
         None false (Some (lastOf t1 mid)))).
    all: first [ done | by rewrite lookup_insert_eq | simpl; lia ].
  - intros email good users u t. apply login_correct.
  - intros email password users u t Hu. split_and!.
    + by apply login_permanently_locked.
    + intros lockUntil. by apply login_temporarily_locked.
    + by apply login_wrong_stale.
Qed.

End LoginProperties.

Lemma C9_witness :
  (let locked := mkUser "secret" false 6 (Some 65000) false (Some 5000) in
   UsersService.loginUser plainCompare 5000 aliceMail "guess"
     (attempts plainCompare [1000; 2000; 3000; 4000] aliceMail "guess" users0)
   = (Err (TooManyFailuresTemporary 1), <[aliceMail := locked]> users0)
   ∧ (∀ t password',
       t < 5000 + UsersService.TEMPORARY_LOCK_TIME →
       UsersService.loginUser plainCompare t aliceMail password'
         (<[aliceMail := locked]> users0)
       = (Err (LockedTemporarily
                 (UsersService.ceilDiv
                    (5000 + UsersService.TEMPORARY_LOCK_TIME - t) (1000 * 60))),
          <[aliceMail := locked]> users0))
   ∧ (∀ t,
       5000 + UsersService.TEMPORARY_LOCK_TIME <= t →
       t - 5000 <= UsersService.FAILED_ATTEMPT_RESET_PERIOD →
       UsersService.loginUser plainCompare t aliceMail "guess"
         (<[aliceMail := locked]> users0)
       = (Err TooManyFailuresPermanent,
          <[aliceMail := mkUser "secret" false 0 None true None]> users0)))
  ∧ (∃ u' users',
      UsersService.loginUser plainCompare 4500 aliceMail "secret"
        (attempts plainCompare [1000; 2000; 3000; 4000] aliceMail "guess" users0)
      = (Ok u', users')
      ∧ users' !! aliceMail = Some u'
      ∧ u_failedLoginAttempts u' = 0 ∧ u_lockUntil u' = None
      ∧ u_isPermanentlyLocked u' = false).
Proof.
  split.
  - apply (proj1 (C9_login_lockout plainCompare) aliceMail "guess" users0 alice
             1000 [2000; 3000; 4000] 5000).
    + vm_compute. reflexivity.
    + reflexivity.
    + reflexivity.
    + reflexivity.
    + vm_compute. reflexivity.
    + vm_compute. reflexivity.
    + vm_compute. intuition discriminate.
  - apply (proj1 (proj2 (C9_login_lockout plainCompare)) aliceMail "guess" "secret"
             users0 alice 1000 [2000; 3000; 4000] 4500).
    + vm_compute. reflexivity.
    + reflexivity.
    + reflexivity.
    + reflexivity.
    + vm_compute. reflexivity.
    + vm_compute. reflexivity.
    + vm_compute. reflexivity.
    + vm_compute. intuition discriminate.
Defined.

Example example_sixth_failure_locks_for_good :
  fst (UsersService.loginUser plainCompare 70000 aliceMail "guess"
         (attempts plainCompare [1000; 2000; 3000; 4000; 5000] aliceMail "guess" users0))
  = Err TooManyFailuresPermanent.
Proof. vm_compute. reflexivity. Qed.

Example example_correct_password_clears_counter :
  UsersService.loginUser plainCompare 4500 aliceMail "secret"
    (attempts plainCompare [1000; 2000; 3000; 4000] aliceMail "guess" users0)
  = (Ok alice, users0).
Proof. vm_compute. reflexivity. Qed.

(** * Further properties of the modelled code *)

(** ** Payment status *)

Lemma service_updatePaymentStatus_run (orderId s : string) (db : Db) :
  OrdersService.updatePaymentStatus orderId s db =
    if ObjectId_isValid orderId then
      match orders db !! orderId with
      | None => (Err (OrdersService.OrderError OrderNotFound), db)
      | Some o =>
          if includes paymentStatuses s
          then (Ok (Some (setPaymentStatus s o)),
                setOrders (<[orderId := setPaymentStatus s o]> (orders db)) db)
          else (Err (OrdersService.InvalidPaymentStatus s), db)
      end
    else (Err (OrdersService.OrderError InvalidOrderId), db).
Proof.
  unfold OrdersService.updatePaymentStatus, OrdersService.orderError,
    OrdersRepository.getOrderById, OrdersRepository.updatePaymentStatus.
  destruct (ObjectId_isValid orderId); simpl; [|done]. run.
  destruct (orders db !! orderId) as [o|] eqn:Ho; [|done].
  destruct (includes paymentStatuses s); simpl; [|done]. by rewrite Ho.
Qed.

(** X1. [updatePaymentStatus] writes nothing but the payment status of the
    one order: products (so every stock count, also on "refunded"), carts
    and the other orders are untouched whatever the outcome; a failure
    leaves the database as it was; on success the order existed, the status
    is one of the enumeration, and the stored and returned order is the old
    one with the new payment status (items, total and order status kept). *)
Theorem updatePaymentStatus_touches_only_the_payment_status
  (orderId s : string) (db db' : Db)
  (r : Result OrdersService.PaymentError (option Order)) :
  OrdersService.updatePaymentStatus orderId s db = (r, db') →
  products db' = products db ∧ carts db' = carts db
  ∧ (∀ k, k ≠ orderId → orders db' !! k = orders db !! k)
  ∧ match r with
    | Err _ => db' = db
    | Ok updated =>
        ∃ o, orders db !! orderId = Some o
             ∧ includes paymentStatuses s = true
             ∧ updated = Some (setPaymentStatus s o)
             ∧ orders db' !! orderId = Some (setPaymentStatus s o)
    end.
Proof.
  rewrite service_updatePaymentStatus_run.
  destruct (ObjectId_isValid orderId); [|by intros [= <- <-]].
  destruct (orders db !! orderId) as [o|] eqn:Ho; [|by intros [= <- <-]].
  destruct (includes paymentStatuses s) eqn:Hs; intros [= <- <-]; [|done].
  simpl. split_and!; try done.
  - intros k Hk. by rewrite lookup_insert_ne.
  - exists o. by rewrite lookup_insert_eq.
Qed.

Lemma updatePaymentStatus_witness :
  let db' := setOrders {[ idOrder := setPaymentStatus "refunded" placedOrder ]} (snd placed) in
  products db' = products (snd placed) ∧ carts db' = carts (snd placed)
  ∧ (∀ k, k ≠ idOrder → orders db' !! k = orders (snd placed) !! k)
  ∧ ∃ o, orders (snd placed) !! idOrder = Some o
         ∧ includes paymentStatuses "refunded" = true
         ∧ Some (setPaymentStatus "refunded" placedOrder)
           = Some (setPaymentStatus "refunded" o)
         ∧ orders db' !! idOrder = Some (setPaymentStatus "refunded" o).
Proof.
  apply (updatePaymentStatus_touches_only_the_payment_status idOrder "refunded"
           (snd placed) _ (Ok (Some (setPaymentStatus "refunded" placedOrder)))).
  vm_compute. reflexivity.
Defined.

Lemma validateOrder_setPaymentStatus (o : Order) (s : string) :
  validateOrder o = true → includes paymentStatuses s = true →
  validateOrder (setPaymentStatus s o) = true.
Proof.
  unfold validateOrder. simpl. rewrite !andb_true_iff.
  intros [[[[[[? ?] ?] ?] ?] _] ?] Hs. by rewrite Hs.
Qed.

Lemma updateOrderStatus_exact (orderId newStatus : string) (db : Db) (o : Order) :
  ObjectId_isValid orderId = true →
  orders db !! orderId = Some o →
  validateOrder o = true →
  includes orderStatuses newStatus = true →
  (String.eqb newStatus "cancelled"
   && negb (String.eqb (o_orderStatus o) "cancelled") = true →
   validOn (o_items o) (products db)) →
  OrdersService.updateOrderStatus orderId newStatus db
  = (Ok (orderPreSave (setStatus newStatus o)),
     mkDb (if String.eqb newStatus "cancelled"
              && negb (String.eqb (o_orderStatus o) "cancelled")
           then revertAll (o_items o) (products db)
           else products db)
       (<[orderId := orderPreSave (setStatus newStatus o)]> (orders db))
       (carts db)).
Proof.
  intros Hid Ho Hv Hs Hvalid.
  unfold OrdersService.updateOrderStatus, OrdersRepository.getOrderById.
  rewrite Hid. run. rewrite Ho, Hs. simpl.
  unfold OrdersRepository.updateOrderStatus, transaction. run.
  rewrite Ho, saveOrder_run, (validateOrder_setStatus _ _ Hv Hs).
  destruct (String.eqb newStatus "cancelled"
            && negb (String.eqb (o_orderStatus o) "cancelled")); [|done].
  rewrite forEach_revert_run; simpl; [done|by apply Hvalid|].
  intros it Hin. by apply (validateOrder_quantities _ _ Hv).
Qed.

(** X2. The payment status and the order status are independent: on a
    stored valid order, setting a payment status and then an order status
    gives the same order and the same database as setting them the other
    way round, stock reversal of a cancellation included. *)
Theorem payment_and_order_status_commute (orderId ps os : string) (db : Db) (o : Order) :
  ObjectId_isValid orderId = true →
  orders db !! orderId = Some o →
  validateOrder o = true →
  includes paymentStatuses ps = true →
  includes orderStatuses os = true →
  validOn (o_items o) (products db) →
  ∃ o' db',
    OrdersService.updateOrderStatus orderId os
      (snd (OrdersService.updatePaymentStatus orderId ps db)) = (Ok o', db')
    ∧ OrdersService.updatePaymentStatus orderId ps
        (snd (OrdersService.updateOrderStatus orderId os db)) = (Ok (Some o'), db')
    ∧ o_paymentStatus o' = ps ∧ o_orderStatus o' = os.
Proof.
  intros Hid Ho Hv Hps Hos Hvalid.
  rewrite (updateOrderStatus_exact orderId os db o) by done.
  rewrite (service_updatePaymentStatus_run orderId ps db), Hid, Ho, Hps.
  cbn [snd].
  rewrite (updateOrderStatus_exact orderId os _ (setPaymentStatus ps o)); try done.
  - rewrite service_updatePaymentStatus_run, Hid. cbn [orders].
    rewrite lookup_insert_eq, Hps.
    eexists _, _. split; [reflexivity|]. split; [|done].
    unfold setOrders. cbn [orders products carts].
    by rewrite !insert_insert_eq.
  - simpl. by rewrite lookup_insert_eq.
  - by apply validateOrder_setPaymentStatus.
Qed.

Lemma payment_and_order_status_commute_witness :
  ∃ o' db',
    OrdersService.updateOrderStatus idOrder "cancelled"
      (snd (OrdersService.updatePaymentStatus idOrder "refunded" (snd placed)))
    = (Ok o', db')
    ∧ OrdersService.updatePaymentStatus idOrder "refunded"
        (snd (OrdersService.updateOrderStatus idOrder "cancelled" (snd placed)))
      = (Ok (Some o'), db')
    ∧ o_paymentStatus o' = "refunded" ∧ o_orderStatus o' = "cancelled".
Proof.
  apply (payment_and_order_status_commute idOrder "refunded" "cancelled"
           (snd placed) placedOrder).
  - vm_compute; reflexivity.
  - vm_compute; reflexivity.
  - vm_compute; reflexivity.
  - vm_compute; reflexivity.
  - vm_compute; reflexivity.
  - intros it p Hit Hp. apply list_elem_of_singleton in Hit as ->.
    vm_compute in Hp. injection Hp as <-. vm_compute; reflexivity.
Defined.

(** ** Placing, reading and deleting an order *)

Lemma createDirectOrder_data (newId userId productId : string) (quantity : Z)
  (addr : ShippingAddress) (pm : string) (sz cl : option string)
  (db db1 : Db) (o : Order) :
  OrdersService.createDirectOrder newId userId productId quantity addr pm sz cl db
  = (Ok o, db1) →
  ∃ p item amount,
    ObjectId_isValid userId = true ∧ ObjectId_isValid productId = true
    ∧ 1 <= quantity
    ∧ products db !! productId = Some p
    ∧ OrdersService.snapshotLine productId p quantity sz cl = Ok (item, amount)
    ∧ OrdersRepository.createOrder newId
        (mkOrderData userId [item] amount addr pm "pending" "pending") db
      = (Ok o, db1).
Proof.
  unfold OrdersService.createDirectOrder, ProductsService.getProductById.
  destruct (ObjectId_isValid userId); [|done].
  destruct (ObjectId_isValid productId); [|done]. simpl.
  destruct (quantity <? 1) eqn:Hq; [done|]. run.
  destruct (products db !! productId) as [p|]; [|done].
  destruct (OrdersService.snapshotLine _ _ _ _ _) as [[item amount]|e] eqn:Hsnap; [|done].
  intros H. exists p, item, amount. split_and!; try done.
  apply Z.ltb_ge in Hq. lia.
Qed.

Lemma createOrderFromCart_data (newId userId : string) (addr : ShippingAddress)
  (pm : string) (db db1 : Db) (o : Order) :
  OrdersService.createOrderFromCart newId userId addr pm db = (Ok o, db1) →
  ∃ cart items total dbB,
    ObjectId_isValid userId = true
    ∧ carts db !! userId = Some cart
    ∧ nonEmpty (cart_items cart) = true
    ∧ OrdersService.buildOrderItems (products db) (cart_items cart) [] 0
      = Ok (items, total)
    ∧ OrdersRepository.createOrder newId
        (mkOrderData userId items total addr pm "pending" "pending") db
      = (Ok o, dbB)
    ∧ db1 = setCarts (<[userId := mkCart [] 0]> (carts dbB)) dbB.
Proof.
  unfold OrdersService.createOrderFromCart.
  destruct (ObjectId_isValid userId) eqn:Huser; [|done]. simpl.
  unfold CartsService.getOrCreateUserCart, rethrowAs,
    CartsRepository.getCartByUserId, CartsRepository.createCart.
  unfold bind at 1. run.
  destruct (carts db !! userId) as [cart|] eqn:Hcart.
  - destruct (nonEmpty (cart_items cart)) eqn:Hne; [|done]. simpl.
    destruct (OrdersService.buildOrderItems _ _ _ _) as [[items total]|e] eqn:Hb; [|done].
    destruct (OrdersRepository.createOrder _ _ db) as [[o'|e] dbB] eqn:Hcreate; [|done].
    unfold CartsService.clearUserCart, CartsRepository.clearCart,
      CartsRepository.getCartByUserId. run.
    destruct (carts dbB !! userId) as [c|]; [|done].
    rewrite saveCart_run. destruct (validateCart userId _); [|done].
    intros [= <- <-]. exists cart, items, total, dbB. done.
  - rewrite saveCart_run. destruct (validateCart userId _); simpl; done.
Qed.

(** X3. An order that either placement function returns is stored under
    its id and read back by [getOrderById] without change to the database;
    it belongs to the user, is pending in both statuses, carries the
    payment method and the trimmed address of the request, and its stored
    total is the non-negative sum the pre-save hook computes from its
    lines. *)
Theorem placed_order_is_read_back (newId userId productId : string)
  (quantity : Z) (addr : ShippingAddress) (pm : string) (sz cl : option string)
  (db db1 : Db) (o : Order) :
  ObjectId_isValid newId = true →
  OrdersService.createDirectOrder newId userId productId quantity addr pm sz cl db
    = (Ok o, db1)
  ∨ OrdersService.createOrderFromCart newId userId addr pm db = (Ok o, db1) →
  OrdersService.getOrderById newId db1 = (Ok o, db1)
  ∧ o_user o = userId
  ∧ o_orderStatus o = "pending" ∧ o_paymentStatus o = "pending"
  ∧ o_paymentMethod o = pm
  ∧ o_shippingAddress o = castAddress addr
  ∧ o_totalAmount o = orderTotal (o_items o)
  ∧ 0 <= o_totalAmount o.
Proof.
  intros Hid H.
  assert (∃ items total dbB,
             OrdersRepository.createOrder newId
               (mkOrderData userId items total addr pm "pending" "pending") db
             = (Ok o, dbB) ∧ orders db1 = orders dbB) as (items & total & dbB & Hc & Hos).
  { destruct H as [H|H].
    - apply createDirectOrder_data in H as (p & item & amount & _ & _ & _ & _ & _ & H).
      by exists [item], amount, db1.
    - apply createOrderFromCart_data in H
        as (cart & items & total & dbB & _ & _ & _ & _ & H & ->).
      by exists items, total, dbB. }
  apply createOrder_facts in Hc as (Hv & -> & Ho & _).
  unfold OrdersService.getOrderById, OrdersRepository.getOrderById.
  rewrite Hid. run. rewrite Hos, Ho, lookup_insert_eq. split_and!; try done.
  unfold validateOrder in Hv. simpl in Hv. rewrite !andb_true_iff in Hv.
  destruct Hv as [[[[[[_ Hitems] _] _] _] _] _].
  by apply fold_total_nonneg.
Qed.

Lemma placed_order_is_read_back_witness :
  OrdersService.getOrderById idOrder (snd placed) = (Ok placedOrder, snd placed)
  ∧ o_user placedOrder = idUser
  ∧ o_orderStatus placedOrder = "pending" ∧ o_paymentStatus placedOrder = "pending"
  ∧ o_paymentMethod placedOrder = "paypal"
  ∧ o_shippingAddress placedOrder = castAddress anAddress
  ∧ o_totalAmount placedOrder = orderTotal (o_items placedOrder)
  ∧ 0 <= o_totalAmount placedOrder.
Proof.
  apply (placed_order_is_read_back idOrder idUser idProduct 3 anAddress "paypal"
           (Some "9") None db0 (snd placed) placedOrder).
  - vm_compute. reflexivity.
  - left. vm_compute. reflexivity.
Defined.

(** X4. [deleteOrder] either fails and leaves the database as it was, or
    returns the stored order, removes exactly that order, runs the stock
    reversal over its lines whatever its status, and leaves the carts
    alone; afterwards the order cannot be read, deleted or updated: each
    attempt fails with "Order not found" and changes nothing. *)
Theorem deleteOrder_outcome (orderId : string) (db db' : Db) (r : Result Error Order) :
  OrdersService.deleteOrder orderId db = (r, db') →
  match r with
  | Err _ => db' = db
  | Ok o =>
      orders db !! orderId = Some o
      ∧ orders db' = delete orderId (orders db)
      ∧ products db' = revertAll (o_items o) (products db)
      ∧ carts db' = carts db
      ∧ OrdersService.getOrderById orderId db' = (Err OrderNotFound, db')
      ∧ OrdersService.deleteOrder orderId db' = (Err OrderNotFound, db')
      ∧ ∀ s, OrdersService.updateOrderStatus orderId s db' = (Err OrderNotFound, db')
  end.
Proof.
  unfold OrdersService.deleteOrder at 1.
  destruct (ObjectId_isValid orderId) eqn:Hid; simpl; [|by intros [= <- <-]].
  unfold OrdersRepository.deleteOrder at 1, transaction. run.
  destruct (orders db !! orderId) as [o|] eqn:Ho; [|by intros [= <- <-]].
  destruct (forEach _ _ _) as [[[]|e] db2] eqn:Hloop; [|by intros [= <- <-]].
  apply forEach_revert_Ok in Hloop as ->. intros [= <- <-]. simpl.
  split_and!; try done.
  - unfold OrdersService.getOrderById, OrdersRepository.getOrderById.
    rewrite Hid. run. by rewrite lookup_delete_eq.
  - unfold OrdersService.deleteOrder, OrdersRepository.deleteOrder, transaction.
    rewrite Hid. run. by rewrite lookup_delete_eq.
  - intros s. unfold OrdersService.updateOrderStatus, OrdersRepository.getOrderById.
    rewrite Hid. run. by rewrite lookup_delete_eq.
Qed.

Lemma deleteOrder_outcome_witness :
  let db' := mkDb (products db0) ∅ ∅ in
  orders (snd placed) !! idOrder = Some placedOrder
  ∧ orders db' = delete idOrder (orders (snd placed))
  ∧ products db' = revertAll (o_items placedOrder) (products (snd placed))
  ∧ carts db' = carts (snd placed)
  ∧ OrdersService.getOrderById idOrder db' = (Err OrderNotFound, db')
  ∧ OrdersService.deleteOrder idOrder db' = (Err OrderNotFound, db')
  ∧ ∀ s, OrdersService.updateOrderStatus idOrder s db' = (Err OrderNotFound, db').
Proof.
  apply (deleteOrder_outcome idOrder (snd placed) _ (Ok placedOrder)).
  vm_compute. reflexivity.
Defined.

(** ** Stock counts stay valid *)

Lemma saveProduct_storeValid (productId : string) (p : Product) (db db' : Db)
  (r : Result Error unit) :
  storeValid db → saveProduct productId p db = (r, db') → storeValid db'.
Proof.
  intros Hdb. rewrite saveProduct_run.
  destruct (validateProduct p) eqn:Hp; intros [= <- <-]; [|done].
  intros k q. simpl. destruct (decide (k = productId)) as [->|Hk].
  - rewrite lookup_insert_eq. by intros [= <-].
  - rewrite lookup_insert_ne by done. apply Hdb.
Qed.

Lemma forEach_storeValid {A} (f : A -> M unit) (items : list A) :
  (∀ x db db' r, storeValid db → f x db = (r, db') → storeValid db') →
  ∀ db db' r, storeValid db → forEach f items db = (r, db') → storeValid db'.
Proof.
  intros Hf. induction items as [|x items IH]; intros db db' r Hdb; simpl.
  { run. by intros [= <- <-]. }
  unfold bind at 1. destruct (f x db) as [[[]|e] db1] eqn:Hx.
  - intros H. eapply IH; [|exact H]. eapply Hf; [exact Hdb|exact Hx].
  - intros [= <- <-]. eapply Hf; [exact Hdb|exact Hx].
Qed.

Lemma decrementItem_storeValid (it : OrderItem) (db db' : Db) (r : Result Error unit) :
  storeValid db → OrdersRepository.decrementItem it db = (r, db') → storeValid db'.
Proof.
  intros Hdb. unfold OrdersRepository.decrementItem. run.
  destruct (products db !! i_productId it) as [p|]; [|by intros [= <- <-]].
  destruct (OrdersRepository.decrementStock it p) as [p'|e]; [|by intros [= <- <-]].
  by apply saveProduct_storeValid.
Qed.

Lemma revertItem_storeValid (it : OrderItem) (db db' : Db) (r : Result Error unit) :
  storeValid db → OrdersRepository.revertItem it db = (r, db') → storeValid db'.
Proof.
  intros Hdb. unfold OrdersRepository.revertItem. run.
  destruct (products db !! i_productId it) as [p|]; [|by intros [= <- <-]].
  by apply saveProduct_storeValid.
Qed.

Lemma createOrder_storeValid (newId : string) (data : OrderData) (db db' : Db)
  (r : Result Error Order) :
  storeValid db → OrdersRepository.createOrder newId data db = (r, db') → storeValid db'.
Proof.
  intros Hdb. unfold OrdersRepository.createOrder, transaction.
  unfold bind at 1. rewrite saveOrder_run.
  destruct (validateOrder (new_Order data)); [|by intros [= <- <-]].
  unfold bind at 1.
  destruct (forEach _ _ _) as [[[]|e] db2] eqn:Hloop; [|by intros [= <- <-]].
  run. intros [= <- <-].
  eapply (forEach_storeValid _ _ decrementItem_storeValid); [|exact Hloop]. done.
Qed.

(** X5. No order operation breaks the validity of the product collection:
    if every product passes the validators of its schema (so no top-level,
    size or color stock is negative), the same holds after placing an order
    from the cart or directly, after a status or payment-status update and
    after a deletion, whether the operation succeeds or fails. *)
Theorem order_operations_keep_products_valid (db : Db) :
  storeValid db →
  (∀ newId userId addr pm,
      storeValid (snd (OrdersService.createOrderFromCart newId userId addr pm db)))
  ∧ (∀ newId userId productId quantity addr pm sz cl,
      storeValid (snd (OrdersService.createDirectOrder newId userId productId quantity
                         addr pm sz cl db)))
  ∧ (∀ orderId s, storeValid (snd (OrdersService.updateOrderStatus orderId s db)))
  ∧ (∀ orderId s, storeValid (snd (OrdersService.updatePaymentStatus orderId s db)))
  ∧ (∀ orderId, storeValid (snd (OrdersService.deleteOrder orderId db))).
Proof.
  intros Hdb. split_and!.
  - intros newId userId addr pm.
    destruct (OrdersService.createOrderFromCart newId userId addr pm db)
      as [[o|e] db'] eqn:H; simpl.
    + apply createOrderFromCart_data in H
        as (cart & items & total & dbB & _ & _ & _ & _ & H & ->).
      by apply (createOrder_storeValid _ _ _ _ _ Hdb) in H.
    + apply createOrderFromCart_Err in H as [_ Hps]. unfold storeValid.
      by rewrite Hps.
  - intros newId userId productId quantity addr pm sz cl.
    destruct (OrdersService.createDirectOrder _ _ _ _ _ _ _ _ db) as [[o|e] db'] eqn:H;
      simpl.
    + apply createDirectOrder_data in H as (p & item & amount & _ & _ & _ & _ & _ & H).
      by apply (createOrder_storeValid _ _ _ _ _ Hdb) in H.
    + by apply createDirectOrder_Err in H as ->.
  - intros orderId s. unfold OrdersService.updateOrderStatus, OrdersRepository.getOrderById.
    destruct (ObjectId_isValid orderId); simpl; [|done]. run.
    destruct (orders db !! orderId) as [o|] eqn:Ho; [|done].
    destruct (negb (includes orderStatuses s)); [done|].
    destruct (OrdersRepository.updateOrderStatus orderId s db) as [r db'] eqn:H.
    unfold OrdersRepository.updateOrderStatus, transaction in H. run.
    rewrite Ho, saveOrder_run in H.
    destruct (validateOrder (setStatus s o)); [|by injection H as <- <-].
    destruct (String.eqb s "cancelled" && negb (String.eqb (o_orderStatus o) "cancelled")).
    + destruct (forEach _ _ _) as [[[]|e] db2] eqn:Hloop; [|by injection H as <- <-].
      injection H as <- <-.
      eapply (forEach_storeValid _ _ revertItem_storeValid); [|exact Hloop]. done.
    + by injection H as <- <-.
  - intros orderId s. rewrite service_updatePaymentStatus_run.
    destruct (ObjectId_isValid orderId); [|done].
    destruct (orders db !! orderId); [|done].
    by destruct (includes paymentStatuses s).
  - intros orderId. unfold OrdersService.deleteOrder.
    destruct (ObjectId_isValid orderId); simpl; [|done].
    unfold OrdersRepository.deleteOrder, transaction. run.
    destruct (orders db !! orderId) as [o|]; [|done].
    destruct (forEach _ _ _) as [[[]|e] db2] eqn:Hloop; [|done]. simpl.
    assert (Hdb2 : storeValid db2)
      by (eapply (forEach_storeValid _ _ revertItem_storeValid); [|exact Hloop]; done).
    exact Hdb2.
Qed.

Lemma order_operations_keep_products_valid_witness :
  (∀ newId userId addr pm,
      storeValid (snd (OrdersService.createOrderFromCart newId userId addr pm db0)))
  ∧ (∀ newId userId productId quantity addr pm sz cl,
      storeValid (snd (OrdersService.createDirectOrder newId userId productId quantity
                         addr pm sz cl db0)))
  ∧ (∀ orderId s, storeValid (snd (OrdersService.updateOrderStatus orderId s db0)))
  ∧ (∀ orderId s, storeValid (snd (OrdersService.updatePaymentStatus orderId s db0)))
  ∧ (∀ orderId, storeValid (snd (OrdersService.deleteOrder orderId db0))).
Proof.
  apply (order_operations_keep_products_valid db0).
  intros k p Hp. simpl in Hp. apply lookup_singleton_Some in Hp as [_ <-].
  vm_compute. reflexivity.
Defined.

(** ** The stock a direct order takes *)

Lemma revertTarget_selectors (a b : OrderItem) (p : Product) :
  i_selectedSize a = i_selectedSize b → i_selectedColor a = i_selectedColor b →
  revertTarget a p = revertTarget b p.
Proof. unfold revertTarget. by intros -> ->. Qed.

Lemma resolve_by_target (it : OrderItem) (p : Product) (a : Z) :
  OrdersService.resolveAvailableStock (i_selectedSize it) (i_selectedColor it) p = Ok a
  ↔ stockAt (revertTarget it p) p = Some a.
Proof.
  unfold OrdersService.resolveAvailableStock, revertTarget.
  rewrite (andb_comm (truthy (i_selectedSize it))).
  rewrite (andb_comm (truthy (i_selectedColor it))).
  destruct (nonEmpty (p_sizes p) && truthy (i_selectedSize it)).
  { rewrite find_findIndex.
    destruct (findIndex _ (p_sizes p)) as [i|] eqn:Hi; simpl; [|by split].
    destruct (findIndex_lookup _ _ _ Hi) as (s & Hs & _). rewrite Hs. simpl.
    split; by intros [= <-]. }
  destruct (nonEmpty (p_colors p) && truthy (i_selectedColor it)).
  { rewrite find_findIndex.
    destruct (findIndex _ (p_colors p)) as [i|] eqn:Hi; simpl; [|by split].
    destruct (findIndex_lookup _ _ _ Hi) as (c & Hc & _). rewrite Hc. simpl.
    split; by intros [= <-]. }
  simpl. split; by intros [= <-].
Qed.

Lemma stockAt_applyDelta (t : Target) (d : Z) (p : Product) (a : Z) :
  stockAt t p = Some a → stockAt t (applyDelta t d p) = Some (a + d).
Proof.
  destruct t as [|i|i|]; simpl; try done.
  - by intros [= <-].
  - rewrite list_lookup_alter_eq. destruct (p_sizes p !! i); simpl; [|done].
    by intros [= <-].
  - rewrite list_lookup_alter_eq. destruct (p_colors p !! i); simpl; [|done].
    by intros [= <-].
Qed.

(** X6. A direct order that succeeds, with selectors that carry no
    surrounding white space, takes its units from the stock count the
    availability check read: the product existed, the check resolved a
    count of at least the quantity, exactly one product document is
    rewritten, one of its stock counts is lowered by the quantity, and the
    same check on the rewritten product resolves the count minus the
    quantity. *)
Theorem direct_order_takes_the_checked_stock (newId userId productId : string)
  (quantity : Z) (addr : ShippingAddress) (pm : string) (sz cl : option string)
  (db db1 : Db) (o : Order) :
  trim <$> sz = sz → trim <$> cl = cl →
  OrdersService.createDirectOrder newId userId productId quantity addr pm sz cl db
    = (Ok o, db1) →
  ∃ p t available,
    products db !! productId = Some p
    ∧ OrdersService.resolveAvailableStock sz cl p = Ok available
    ∧ 1 <= quantity <= available
    ∧ products db1 = <[productId := applyDelta t (- quantity) p]> (products db)
    ∧ OrdersService.resolveAvailableStock sz cl (applyDelta t (- quantity) p)
      = Ok (available - quantity).
Proof.
  intros Hsz Hcl H.
  apply createDirectOrder_data in H
    as (p & item & amount & _ & _ & Hq & Hp & Hsnap & Hc).
  apply snapshotLine_Ok in Hsnap as (available & Hres & Hav & -> & ->).
  apply createOrder_Ok in Hc as (_ & -> & Hloop). simpl in Hloop.
  unfold bind in Hloop.
  destruct (OrdersRepository.decrementItem _ _) as [[[]|e] db2] eqn:Hdec; [|done].
  run. injection Hloop as <-.
  apply decrementItem_Ok in Hdec as (p0 & p' & Hp0 & Hd & Hv & ->).
  simpl in Hp0. rewrite Hp in Hp0. injection Hp0 as <-.
  apply decrementStock_names in Hd as (t & -> & Ht). simpl in *.
  specialize (Ht _ Hv).
  set (it := lineOf sz cl).
  assert (Hit : revertTarget it p = t)
    by (rewrite <- Ht; apply revertTarget_selectors; simpl; congruence).
  exists p, t, available. split_and!; try done.
  - apply Z.ltb_ge in Hav. lia.
  - apply (resolve_by_target it). rewrite revertTarget_applyDelta, Hit.
    replace (available - quantity) with (available + - quantity) by lia.
    apply stockAt_applyDelta. rewrite <- Hit. by apply (resolve_by_target it).
Qed.

Lemma direct_order_takes_the_checked_stock_witness :
  ∃ p t available,
    products db0 !! idProduct = Some p
    ∧ OrdersService.resolveAvailableStock (Some "9") None p = Ok available
    ∧ 1 <= 3 <= available
    ∧ products (snd placed) = <[idProduct := applyDelta t (- 3) p]> (products db0)
    ∧ OrdersService.resolveAvailableStock (Some "9") None (applyDelta t (- 3) p)
      = Ok (available - 3).
Proof.
  apply (direct_order_takes_the_checked_stock idOrder idUser idProduct 3 anAddress
           "paypal" (Some "9") None db0 (snd placed) placedOrder).
  - vm_compute. reflexivity.
  - reflexivity.
  - vm_compute. reflexivity.
Defined.

(** ** Orders from the cart *)

Lemma buildOrderItems_lines (ps : gmap string Product) (cartItems : list CartItem) :
  ∀ (acc : list OrderItem) (total : Z) (items : list OrderItem) (total' : Z),
    OrdersService.buildOrderItems ps cartItems acc total = Ok (items, total') →
    ∃ new, items = (acc ++ new)%list
           ∧ Forall2 (fun ci it => storedLine ps ci = Some (castItem it)) cartItems new.
Proof.
  induction cartItems as [|ci rest IH]; intros acc total items total'; simpl.
  { intros [= <- <-]. exists []. by rewrite app_nil_r. }
  destruct (OrdersService.checkCartItem ps ci) as [[item amount]|e] eqn:Hci; [|done].
  intros (new & -> & Hnew)%IH. exists (item :: new). rewrite <- app_assoc.
  split; [done|]. constructor; [|done].
  unfold OrdersService.checkCartItem in Hci. unfold storedLine.
  destruct (ps !! c_product ci) as [p|]; [|done]. simpl.
  by apply snapshotLine_Ok in Hci as (_ & _ & _ & -> & _).
Qed.

(** X7. An order placed from the cart succeeds only on a stored cart with
    at least one line; the order has one line per cart line, in the cart's
    order, each the snapshot of the product the cart line names (name,
    price, sale price and first image of the product, quantity and trimmed
    selectors of the cart line); and afterwards the user's cart is empty
    with total 0, the other carts being untouched. *)
Theorem order_from_cart_empties_the_cart (newId userId : string)
  (addr : ShippingAddress) (pm : string) (db db1 : Db) (o : Order) :
  OrdersService.createOrderFromCart newId userId addr pm db = (Ok o, db1) →
  ∃ cart,
    carts db !! userId = Some cart
    ∧ cart_items cart ≠ []
    ∧ Forall2 (fun ci it => storedLine (products db) ci = Some it)
        (cart_items cart) (o_items o)
    ∧ carts db1 = <[userId := mkCart [] 0]> (carts db).
Proof.
  intros H. apply createOrderFromCart_data in H
    as (cart & items & total & dbB & _ & Hcart & Hne & Hb & Hc & ->).
  apply createOrder_facts in Hc as (_ & -> & _ & Hcarts & _).
  apply buildOrderItems_lines in Hb as (new & -> & Hnew).
  exists cart. split_and!; try done.
  - by destruct (cart_items cart).
  - simpl. by apply Forall2_fmap_r.
  - simpl. by rewrite Hcarts.
Qed.

(** X8. An order from the cart is refused before anything is priced or
    reserved: an invalid user id gives "Invalid user ID" and a stored cart
    without lines gives the empty-cart error, both without any write; for a
    user without a cart the empty-cart error comes after a fresh empty cart
    has been stored for that user, the only write. *)
Theorem order_from_empty_cart_is_refused (newId userId : string)
  (addr : ShippingAddress) (pm : string) (db : Db) :
  (ObjectId_isValid userId = false →
   OrdersService.createOrderFromCart newId userId addr pm db = (Err InvalidUserId, db))
  ∧ (ObjectId_isValid userId = true →
     match carts db !! userId with
     | Some cart =>
         cart_items cart = [] →
         OrdersService.createOrderFromCart newId userId addr pm db = (Err EmptyCart, db)
     | None =>
         OrdersService.createOrderFromCart newId userId addr pm db
         = (Err EmptyCart, setCarts (<[userId := mkCart [] 0]> (carts db)) db)
     end).
Proof.
  unfold OrdersService.createOrderFromCart, CartsService.getOrCreateUserCart, rethrowAs,
    CartsRepository.getCartByUserId, CartsRepository.createCart.
  split; intros Hid; rewrite Hid; simpl; [done|].
  unfold bind at 1. run.
  destruct (carts db !! userId) as [cart|] eqn:Hcart.
  - intros Hitems. by rewrite Hitems.
  - rewrite saveCart_run. unfold validateCart. simpl. by rewrite Hid.
Qed.

Lemma order_from_empty_cart_is_refused_witness :
  (ObjectId_isValid idUser = false →
   OrdersService.createOrderFromCart idOrder idUser anAddress "paypal" db0
   = (Err InvalidUserId, db0))
  ∧ (ObjectId_isValid idUser = true →
     OrdersService.createOrderFromCart idOrder idUser anAddress "paypal" db0
     = (Err EmptyCart, setCarts (<[idUser := mkCart [] 0]> (carts db0)) db0)).
Proof.
  apply (order_from_empty_cart_is_refused idOrder idUser anAddress "paypal" db0).
Defined.

(** ** Restoring twice *)

Lemma revertLine_validOn (all : list OrderItem) (it : OrderItem)
  (ps : gmap string Product) :
  it ∈ all → 0 <= i_quantity it → validOn all ps → validOn all (revertLine it ps).
Proof.
  intros Hin Hq Hps it' p' Hin'. unfold revertLine.
  destruct (ps !! i_productId it) as [p|] eqn:Hp; [|by apply Hps].
  destruct (decide (i_productId it' = i_productId it)) as [->|Hne].
  - rewrite lookup_insert_eq. intros [= <-]. apply revertStock_valid; [done|].
    by apply (Hps it).
  - rewrite lookup_insert_ne by done. by apply Hps.
Qed.

Lemma revertAll_validOn (all items : list OrderItem) (ps : gmap string Product) :
  (∀ it, it ∈ items → it ∈ all ∧ 0 <= i_quantity it) →
  validOn all ps → validOn all (revertAll items ps).
Proof.
  revert ps. induction items as [|it items IH]; intros ps Hitems Hps; [done|].
  change (revertAll (it :: items) ps) with (revertAll items (revertLine it ps)).
  apply IH.
  - intros it' Hin. apply Hitems. by right.
  - destruct (Hitems it) as [? ?]; [by left|]. by apply revertLine_validOn.
Qed.

(** X9. The reversal runs once for every change to "cancelled" and once
    more on deletion, with no memory of earlier runs. After an order is
    placed and cancelled (which brings the products back to what they were
    before the order), (i) deleting the cancelled order and (ii) setting it
    back to "pending" and cancelling it again both succeed and leave the
    products of before the order with the quantities of the order added on
    top. *)
Theorem cancelled_order_is_restored_again (newId userId productId : string)
  (quantity : Z) (addr : ShippingAddress) (pm : string) (sz cl : option string)
  (db db1 : Db) (o : Order) :
  ObjectId_isValid newId = true →
  OrdersService.createDirectOrder newId userId productId quantity addr pm sz cl db
    = (Ok o, db1)
  ∨ OrdersService.createOrderFromCart newId userId addr pm db = (Ok o, db1) →
  ∃ o2 db2,
    OrdersService.updateOrderStatus newId "cancelled" db1 = (Ok o2, db2)
    ∧ products db2 = products db
    ∧ (∃ db3, OrdersService.deleteOrder newId db2 = (Ok o2, db3)
              ∧ products db3 = revertAll (o_items o) (products db))
    ∧ (∃ o3 db3 o4 db4,
          OrdersService.updateOrderStatus newId "pending" db2 = (Ok o3, db3)
          ∧ products db3 = products db
          ∧ OrdersService.updateOrderStatus newId "cancelled" db3 = (Ok o4, db4)
          ∧ products db4 = revertAll (o_items o) (products db)).
Proof.
  intros Hid H.
  assert (∃ data dbB,
             OrdersRepository.createOrder newId data db = (Ok o, dbB)
             ∧ d_orderStatus data = "pending"
             ∧ products db1 = products dbB ∧ orders db1 = orders dbB)
    as (data & dbB & Hc & Hst & Hps & Hos).
  { destruct H as [H|H].
    - apply createDirectOrder_data in H as (p & item & amount & _ & _ & _ & _ & _ & H).
      by eexists _, db1.
    - apply createOrderFromCart_data in H
        as (cart & items & total & dbB & _ & _ & _ & _ & H & ->).
      by eexists _, dbB. }
  apply createOrder_facts in Hc as (Hv & Ho & Hord & _ & Hrev & Hvalid).
  apply created_order_valid in Hv. rewrite <- Ho in Hv.
  assert (Hstatus : o_orderStatus o = "pending") by (by rewrite Ho).
  assert (Hq : ∀ it, it ∈ o_items o → it ∈ o_items o ∧ 0 <= i_quantity it).
  { intros it Hin. split; [done|]. by apply (validateOrder_quantities o). }
  assert (Hvalid0 : validOn (o_items o) (products db)).
  { rewrite <- Hrev. by apply revertAll_validOn. }
  assert (Ho1 : orders db1 !! newId = Some o)
    by (by rewrite Hos, Hord, lookup_insert_eq).
  assert (Hvalid1 : validOn (o_items o) (products db1)) by (by rewrite Hps).
  set (o2 := orderPreSave (setStatus "cancelled" o)).
  assert (Hv2 : validateOrder o2 = true)
    by (by apply created_order_valid, validateOrder_setStatus).
  set (db2 := mkDb (products db) (<[newId := o2]> (orders db1)) (carts db1)).
  assert (Ho2 : orders db2 !! newId = Some o2) by (simpl; by rewrite lookup_insert_eq).
  exists o2, db2. split.
  { rewrite (updateOrderStatus_exact newId "cancelled" db1 o Hid Ho1 Hv eq_refl
               (fun _ => Hvalid1)).
    rewrite Hstatus. cbn [String.eqb Ascii.eqb Bool.eqb andb negb].
    by rewrite Hps, Hrev. }
  split; [done|]. split.
  - destruct (deleteOrder_total newId db2 o2 Hid Ho2 Hv2 Hvalid0)
      as (db3 & Hdel & Hp3 & _).
    exists db3. split; [done|]. by rewrite Hp3.
  - set (o3 := orderPreSave (setStatus "pending" o2)).
    assert (Hv3 : validateOrder o3 = true)
      by (by apply created_order_valid, validateOrder_setStatus).
    set (db3 := mkDb (products db) (<[newId := o3]> (orders db2)) (carts db2)).
    assert (Ho3 : orders db3 !! newId = Some o3) by (simpl; by rewrite lookup_insert_eq).
    exists o3, db3. eexists _, _.
    rewrite (updateOrderStatus_exact newId "pending" db2 o2 Hid Ho2 Hv2 eq_refl
               (fun _ => Hvalid0)).
    rewrite (updateOrderStatus_exact newId "cancelled" db3 o3 Hid Ho3 Hv3 eq_refl
               (fun _ => Hvalid0)).
    split_and!; reflexivity.
Qed.

Lemma cancelled_order_is_restored_again_witness :
  ∃ o2 db2,
    OrdersService.updateOrderStatus idOrder "cancelled" (snd placed) = (Ok o2, db2)
    ∧ products db2 = products db0
    ∧ (∃ db3, OrdersService.deleteOrder idOrder db2 = (Ok o2, db3)
              ∧ products db3 = revertAll (o_items placedOrder) (products db0))
    ∧ (∃ o3 db3 o4 db4,
          OrdersService.updateOrderStatus idOrder "pending" db2 = (Ok o3, db3)
          ∧ products db3 = products db0
          ∧ OrdersService.updateOrderStatus idOrder "cancelled" db3 = (Ok o4, db4)
          ∧ products db4 = revertAll (o_items placedOrder) (products db0)).
Proof.
  apply (cancelled_order_is_restored_again idOrder idUser idProduct 3 anAddress
           "paypal" (Some "9") None db0 (snd placed) placedOrder).
  - vm_compute. reflexivity.
  - left. vm_compute. reflexivity.
Defined.

(** The worked example: 5 in stock, 3 ordered, then cancelled, then
    deleted: 8 in stock. *)
Example example_cancel_then_delete :
  stockOfSize db0 idProduct "9" = Some 5
  ∧ stockOfSize
      (snd (OrdersService.deleteOrder idOrder
              (snd (OrdersService.updateOrderStatus idOrder "cancelled" (snd placed)))))
      idProduct "9" = Some 8.
Proof. vm_compute. done. Qed.

(** ** Bounds of the stored totals *)

Lemma itemEffectivePrice_le (it : OrderItem) : itemEffectivePrice it <= i_price it.
Proof.
  unfold itemEffectivePrice. destruct (i_salePrice it) as [sp|]; [|lia].
  destruct (sp <? i_price it) eqn:H; [apply Z.ltb_lt in H|]; lia.
Qed.

Lemma cartItemEffectivePrice_le (it : CartItem) : cartItemEffectivePrice it <= c_price it.
Proof.
  unfold cartItemEffectivePrice. destruct (c_salePrice it) as [sp|]; [|lia].
  destruct (sp <? c_price it) eqn:H; [apply Z.ltb_lt in H|]; lia.
Qed.

Lemma fold_total_le (items : list OrderItem) (a b : Z) :
  forallb validateItem items = true → a <= b →
  fold_left (fun total it => total + itemEffectivePrice it * i_quantity it) items a
  <= fold_left (fun total it => total + i_price it * i_quantity it) items b.
Proof.
  revert a b. induction items as [|it items IH]; intros a b; simpl; [done|].
  rewrite andb_true_iff. intros [Hit Hitems] Hab. apply IH; [done|].
  unfold validateItem in Hit. rewrite !andb_true_iff in Hit.
  destruct Hit as [_ Hq%Z.leb_le]. pose proof (itemEffectivePrice_le it). nia.
Qed.

Lemma fold_cartTotal_le (items : list CartItem) (a b : Z) :
  forallb validateCartItem items = true → a <= b →
  fold_left (fun total it => total + cartItemEffectivePrice it * c_quantity it) items a
  <= fold_left (fun total it => total + c_price it * c_quantity it) items b.
Proof.
  revert a b. induction items as [|it items IH]; intros a b; simpl; [done|].
  rewrite andb_true_iff. intros [Hit Hitems] Hab. apply IH; [done|].
  unfold validateCartItem in Hit. rewrite andb_true_iff in Hit.
  destruct Hit as [_ Hq%Z.leb_le]. pose proof (cartItemEffectivePrice_le it). nia.
Qed.

(** X10. The totals the pre-save hooks store never exceed the sum of the
    lines at their full price: a sale price only ever lowers a line. For
    the lines of an order that passed validation the total is not negative
    either. *)
Theorem stored_totals_are_bounded :
  (∀ items, forallb validateItem items = true →
            0 <= orderTotal items <= fullPriceTotal items)
  ∧ (∀ items, forallb validateCartItem items = true →
              cartTotal items <= cartFullPriceTotal items).
Proof.
  split.
  - intros items Hv. split.
    + by apply fold_total_nonneg.
    + by apply fold_total_le.
  - intros items Hv. by apply fold_cartTotal_le.
Qed.

Lemma order_from_cart_empties_the_cart_witness :
  ∃ cart,
    carts dbInStock !! idUser = Some cart
    ∧ cart_items cart ≠ []
    ∧ Forall2 (fun ci it => storedLine (products dbInStock) ci = Some it)
        (cart_items cart) (o_items orderInStock)
    ∧ carts (snd (OrdersService.createOrderFromCart idOrder idUser anAddress "paypal"
                    dbInStock))
      = <[idUser := mkCart [] 0]> (carts dbInStock).
Proof.
  apply (order_from_cart_empties_the_cart idOrder idUser anAddress "paypal" dbInStock
           _ orderInStock).
  vm_compute. reflexivity.
Defined.

Lemma stored_totals_are_bounded_witness :
  0 <= orderTotal (o_items orderInStock) <= fullPriceTotal (o_items orderInStock)
  ∧ cartTotal (cart_items cartInStock) <= cartFullPriceTotal (cart_items cartInStock).
Proof.
  split.
  - apply (proj1 stored_totals_are_bounded). vm_compute. reflexivity.
  - apply (proj2 stored_totals_are_bounded). vm_compute. reflexivity.
Defined.

(** ** The cart: what an operation may write *)

Lemma repo_addItemToCart_cases (userId productId : string) (quantity price : Z)
  (salePrice : option Z) (sz cl : option string) (db : Db) :
  CartsRepository.addItemToCart userId productId quantity price salePrice sz cl db =
    match carts db !! userId with
    | Some cart =>
        match products db !! castObjectId productId with
        | None => (Err CartProductNotFound, db)
        | Some _ =>
            saveCart userId
              (mkCart (addedItems (cart_items cart) productId quantity price salePrice sz cl)
                 (cart_totalPrice cart)) db
        end
    | None =>
        if ObjectId_isValid userId then
          let db1 := setCarts (<[userId := mkCart [] 0]> (carts db)) db in
          match products db !! castObjectId productId with
          | None => (Err CartProductNotFound, db1)
          | Some _ =>
              saveCart userId
                (mkCart [mkCartItem (castObjectId productId) quantity price salePrice
                           sz cl] 0) db1
          end
        else (Err ValidationError, db)
    end.
Proof.
  destruct (carts db !! userId) as [cart|] eqn:Hcart.
  - destruct (products db !! castObjectId productId) as [product|] eqn:Hp.
    + by apply repo_addItemToCart_run with product.
    + unfold CartsRepository.addItemToCart, CartsRepository.getCartByUserId. run.
      by rewrite Hcart; simpl; rewrite Hp.
  - unfold CartsRepository.addItemToCart, CartsRepository.getCartByUserId,
      CartsRepository.createCart. run. rewrite Hcart, saveCart_run.
    unfold validateCart. simpl. rewrite andb_true_r.
    destruct (ObjectId_isValid userId); simpl; [|done].
    by destruct (products db !! castObjectId productId).
Qed.

Lemma service_addItemToCart_cases (userId productId : string) (quantity : Z)
  (sz cl : option string) (db : Db) :
  CartsService.addItemToCart userId productId quantity sz cl db =
    if ObjectId_isValid productId then
      match products db !! castObjectId productId with
      | None => (Err CartProductNotFound, db)
      | Some product =>
          CartsRepository.addItemToCart userId productId quantity
            (p_price product) (p_salePrice product) sz cl db
      end
    else (Err InvalidProductId, db).
Proof.
  unfold CartsService.addItemToCart, ProductsService.getProductById.
  rewrite castObjectId_valid.
  destruct (ObjectId_isValid productId); simpl; [|done]. run.
  by destruct (products db !! castObjectId productId).
Qed.

Lemma touchesOnlyCart_refl (userId : string) (db : Db) : touchesOnlyCart userId db db.
Proof. by split_and!. Qed.

Lemma touchesOnlyCart_insert (userId : string) (c : Cart) (db : Db) :
  touchesOnlyCart userId db (setCarts (<[userId := c]> (carts db)) db).
Proof. split_and!; try done. intros u Hu. simpl. by rewrite lookup_insert_ne. Qed.

Lemma touchesOnlyCart_trans (userId : string) (db1 db2 db3 : Db) :
  touchesOnlyCart userId db1 db2 → touchesOnlyCart userId db2 db3 →
  touchesOnlyCart userId db1 db3.
Proof.
  intros (? & ? & H1) (? & ? & H2). split_and!; try congruence.
  intros u Hu. by rewrite H2, H1.
Qed.

Lemma saveCart_touchesOnlyCart (userId : string) (c : Cart) (db : Db) :
  touchesOnlyCart userId db (snd (saveCart userId c db)).
Proof.
  rewrite saveCart_run. destruct (validateCart userId c); simpl.
  - apply touchesOnlyCart_insert.
  - apply touchesOnlyCart_refl.
Qed.

(** X11. A cart operation of a user writes to that user's cart and to
    nothing else: whatever the arguments and the outcome, the products (so
    no stock is reserved by the cart), the orders and the carts of the
    other users are as before. *)
Theorem cart_operations_touch_one_cart (userId productId : string) (quantity : Z)
  (sz cl : option string) (db : Db) :
  touchesOnlyCart userId db (snd (CartsService.getOrCreateUserCart userId db))
  ∧ touchesOnlyCart userId db
      (snd (CartsService.addItemToCart userId productId quantity sz cl db))
  ∧ touchesOnlyCart userId db
      (snd (CartsService.removeItemFromCart userId productId sz cl db))
  ∧ touchesOnlyCart userId db
      (snd (CartsService.updateItemQuantity userId productId quantity sz cl db))
  ∧ touchesOnlyCart userId db (snd (CartsService.clearUserCart userId db)).
Proof.
  split_and!.
  - unfold CartsService.getOrCreateUserCart, rethrowAs,
      CartsRepository.getCartByUserId, CartsRepository.createCart. run.
    destruct (carts db !! userId) as [c|]; [apply touchesOnlyCart_refl|].
    pose proof (saveCart_touchesOnlyCart userId (mkCart [] 0) db) as H.
    by destruct (saveCart userId _ db) as [[c|e] db'].
  - rewrite service_addItemToCart_cases.
    destruct (ObjectId_isValid productId); [|apply touchesOnlyCart_refl].
    destruct (products db !! castObjectId productId) as [product|] eqn:Hp;
      [|apply touchesOnlyCart_refl].
    rewrite repo_addItemToCart_cases, Hp.
    destruct (carts db !! userId) as [cart|]; [apply saveCart_touchesOnlyCart|].
    destruct (ObjectId_isValid userId); [|apply touchesOnlyCart_refl].
    eapply touchesOnlyCart_trans; [apply touchesOnlyCart_insert|].
    apply saveCart_touchesOnlyCart.
  - unfold CartsService.removeItemFromCart, CartsRepository.removeItemFromCart,
      CartsRepository.getCartByUserId. run.
    destruct (carts db !! userId) as [c|]; [|apply touchesOnlyCart_refl].
    destruct (_ =? _)%nat; [apply touchesOnlyCart_refl|apply saveCart_touchesOnlyCart].
  - unfold CartsService.updateItemQuantity, CartsRepository.updateItemQuantity,
      CartsRepository.getCartByUserId. run.
    destruct (carts db !! userId) as [c|]; [|apply touchesOnlyCart_refl].
    destruct (findIndex _ (cart_items c)) as [i|]; [|apply touchesOnlyCart_refl].
    destruct (quantity <=? 0); [apply saveCart_touchesOnlyCart|]. run.
    destruct (products db !! castObjectId productId) as [product|];
      [apply saveCart_touchesOnlyCart|apply touchesOnlyCart_refl].
  - unfold CartsService.clearUserCart, CartsRepository.clearCart,
      CartsRepository.getCartByUserId. run.
    destruct (carts db !! userId) as [c|];
      [apply saveCart_touchesOnlyCart|apply touchesOnlyCart_refl].
Qed.

(** X12. A cart operation that fails has written nothing, with one
    exception: removing a line, changing a quantity and clearing leave the
    database as it was on every error, and so does adding a line for a user
    who has a cart; adding for a user without a cart may fail after the
    empty cart has been stored for the user. *)
Theorem failed_cart_operation_writes_nothing (userId productId : string) (quantity : Z)
  (sz cl : option string) (db db' : Db) (e : Error) :
  (CartsService.removeItemFromCart userId productId sz cl db = (Err e, db') → db' = db)
  ∧ (CartsService.updateItemQuantity userId productId quantity sz cl db = (Err e, db')
     → db' = db)
  ∧ (CartsService.clearUserCart userId db = (Err e, db') → db' = db)
  ∧ (CartsService.addItemToCart userId productId quantity sz cl db = (Err e, db') →
     db' = db
     ∨ (carts db !! userId = None
        ∧ db' = setCarts (<[userId := mkCart [] 0]> (carts db)) db)).
Proof.
  split_and!.
  - unfold CartsService.removeItemFromCart, CartsRepository.removeItemFromCart,
      CartsRepository.getCartByUserId. run.
    destruct (carts db !! userId) as [c|]; [|by intros [= _ <-]].
    destruct (_ =? _)%nat; [by intros [= _ <-]|].
    rewrite saveCart_run. destruct (validateCart _ _); [done|by intros [= _ <-]].
  - unfold CartsService.updateItemQuantity, CartsRepository.updateItemQuantity,
      CartsRepository.getCartByUserId. run.
    destruct (carts db !! userId) as [c|]; [|by intros [= _ <-]].
    destruct (findIndex _ (cart_items c)) as [i|]; [|by intros [= _ <-]].
    destruct (quantity <=? 0).
    { rewrite saveCart_run. destruct (validateCart _ _); [done|by intros [= _ <-]]. }
    run. destruct (products db !! castObjectId productId) as [product|];
      [|by intros [= _ <-]].
    rewrite saveCart_run. destruct (validateCart _ _); [done|by intros [= _ <-]].
  - unfold CartsService.clearUserCart, CartsRepository.clearCart,
      CartsRepository.getCartByUserId. run.
    destruct (carts db !! userId) as [c|]; [|by intros [= _ <-]].
    rewrite saveCart_run. destruct (validateCart _ _); [done|by intros [= _ <-]].
  - rewrite service_addItemToCart_cases.
    destruct (ObjectId_isValid productId); [|intros [= _ <-]; by left].
    destruct (products db !! castObjectId productId) as [product|] eqn:Hp;
      [|intros [= _ <-]; by left].
    rewrite repo_addItemToCart_cases, Hp.
    destruct (carts db !! userId) as [cart|].
    + rewrite saveCart_run. destruct (validateCart _ _); [done|].
      intros [= _ <-]. by left.
    + destruct (ObjectId_isValid userId); [|intros [= _ <-]; by left].
      rewrite saveCart_run. destruct (validateCart _ _); [done|].
      intros [= _ <-]. by right.
Qed.

Lemma failed_cart_operation_writes_nothing_witness :
  let db' := setCarts (<[idUser := mkCart [] 0]> (carts dbPlain)) dbPlain in
  db' = dbPlain ∨ (carts dbPlain !! idUser = None ∧ db' = db').
Proof.
  apply (proj2 (proj2 (proj2
           (failed_cart_operation_writes_nothing idUser idPlain 0 None None dbPlain
              (setCarts (<[idUser := mkCart [] 0]> (carts dbPlain)) dbPlain)
              ValidationError)))).
  vm_compute. reflexivity.
Defined.

(** Adding a quantity of 0 for a user without a cart fails on the
    validators and leaves the empty cart behind. *)
Example example_failed_add_leaves_empty_cart :
  CartsService.addItemToCart idUser idPlain 0 None None dbPlain
  = (Err ValidationError, mkDb (products dbPlain) ∅ {[ idUser := mkCart [] 0 ]}).
Proof. vm_compute. reflexivity. Qed.

(** ** The cart: one line per key *)

Lemma findIndex_None_Forall {A} (f : A -> bool) (l : list A) :
  findIndex f l = None → Forall (fun x => f x = false) l.
Proof.
  induction l as [|a l IH]; simpl; [constructor|].
  destruct (f a) eqn:Hf; [done|].
  destruct (findIndex f l); [done|]. intros _. constructor; [done|by apply IH].
Qed.

Lemma sameLine_lineKey (productId : string) (sz cl : option string) (it : CartItem) :
  CartsRepository.sameLine productId sz cl it = true ↔ lineKey it = (productId, sz, cl).
Proof.
  rewrite sameLine_spec. unfold lineKey. split.
  - by intros (-> & -> & ->).
  - by intros [= -> -> ->].
Qed.

Lemma lineKey_alter_quantity (f : CartItem -> Z) (i : nat) (items : list CartItem) :
  lineKey <$> alter (fun it => CartsRepository.setQuantity (f it) it) i items
  = lineKey <$> items.
Proof.
  rewrite (list_fmap_alter lineKey _ id).
  - by rewrite list_alter_id.
  - by apply Forall_forall.
Qed.

Lemma addedItems_unique (items : list CartItem) (productId : string) (quantity price : Z)
  (salePrice : option Z) (sz cl : option string) :
  castObjectId productId = productId →
  uniqueLines items →
  uniqueLines (addedItems items productId quantity price salePrice sz cl).
Proof.
  unfold uniqueLines, addedItems. intros -> Hu.
  destruct (findIndex _ items) as [i|] eqn:Hi.
  - by rewrite (lineKey_alter_quantity (fun it => c_quantity it + quantity)).
  - rewrite fmap_app. apply NoDup_app. split; [done|]. split; [|apply NoDup_singleton].
    intros k Hk Hnew. apply list_elem_of_singleton in Hnew as ->.
    apply list_elem_of_fmap in Hk as (it & Hkey & Hit).
    apply findIndex_None_Forall in Hi. rewrite Forall_forall in Hi.
    specialize (Hi it Hit). simpl in Hi. symmetry in Hkey.
    change (lineKey it = (productId, sz, cl)) in Hkey.
    apply sameLine_lineKey in Hkey. congruence.
Qed.

Lemma filter_unique (f : CartItem -> bool) (items : list CartItem) :
  uniqueLines items → uniqueLines (List.filter f items).
Proof.
  unfold uniqueLines. induction items as [|it items IH]; simpl; [done|].
  rewrite NoDup_cons. intros [Hit Hu]. destruct (f it); simpl; [|by apply IH].
  apply NoDup_cons. split; [|by apply IH].
  intros Hin. apply Hit. apply list_elem_of_fmap in Hin as (it' & Hk & Hin').
  apply list_elem_of_fmap. exists it'. split; [done|].
  apply list_elem_of_In. apply list_elem_of_In in Hin'.
  by apply List.filter_In in Hin' as [? _].
Qed.

Lemma take_drop_unique (i : nat) (items : list CartItem) :
  uniqueLines items → uniqueLines (take i items ++ drop (S i) items).
Proof.
  unfold uniqueLines. rewrite <- delete_take_drop. intros Hu.
  eapply sublist_NoDup; [exact Hu|]. rewrite list_fmap_delete. apply sublist_delete.
Qed.

(** X13. The cart operations keep the lines of a cart distinct by their
    key (product, selected size, selected color): if the stored cart of the
    user has no two lines with one key, neither has the cart that a
    successful remove, quantity update or clear returns and stores, nor the
    cart of a successful add whose product id is given in the spelling in
    which ids are stored (the lower-case string of the ObjectId). An add
    under another spelling does not keep them distinct
    ([example_add_under_upper_case_id]). *)
Theorem cart_lines_stay_unique (userId productId : string) (quantity : Z)
  (sz cl : option string) (db db' : Db) (cart' : Cart) :
  (∀ cart, carts db !! userId = Some cart → uniqueLines (cart_items cart)) →
  (castObjectId productId = productId
   ∧ CartsService.addItemToCart userId productId quantity sz cl db = (Ok cart', db'))
  ∨ CartsService.removeItemFromCart userId productId sz cl db = (Ok cart', db')
  ∨ CartsService.updateItemQuantity userId productId quantity sz cl db = (Ok cart', db')
  ∨ CartsService.clearUserCart userId db = (Ok cart', db') →
  uniqueLines (cart_items cart') ∧ carts db' !! userId = Some cart'.
Proof.
  intros Hu [[Hcanon H]|[H|[H|H]]]; revert H.
  - rewrite service_addItemToCart_cases.
    destruct (ObjectId_isValid productId); [|done].
    destruct (products db !! castObjectId productId) as [product|] eqn:Hp; [|done].
    rewrite repo_addItemToCart_cases, Hp.
    destruct (carts db !! userId) as [cart|] eqn:Hcart.
    + rewrite saveCart_run. destruct (validateCart _ _); [|done].
      intros [= <- <-]. simpl. rewrite lookup_insert_eq. split; [|done].
      by apply addedItems_unique, Hu.
    + destruct (ObjectId_isValid userId); [|done].
      rewrite saveCart_run. destruct (validateCart _ _); [|done].
      intros [= <- <-]. simpl. rewrite lookup_insert_eq. split; [|done].
      apply NoDup_singleton.
  - unfold CartsService.removeItemFromCart, CartsRepository.removeItemFromCart,
      CartsRepository.getCartByUserId. run.
    destruct (carts db !! userId) as [c|] eqn:Hcart; [|done].
    destruct (_ =? _)%nat; [done|].
    rewrite saveCart_run. destruct (validateCart _ _); [|done].
    intros [= <- <-]. simpl. rewrite lookup_insert_eq. split; [|done].
    by apply filter_unique, Hu.
  - unfold CartsService.updateItemQuantity, CartsRepository.updateItemQuantity,
      CartsRepository.getCartByUserId. run.
    destruct (carts db !! userId) as [c|] eqn:Hcart; [|done].
    destruct (findIndex _ (cart_items c)) as [i|]; [|done].
    destruct (quantity <=? 0).
    { rewrite saveCart_run. destruct (validateCart _ _); [|done].
      intros [= <- <-]. simpl. rewrite lookup_insert_eq. split; [|done].
      by apply take_drop_unique, Hu. }
    run. destruct (products db !! castObjectId productId) as [product|]; [|done].
    rewrite saveCart_run. destruct (validateCart _ _); [|done].
    intros [= <- <-]. simpl. rewrite lookup_insert_eq. split; [|done].
    unfold uniqueLines.
    rewrite (lineKey_alter_quantity (fun _ => quantity)). by apply Hu.
  - unfold CartsService.clearUserCart, CartsRepository.clearCart,
      CartsRepository.getCartByUserId. run.
    destruct (carts db !! userId) as [c|] eqn:Hcart; [|done].
    rewrite saveCart_run. destruct (validateCart _ _); [|done].
    intros [= <- <-]. simpl. rewrite lookup_insert_eq. split; [|done].
    apply NoDup_nil_2.
Qed.

Lemma cart_lines_stay_unique_witness :
  let cart' := mkCart [mkCartItem idProduct 4 100 None (Some "9") None;
                       mkCartItem idProduct 2 100 None (Some "10") None] 600 in
  uniqueLines (cart_items cart')
  ∧ carts (snd (CartsService.addItemToCart idUser idProduct 3 (Some "9") None dbTwoSizes))
      !! idUser = Some cart'.
Proof.
  apply (cart_lines_stay_unique idUser idProduct 3 (Some "9") None dbTwoSizes).
  - intros cart Hcart. vm_compute in Hcart. injection Hcart as <-.
    unfold uniqueLines. apply (bool_decide_unpack _). vm_compute. reflexivity.
  - left. split; vm_compute; reflexivity.
Defined.

(** The cart of [example_add_under_upper_case_id] has two lines of one
    key. *)
Example example_upper_case_id_breaks_uniqueness :
  uniqueLines (cart_items cartTwoSizes)
  ∧ ¬ uniqueLines
        (cart_items
           (default cartTwoSizes
              (carts (snd (CartsService.addItemToCart idUser idProductUpper 3 (Some "9")
                             None dbTwoSizes)) !! idUser))).
Proof.
  split.
  - unfold uniqueLines. apply (bool_decide_unpack _). vm_compute. reflexivity.
  - unfold uniqueLines. apply (bool_decide_eq_false_1 _). vm_compute. reflexivity.
Qed.

(** X14. Setting the quantity of a line to zero or less removes the line:
    on a cart without duplicate keys the update succeeds, the returned cart
    has no line with the key any more, one line fewer, and every line of
    another key is kept. *)
Theorem update_to_zero_removes_the_line (userId productId : string) (newQuantity : Z)
  (sz cl : option string) (db : Db) (cart : Cart) (i : nat) :
  carts db !! userId = Some cart →
  validateCart userId cart = true →
  uniqueLines (cart_items cart) →
  findIndex (CartsRepository.sameLine productId sz cl) (cart_items cart) = Some i →
  newQuantity <= 0 →
  ∃ cart' db',
    CartsService.updateItemQuantity userId productId newQuantity sz cl db = (Ok cart', db')
    ∧ carts db' !! userId = Some cart'
    ∧ findIndex (CartsRepository.sameLine productId sz cl) (cart_items cart') = None
    ∧ S (List.length (cart_items cart')) = List.length (cart_items cart)
    ∧ ∀ it, it ∈ cart_items cart → lineKey it ≠ (productId, sz, cl) →
            it ∈ cart_items cart'.
Proof.
  intros Hcart Hv Hu Hi Hq.
  destruct (findIndex_lookup _ _ _ Hi) as (x & Hx & Hkey).
  apply sameLine_lineKey in Hkey.
  unfold CartsService.updateItemQuantity, CartsRepository.updateItemQuantity,
    CartsRepository.getCartByUserId. run. rewrite Hcart, Hi.
  replace (newQuantity <=? 0) with true by (symmetry; apply Z.leb_le; lia).
  rewrite saveCart_run.
  rewrite (validateCart_items userId (cart_items cart) (cart_totalPrice cart)
             (cart_totalPrice cart) (take i (cart_items cart)
                                       ++ drop (S i) (cart_items cart))%list).
  2: { by destruct cart. }
  2: { apply forallb_take_drop. }
  eexists _, _. split; [reflexivity|]. simpl. rewrite lookup_insert_eq.
  split; [done|]. rewrite <- delete_take_drop.
  pose proof (take_drop_middle _ _ _ Hx) as Hmid.
  assert (Hu' : NoDup ((lineKey <$> take i (cart_items cart))
                         ++ lineKey x :: (lineKey <$> drop (S i) (cart_items cart)))).
  { rewrite <- fmap_cons, <- fmap_app, Hmid. exact Hu. }
  apply NoDup_app in Hu' as (_ & Hdisj & Htail).
  apply NoDup_cons in Htail as [Hnot _].
  split_and!.
  - destruct (findIndex _ (delete i (cart_items cart))) as [j|] eqn:Hj; [|done].
    exfalso. destruct (findIndex_lookup _ _ _ Hj) as (y & Hy & Hkeyy).
    apply sameLine_lineKey in Hkeyy.
    apply list_elem_of_lookup_2 in Hy. rewrite delete_take_drop in Hy.
    apply elem_of_app in Hy as [Hy|Hy].
    + apply (Hdisj (lineKey y)); [by apply list_elem_of_fmap_2|].
      rewrite Hkeyy, <- Hkey. apply elem_of_cons. by left.
    + apply Hnot. rewrite Hkey, <- Hkeyy. by apply list_elem_of_fmap_2.
  - rewrite length_delete; [|by eexists].
    apply lookup_lt_Some in Hx. lia.
  - intros it Hin Hne. rewrite <- Hmid in Hin. rewrite delete_take_drop.
    apply elem_of_app in Hin as [Hin|Hin]; [apply elem_of_app; by left|].
    apply elem_of_cons in Hin as [->|Hin]; [done|]. apply elem_of_app. by right.
Qed.

Lemma update_to_zero_removes_the_line_witness :
  ∃ cart' db',
    CartsService.updateItemQuantity idUser idProduct 0 (Some "10") None dbTwoSizes
    = (Ok cart', db')
    ∧ carts db' !! idUser = Some cart'
    ∧ findIndex (CartsRepository.sameLine idProduct (Some "10") None) (cart_items cart')
      = None
    ∧ S (List.length (cart_items cart')) = List.length (cart_items cartTwoSizes)
    ∧ ∀ it, it ∈ cart_items cartTwoSizes → lineKey it ≠ (idProduct, Some "10", None) →
            it ∈ cart_items cart'.
Proof.
  apply (update_to_zero_removes_the_line idUser idProduct 0 (Some "10") None
           dbTwoSizes cartTwoSizes 1%nat).
  - vm_compute. reflexivity.
  - vm_compute. reflexivity.
  - unfold uniqueLines. apply (bool_decide_unpack _). vm_compute. reflexivity.
  - vm_compute. reflexivity.
  - lia.
Defined.

(** X15. [getOrCreateUserCart] with a valid user id always returns a cart
    that is then the stored cart of the user: the stored one without any
    write when there is one, a fresh empty cart with total 0 otherwise;
    calling it again returns the same cart and writes nothing. With an
    invalid user id and no stored cart it fails with the retrieval error
    and writes nothing. *)
Theorem getOrCreateUserCart_is_idempotent (userId : string) (db : Db) :
  (ObjectId_isValid userId = true →
   ∃ cart db',
     CartsService.getOrCreateUserCart userId db = (Ok cart, db')
     ∧ carts db' !! userId = Some cart
     ∧ match carts db !! userId with
       | Some stored => cart = stored ∧ db' = db
       | None => cart = mkCart [] 0
       end
     ∧ CartsService.getOrCreateUserCart userId db' = (Ok cart, db'))
  ∧ (ObjectId_isValid userId = false → carts db !! userId = None →
     CartsService.getOrCreateUserCart userId db = (Err CartRetrievalFailed, db)).
Proof.
  unfold CartsService.getOrCreateUserCart, rethrowAs,
    CartsRepository.getCartByUserId, CartsRepository.createCart. run.
  split.
  - intros Hid. destruct (carts db !! userId) as [c|] eqn:Hc.
    + exists c, db. by rewrite Hc.
    + rewrite saveCart_run. unfold validateCart. rewrite Hid. simpl.
      eexists _, _. split; [reflexivity|]. simpl. by rewrite lookup_insert_eq.
  - intros Hid Hc. rewrite Hc, saveCart_run. unfold validateCart. by rewrite Hid.
Qed.

Lemma getOrCreateUserCart_is_idempotent_witness :
  ∃ cart db',
    CartsService.getOrCreateUserCart idUser dbPlain = (Ok cart, db')
    ∧ carts db' !! idUser = Some cart
    ∧ match carts dbPlain !! idUser with
      | Some stored => cart = stored ∧ db' = dbPlain
      | None => cart = mkCart [] 0
      end
    ∧ CartsService.getOrCreateUserCart idUser db' = (Ok cart, db').
Proof.
  apply (proj1 (getOrCreateUserCart_is_idempotent idUser dbPlain)).
  vm_compute. reflexivity.
Defined.

(** ** The cart: how an addition moves the total *)

Lemma fold_cartTotal_acc (items : list CartItem) (a : Z) :
  fold_left (fun total it => total + cartItemEffectivePrice it * c_quantity it) items a
  = a + cartTotal items.
Proof.
  unfold cartTotal. revert a. induction items as [|it items IH]; intros a; simpl; [lia|].
  rewrite IH, (IH (0 + _)). lia.
Qed.

Lemma cartTotal_cons (it : CartItem) (items : list CartItem) :
  cartTotal (it :: items) = cartItemEffectivePrice it * c_quantity it + cartTotal items.
Proof. unfold cartTotal at 1. simpl. by rewrite fold_cartTotal_acc. Qed.

Lemma cartTotal_snoc (items : list CartItem) (it : CartItem) :
  cartTotal (items ++ [it]) = cartTotal items + cartItemEffectivePrice it * c_quantity it.
Proof. unfold cartTotal. by rewrite fold_left_app. Qed.

Lemma cartTotal_alter_quantity (items : list CartItem) (i : nat) (it : CartItem) (d : Z) :
  items !! i = Some it →
  cartTotal (alter (fun it => CartsRepository.setQuantity (c_quantity it + d) it) i items)
  = cartTotal items + cartItemEffectivePrice it * d.
Proof.
  revert i. induction items as [|x items IH]; intros [|i]; try done.
  - intros [= ->]. simpl. rewrite !cartTotal_cons. simpl.
    unfold cartItemEffectivePrice at 1. simpl.
    fold (cartItemEffectivePrice it). lia.
  - intros Hi. change (alter ?f (S i) (x :: items)) with (x :: alter f i items).
    rewrite !cartTotal_cons, (IH i Hi). lia.
Qed.

(** X16. Adding to the cart of a user whose stored total is the one the
    hook computed raises the stored total by the quantity times the
    effective price of the line: the price snapshot of the existing line
    when the key, with the id as it is given, is already in the cart (the
    product's current price is not consulted), the lower of the product's
    price and sale price when the line is new. The product is the one
    stored under the ObjectId the given id casts to. *)
Theorem add_raises_the_total (userId productId : string) (quantity : Z)
  (sz cl : option string) (db db' : Db) (cart cart' : Cart) (product : Product) :
  carts db !! userId = Some cart →
  products db !! castObjectId productId = Some product →
  cart_totalPrice cart = cartTotal (cart_items cart) →
  CartsService.addItemToCart userId productId quantity sz cl db = (Ok cart', db') →
  cart_totalPrice cart'
  = cart_totalPrice cart
    + match find (CartsRepository.sameLine productId sz cl) (cart_items cart) with
      | Some it => cartItemEffectivePrice it
      | None =>
          cartItemEffectivePrice
            (mkCartItem (castObjectId productId) quantity (p_price product)
               (p_salePrice product) sz cl)
      end * quantity.
Proof.
  intros Hcart Hp Htotal. rewrite service_addItemToCart_cases.
  destruct (ObjectId_isValid productId); [|done]. rewrite Hp.
  rewrite repo_addItemToCart_cases, Hcart, Hp, saveCart_run.
  destruct (validateCart _ _); [|done]. intros [= <- _]. simpl.
  rewrite Htotal, find_findIndex. unfold addedItems.
  destruct (findIndex _ (cart_items cart)) as [i|] eqn:Hi; simpl.
  - destruct (findIndex_lookup _ _ _ Hi) as (it & Hit & _). rewrite Hit.
    by apply cartTotal_alter_quantity.
  - by rewrite cartTotal_snoc.
Qed.

Lemma add_raises_the_total_witness :
  cart_totalPrice
    (mkCart [mkCartItem idProduct 4 100 None (Some "9") None;
             mkCartItem idProduct 2 100 None (Some "10") None] 600)
  = cart_totalPrice cartTwoSizes
    + match find (CartsRepository.sameLine idProduct (Some "9") None)
              (cart_items cartTwoSizes) with
      | Some it => cartItemEffectivePrice it
      | None =>
          cartItemEffectivePrice
            (mkCartItem (castObjectId idProduct) 3 (p_price shoe) (p_salePrice shoe)
               (Some "9") None)
      end * 3.
Proof.
  apply (add_raises_the_total idUser idProduct 3 (Some "9") None dbTwoSizes
           (snd (CartsService.addItemToCart idUser idProduct 3 (Some "9") None dbTwoSizes))
           cartTwoSizes _ shoe).
  - vm_compute. reflexivity.
  - vm_compute. reflexivity.
  - vm_compute. reflexivity.
  - vm_compute. reflexivity.
Defined.

(** ** Login: what an attempt may change *)

Section LoginFrame.

Variable bcrypt_compare : string -> string -> bool.

Lemma login_correct_exact (now : Z) (email password : string)
  (users : gmap string User) (u : User) :
  users !! email = Some u → u_isPermanentlyLocked u = false →
  lockInactive u now →
  bcrypt_compare password (u_password u) = true →
  UsersService.loginUser bcrypt_compare now email password users
  = if (0 <? u_failedLoginAttempts u) || bool_decide (is_Some (u_lockUntil u))
    then (Ok (cleared u), <[email := cleared u]> users)
    else (Ok u, users).
Proof.
  intros Hu Hperm Hlock Hpw.
  unfold UsersService.loginUser, UsersRepository.getUserByEmail,
    UsersRepository.resetFailedLoginAttempts, UsersRepository.findByIdAndUpdate,
    UsersService.notNull.
  unfold bind, ret, throw, get, put, lift. rewrite Hu, Hperm.
  unfold lockInactive in Hlock. unfold cleared.
  destruct (u_lockUntil u) as [l|] eqn:Hl;
    [replace (now <? l) with false by (symmetry; apply Z.ltb_ge; lia)|].
  all: destruct (_ && _) eqn:Hst;
    [apply andb_true_iff in Hst as [Hf _]; rewrite Hu; simpl; rewrite Hpw, Hf; done|].
  all: rewrite Hpw; simpl; rewrite Hperm, orb_false_r.
  all: rewrite ?Hl; simpl.
  all: destruct (0 <? u_failedLoginAttempts u); simpl; rewrite ?Hu; done.
Qed.

(** Every attempt leaves the collection as it was or rewrites the one
    document addressed, keeping its password and role. *)
Lemma login_shape (now : Z) (email password : string) (users users' : gmap string User)
  (r : Result LoginError User) :
  UsersService.loginUser bcrypt_compare now email password users = (r, users') →
  users' = users
  ∨ ∃ u u', users !! email = Some u
            ∧ users' = <[email := u']> users
            ∧ u_password u' = u_password u ∧ u_isAdmin u' = u_isAdmin u
            ∧ (counterInRange u → counterInRange u')
            ∧ (is_Ok r = true → bcrypt_compare password (u_password u) = true).
Proof.
  destruct (users !! email) as [u|] eqn:Hu.
  2: { rewrite login_unknown by done. intros [= _ <-]. by left. }
  destruct (u_isPermanentlyLocked u) eqn:Hperm.
  { rewrite (login_permanently_locked _ _ _ _ _ u) by done. intros [= _ <-]. by left. }
  assert (Hcases : (∃ l, u_lockUntil u = Some l ∧ now < l) ∨ lockInactive u now).
  { unfold lockInactive. destruct (u_lockUntil u) as [l|]; [|by right].
    destruct (decide (now < l)); [left; by exists l|right; lia]. }
  destruct Hcases as [(l & Hl & Hlt)|Hlock].
  { rewrite (login_temporarily_locked _ _ _ _ _ u l) by done. intros [= _ <-]. by left. }
  destruct (bcrypt_compare password (u_password u)) eqn:Hpw.
  { rewrite (login_correct_exact _ _ _ _ u) by done.
    destruct (_ || _); intros [= <- <-]; [|by left].
    right. exists u, (cleared u). split_and!; try done;
      intros _; unfold counterInRange, UsersService.MAX_LOGIN_ATTEMPTS; simpl; lia. }
  destruct (stale u now) eqn:Hstale.
  { rewrite (login_wrong_stale _ _ _ _ _ u) by done. intros [= <- <-].
    right. exists u. eexists. split_and!; try done;
      intros _; unfold counterInRange, UsersService.MAX_LOGIN_ATTEMPTS; simpl; lia. }
  destruct (Z.lt_trichotomy (u_failedLoginAttempts u + 1) UsersService.MAX_LOGIN_ATTEMPTS)
    as [Hlt|[Heq|Hgt]].
  - rewrite (login_wrong_below _ _ _ _ _ u) by done. intros [= <- <-].
    right. exists u. eexists. split_and!; try done;
      unfold counterInRange, UsersService.MAX_LOGIN_ATTEMPTS in *; simpl; lia.
  - rewrite (login_wrong_at_threshold _ _ _ _ _ u) by done. intros [= <- <-].
    right. exists u. eexists. split_and!; try done;
      unfold counterInRange, UsersService.MAX_LOGIN_ATTEMPTS in *; simpl; lia.
  - rewrite (login_wrong_beyond _ _ _ _ _ u) by done. intros [= <- <-].
    right. exists u. eexists. split_and!; try done;
      unfold counterInRange, UsersService.MAX_LOGIN_ATTEMPTS in *; simpl; lia.
Qed.

(** X17. A login succeeds only with the right password on an account that
    is neither permanently locked nor under a running temporary lock: if
    [loginUser] returns a user, the account exists, the comparison of the
    given password with its stored hash is positive, and the user returned
    and stored has a cleared counter and no lock. *)
Theorem login_succeeds_only_with_the_password (now : Z) (email password : string)
  (users users' : gmap string User) (u' : User) :
  UsersService.loginUser bcrypt_compare now email password users = (Ok u', users') →
  ∃ u, users !! email = Some u
       ∧ bcrypt_compare password (u_password u) = true
       ∧ u_isPermanentlyLocked u = false
       ∧ lockInactive u now
       ∧ users' !! email = Some u'
       ∧ u_password u' = u_password u
       ∧ (0 <= u_failedLoginAttempts u → u_failedLoginAttempts u' = 0)
       ∧ u_lockUntil u' = None
       ∧ u_isPermanentlyLocked u' = false.
Proof.
  destruct (users !! email) as [u|] eqn:Hu.
  2: { by rewrite login_unknown. }
  destruct (u_isPermanentlyLocked u) eqn:Hperm.
  { by rewrite (login_permanently_locked _ _ _ _ _ u). }
  assert (Hcases : (∃ l, u_lockUntil u = Some l ∧ now < l) ∨ lockInactive u now).
  { unfold lockInactive. destruct (u_lockUntil u) as [l|]; [|by right].
    destruct (decide (now < l)); [left; by exists l|right; lia]. }
  destruct Hcases as [(l & Hl & Hlt)|Hlock].
  { by rewrite (login_temporarily_locked _ _ _ _ _ u l). }
  destruct (bcrypt_compare password (u_password u)) eqn:Hpw.
  - rewrite (login_correct_exact _ _ _ _ u) by done.
    destruct (0 <? u_failedLoginAttempts u) eqn:Hf; simpl.
    + intros [= <- <-]. exists u. rewrite lookup_insert_eq. by split_and!.
    + destruct (u_lockUntil u) as [l|] eqn:Hl; simpl.
      * intros [= <- <-]. exists u. rewrite lookup_insert_eq. by split_and!.
      * intros [= <- <-]. exists u. split_and!; try done.
        apply Z.ltb_ge in Hf. lia.
  - destruct (stale u now) eqn:Hstale.
    { by rewrite (login_wrong_stale _ _ _ _ _ u). }
    destruct (Z.lt_trichotomy (u_failedLoginAttempts u + 1)
                UsersService.MAX_LOGIN_ATTEMPTS) as [Hlt|[Heq|Hgt]].
    + by rewrite (login_wrong_below _ _ _ _ _ u).
    + by rewrite (login_wrong_at_threshold _ _ _ _ _ u).
    + by rewrite (login_wrong_beyond _ _ _ _ _ u).
Qed.

(** X18. An attempt concerns one account: whatever the outcome, the
    documents of the other users are untouched, no user is created or
    removed, and the password and the role of the addressed user are
    kept. *)
Theorem login_touches_one_account (now : Z) (email password : string)
  (users : gmap string User) :
  let users' := snd (UsersService.loginUser bcrypt_compare now email password users) in
  (∀ other, other ≠ email → users' !! other = users !! other)
  ∧ match users !! email with
    | None => users' !! email = None
    | Some u =>
        ∃ u', users' !! email = Some u'
              ∧ u_password u' = u_password u ∧ u_isAdmin u' = u_isAdmin u
    end.
Proof.
  simpl.
  destruct (UsersService.loginUser _ _ _ _ _) as [r users'] eqn:H. simpl.
  apply login_shape in H as [->|(u & u' & Hu & -> & Hpw & Hadm & _)].
  - split; [done|]. destruct (users !! email) as [u|]; [|done]. by exists u.
  - split.
    + intros other Hne. by rewrite lookup_insert_ne.
    + rewrite Hu. exists u'. by rewrite lookup_insert_eq.
Qed.

(** X19. The failed-attempt counter stays between 0 and
    [MAX_LOGIN_ATTEMPTS + 1]: if the counter of every stored user is in
    that range, it still is after any login attempt. *)
Theorem login_keeps_counter_in_range (now : Z) (email password : string)
  (users : gmap string User) :
  (∀ k u, users !! k = Some u → counterInRange u) →
  ∀ k u,
    snd (UsersService.loginUser bcrypt_compare now email password users) !! k = Some u →
    counterInRange u.
Proof.
  intros Hrange k u.
  destruct (UsersService.loginUser _ _ _ _ _) as [r users'] eqn:H. simpl.
  apply login_shape in H as [->|(u0 & u' & Hu & -> & _ & _ & Hr & _)]; [apply Hrange|].
  destruct (decide (k = email)) as [->|Hne].
  - rewrite lookup_insert_eq. intros [= <-]. by apply Hr, (Hrange email).
  - rewrite lookup_insert_ne by done. apply Hrange.
Qed.

(** X20. A permanent lock outlasts every login attempt: once an account is
    permanently locked, each attempt, with whatever password and at whatever
    time, is refused as permanently locked and changes nothing, so the
    collection is the same after any sequence of attempts. *)
Theorem permanent_lock_outlasts_attempts (email : string)
  (users : gmap string User) (u : User) :
  users !! email = Some u → u_isPermanentlyLocked u = true →
  (∀ now password,
      UsersService.loginUser bcrypt_compare now email password users
      = (Err LockedPermanently, users))
  ∧ ∀ times password, attempts bcrypt_compare times email password users = users.
Proof.
  intros Hu Hperm.
  assert (Hone : ∀ now password,
             UsersService.loginUser bcrypt_compare now email password users
             = (Err LockedPermanently, users)).
  { intros now password. by apply login_permanently_locked with u. }
  split; [exact Hone|].
  intros times password. unfold attempts.
  induction times as [|t times IH]; simpl; [done|]. by rewrite Hone.
Qed.


End LoginFrame.

Lemma login_succeeds_only_with_the_password_witness :
  ∃ u, users0 !! aliceMail = Some u
       ∧ plainCompare "secret" (u_password u) = true
       ∧ u_isPermanentlyLocked u = false
       ∧ lockInactive u 1000
       ∧ users0 !! aliceMail = Some alice
       ∧ u_password alice = u_password u
       ∧ (0 <= u_failedLoginAttempts u → u_failedLoginAttempts alice = 0)
       ∧ u_lockUntil alice = None
       ∧ u_isPermanentlyLocked alice = false.
Proof.
  apply (login_succeeds_only_with_the_password plainCompare 1000 aliceMail "secret"
           users0 users0 alice).
  vm_compute. reflexivity.
Defined.

Lemma login_keeps_counter_in_range_witness :
  counterInRange alice
  ∧ ∀ k u,
      snd (UsersService.loginUser plainCompare 1000 aliceMail "guess" users0) !! k = Some u →
      counterInRange u.
Proof.
  assert (Halice : counterInRange alice)
    by (unfold counterInRange, UsersService.MAX_LOGIN_ATTEMPTS; simpl; lia).
  split; [exact Halice|].
  apply (login_keeps_counter_in_range plainCompare 1000 aliceMail "guess" users0).
  intros k u Hk. unfold users0 in Hk. by apply lookup_singleton_Some in Hk as [_ <-].
Defined.

Lemma permanent_lock_outlasts_attempts_witness :
  (∀ now password,
      UsersService.loginUser plainCompare now aliceMail password
        {[ aliceMail := lockedAlice ]}
      = (Err LockedPermanently, {[ aliceMail := lockedAlice ]}))
  ∧ ∀ times password,
      attempts plainCompare times aliceMail password {[ aliceMail := lockedAlice ]}
      = {[ aliceMail := lockedAlice ]}.
Proof.
  apply (permanent_lock_outlasts_attempts plainCompare aliceMail
           {[ aliceMail := lockedAlice ]} lockedAlice).
  - vm_compute. reflexivity.
  - reflexivity.
Defined.


(** ** Unlocking an account *)

Lemma unlockUserAccount_run (now : Z) (userId : string)
  (adminUserId reason : option string) (s : Accounts) :
  UsersAdmin.unlockUserAccount now userId adminUserId reason s =
    if ObjectId_isValid userId then
      match acc_ids s !! userId with
      | None => (Err UserToUnlockNotFound, s)
      | Some key =>
          match acc_users s !! key with
          | None => (Err UserToUnlockNotFound, s)
          | Some u =>
              let users' := <[key := cleared u]> (acc_users s) in
              if castable adminUserId
              then (Ok (Some (cleared u)),
                    mkAccounts users' (acc_ids s)
                      (acc_auditLogs s ++ [unlockEntry now userId adminUserId reason]))
              else (Err AuditValidationError,
                    mkAccounts users' (acc_ids s) (acc_auditLogs s))
          end
      end
    else (Err CastError, s).
Proof.
  unfold UsersAdmin.unlockUserAccount, UsersAdmin.getUserById,
    UsersAdmin.resetFailedLoginAttempts, UsersAdmin.logAccountUnlock, onUsers,
    UsersRepository.resetFailedLoginAttempts, UsersRepository.findByIdAndUpdate,
    validateAuditLog.
  destruct (ObjectId_isValid userId) eqn:Hid; simpl; [|done].
  unfold bind, ret, throw, get, put. simpl.
  destruct (acc_ids s !! userId) as [key|] eqn:Hkey; simpl; [|done].
  destruct (acc_users s !! key) as [u|] eqn:Hu; simpl; [|done].
  rewrite Hkey, Hu. simpl. rewrite Hid. simpl.
  change (includes auditActions "ACCOUNT_UNLOCK") with true. simpl.
  unfold castable, unlockEntry, cleared.
  by destruct adminUserId as [a|]; [destruct (ObjectId_isValid a)|].
Qed.

(** X22. Unlocking a stored account by an administrator with a valid id
    succeeds: the returned and stored document has the counter at 0, no
    temporary lock and no permanent lock, password and role kept; exactly
    one audit entry is appended, of action ACCOUNT_UNLOCK, naming the user,
    the administrator and the time; the other users and the id index are
    untouched; and from then on a login with the right password succeeds at
    any time. *)
Theorem unlock_clears_the_lock_and_logs (now : Z) (userId key : string)
  (adminUserId reason : option string) (s : Accounts) (u : User) :
  ObjectId_isValid userId = true →
  acc_ids s !! userId = Some key →
  acc_users s !! key = Some u →
  castable adminUserId = true →
  ∃ s' entry,
    UsersAdmin.unlockUserAccount now userId adminUserId reason s = (Ok (Some (cleared u)), s')
    ∧ acc_users s' = <[key := cleared u]> (acc_users s)
    ∧ acc_ids s' = acc_ids s
    ∧ acc_auditLogs s' = (acc_auditLogs s ++ [entry])%list
    ∧ a_action entry = "ACCOUNT_UNLOCK"
    ∧ a_userId entry = userId ∧ a_adminUserId entry = adminUserId
    ∧ a_timestamp entry = now
    ∧ ∀ (bcrypt_compare : string -> string -> bool) t password,
        bcrypt_compare password (u_password u) = true →
        UsersService.loginUser bcrypt_compare t key password (acc_users s')
        = (Ok (cleared u), acc_users s').
Proof.
  intros Hid Hkey Hu Hadmin. rewrite unlockUserAccount_run, Hid, Hkey, Hu. simpl.
  rewrite Hadmin. eexists _, _. split; [reflexivity|]. simpl. split_and!; try done.
  intros bcrypt_compare t password Hpw.
  by rewrite (login_correct_exact bcrypt_compare t key password _ (cleared u));
    [| rewrite lookup_insert_eq | | |].
Qed.

Lemma unlock_clears_the_lock_and_logs_witness :
  ∃ s' entry,
    UsersAdmin.unlockUserAccount 1000 idAlice (Some idAdmin) None accounts0
    = (Ok (Some (cleared lockedAlice)), s')
    ∧ acc_users s' = <[aliceMail := cleared lockedAlice]> (acc_users accounts0)
    ∧ acc_ids s' = acc_ids accounts0
    ∧ acc_auditLogs s' = (acc_auditLogs accounts0 ++ [entry])%list
    ∧ a_action entry = "ACCOUNT_UNLOCK"
    ∧ a_userId entry = idAlice ∧ a_adminUserId entry = Some idAdmin
    ∧ a_timestamp entry = 1000
    ∧ ∀ (bcrypt_compare : string -> string -> bool) t password,
        bcrypt_compare password (u_password lockedAlice) = true →
        UsersService.loginUser bcrypt_compare t aliceMail password (acc_users s')
        = (Ok (cleared lockedAlice), acc_users s').
Proof.
  apply (unlock_clears_the_lock_and_logs 1000 idAlice aliceMail (Some idAdmin) None
           accounts0 lockedAlice).
  - vm_compute. reflexivity.
  - vm_compute. reflexivity.
  - vm_compute. reflexivity.
  - vm_compute. reflexivity.
Defined.

(** X23. How an unlock fails. An id that is no ObjectId and an id no stored
    user has are refused, and nothing is unlocked or logged. An audit entry
    that fails its validators (an administrator id that is no ObjectId) is
    refused after the lockout fields have been reset: the two writes are not
    one transaction, so the account is unlocked and no entry is logged. *)
Theorem failed_unlock (now : Z) (userId : string) (adminUserId reason : option string)
  (s : Accounts) :
  (ObjectId_isValid userId = false →
   UsersAdmin.unlockUserAccount now userId adminUserId reason s = (Err CastError, s))
  ∧ (ObjectId_isValid userId = true → acc_ids s !! userId = None →
     UsersAdmin.unlockUserAccount now userId adminUserId reason s
     = (Err UserToUnlockNotFound, s))
  ∧ (∀ key u,
       ObjectId_isValid userId = true →
       acc_ids s !! userId = Some key → acc_users s !! key = Some u →
       castable adminUserId = false →
       UsersAdmin.unlockUserAccount now userId adminUserId reason s
       = (Err AuditValidationError,
          mkAccounts (<[key := cleared u]> (acc_users s)) (acc_ids s) (acc_auditLogs s))).
Proof.
  rewrite unlockUserAccount_run. split_and!.
  - by intros ->.
  - by intros -> ->.
  - intros key u -> -> -> ->. done.
Qed.

Lemma failed_unlock_witness :
  UsersAdmin.unlockUserAccount 1000 idAlice (Some "root") None accounts0
  = (Err AuditValidationError,
     mkAccounts (<[aliceMail := cleared lockedAlice]> (acc_users accounts0))
       (acc_ids accounts0) (acc_auditLogs accounts0)).
Proof.
  apply (proj2 (proj2 (failed_unlock 1000 idAlice (Some "root") None accounts0))
           aliceMail lockedAlice).
  - vm_compute. reflexivity.
  - vm_compute. reflexivity.
  - vm_compute. reflexivity.
  - vm_compute. reflexivity.
Defined.

(** A permanently locked account before and after the unlock. *)
Example example_unlock_then_login :
  fst (UsersService.loginUser plainCompare 2000 aliceMail "secret" (acc_users accounts0))
  = Err LockedPermanently
  ∧ fst (UsersService.loginUser plainCompare 2000 aliceMail "secret"
           (acc_users (snd (UsersAdmin.unlockUserAccount 1000 idAlice (Some idAdmin)
                              (Some "identity checked") accounts0))))
    = Ok (mkUser "secret" false 0 None false None).
Proof. vm_compute. done. Qed.
